(** * WASSERFALL: fleet command dispatch over SSH

    A shallow embedding of the two executors of the repository
    (command_executor_ssh and command_executor_postgresql) and of the
    helpers in common/, followed by the properties of the classification
    tables, runners, host pipelines and dispatch loops.

    Python text is modelled as the [string] of the bytes of its UTF-8
    encoding: an ASCII character is one byte, any other character two
    to four bytes above 127.  [strip] and [splitlines] know the blanks
    and line boundaries of Unicode by their encodings; [lower] changes
    the ASCII letters only, and the sources search the lowered text for
    ASCII keywords only.
    Python dictionaries with string keys are [gmap string _]; result
    dictionaries with a fixed set of keys are records whose optional
    keys are [option] fields.  Exceptions are values of [exn]; code that
    may raise runs in the monad [M], which threads the mutable world
    (log store, known-hosts files, transport events) and keeps the world
    reached when an exception is raised. *)

From Stdlib Require Import ZArith Ascii String List Bool Lia Permutation.
From Stdlib Require Import DecimalString.
From stdpp Require Import base gmap strings list.

Local Open Scope Z_scope.

(* ===================================================================== *)
(** ** Python primitives used by the sources *)
(* ===================================================================== *)

Module Py.

(** [str.lower()] on the ASCII letters.  The bytes of any other
    character are kept; no character outside ASCII is lowered by Python
    to text that completes one of the keywords the sources look for. *)
Definition is_upper (c : ascii) : bool :=
  let n := nat_of_ascii c in (Nat.leb 65 n && Nat.leb n 90)%bool.

Definition lower_char (c : ascii) : ascii :=
  if is_upper c then ascii_of_nat (nat_of_ascii c + 32) else c.

Fixpoint lower (s : string) : string :=
  match s with
  | EmptyString => EmptyString
  | String c r => String (lower_char c) (lower r)
  end.

(** [needle in hay] for strings. *)
Fixpoint contains (needle hay : string) : bool :=
  (String.prefix needle hay ||
   match hay with
   | EmptyString => false
   | String _ r => contains needle r
   end)%bool.

(** The blanks of [str.strip()] ([str.isspace]).  One byte: TAB, LF, VT,
    FF, CR, FS, GS, RS, US and SPACE. *)
Definition is_space (c : ascii) : bool :=
  let n := nat_of_ascii c in
  ((Nat.leb 9 n && Nat.leb n 13) || (Nat.leb 28 n && Nat.leb n 32))%bool.

(** Two bytes: U+0085 (C2 85) and U+00A0 (C2 A0). *)
Definition is_space2 (a b : ascii) : bool :=
  let x := nat_of_ascii a in
  let y := nat_of_ascii b in
  (Nat.eqb x 194 && (Nat.eqb y 133 || Nat.eqb y 160))%bool.

(** Three bytes: U+1680 (E1 9A 80), U+2000 to U+200A (E2 80 80 to
    E2 80 8A), U+2028, U+2029 and U+202F (E2 80 A8, A9, AF), U+205F
    (E2 81 9F) and U+3000 (E3 80 80). *)
Definition is_space3 (a b c : ascii) : bool :=
  let x := nat_of_ascii a in
  let y := nat_of_ascii b in
  let z := nat_of_ascii c in
  ((Nat.eqb x 225 && Nat.eqb y 154 && Nat.eqb z 128) ||
   (Nat.eqb x 226 && Nat.eqb y 128 &&
    ((Nat.leb 128 z && Nat.leb z 138) || Nat.eqb z 168 || Nat.eqb z 169 ||
     Nat.eqb z 175)) ||
   (Nat.eqb x 226 && Nat.eqb y 129 && Nat.eqb z 159) ||
   (Nat.eqb x 227 && Nat.eqb y 128 && Nat.eqb z 128))%bool.

Definition is_empty (s : string) : bool :=
  match s with EmptyString => true | String _ _ => false end.

(** Python truthiness of a string. *)
Definition truthy (s : string) : bool := negb (is_empty s).

(** [s] is exactly one blank. *)
Definition blank (s : string) : bool :=
  match s with
  | String a EmptyString => is_space a
  | String a (String b EmptyString) => is_space2 a b
  | String a (String b (String c EmptyString)) => is_space3 a b c
  | _ => false
  end.

(** [s] starts with a blank. *)
Definition starts_blank (s : string) : bool :=
  match s with
  | EmptyString => false
  | String a r =>
      (is_space a ||
       match r with
       | EmptyString => false
       | String b r2 =>
           (is_space2 a b ||
            match r2 with
            | EmptyString => false
            | String c _ => is_space3 a b c
            end)
       end)%bool
  end.

(** [s.lstrip()]: the leading blanks are dropped one after the other. *)
Fixpoint lstrip (s : string) : string :=
  match s with
  | EmptyString => EmptyString
  | String a r =>
      if is_space a then lstrip r
      else match r with
           | EmptyString => s
           | String b r2 =>
               if is_space2 a b then lstrip r2
               else match r2 with
                    | EmptyString => s
                    | String c r3 => if is_space3 a b c then lstrip r3 else s
                    end
           end
  end.

(** [s.rstrip()]: the text is read from its end; what is left of it is
    dropped as long as it is a single blank. *)
Fixpoint rstrip (s : string) : string :=
  match s with
  | EmptyString => EmptyString
  | String c r =>
      let r' := rstrip r in
      if blank (String c r') then EmptyString else String c r'
  end.

Definition strip (s : string) : string := rstrip (lstrip s).

(** [s.rstrip(chars)] for a set of one-byte characters. *)
Fixpoint rstrip_by (p : ascii -> bool) (s : string) : string :=
  match s with
  | EmptyString => EmptyString
  | String c r =>
      let r' := rstrip_by p r in
      if (p c && is_empty r')%bool then EmptyString else String c r'
  end.

(** [s.rstrip(';')]. *)
Definition rstrip_semicolon (s : string) : string :=
  rstrip_by (fun c => Ascii.eqb c ";"%char) s.

(** [s.split("=", 1)] when ["=" in s]: the text before the first ["="]
    and the text after it. *)
Fixpoint split_eq (s : string) : option (string * string) :=
  match s with
  | EmptyString => None
  | String c r =>
      if Ascii.eqb c "="%char then Some (EmptyString, r)
      else match split_eq r with
           | Some (k, v) => Some (String c k, v)
           | None => None
           end
  end.

(** Line boundaries of [str.splitlines()].  One byte: LF, VT, FF, CR
    (CR LF counting as one boundary), FS, GS, RS.  Two bytes: U+0085
    (C2 85).  Three bytes: U+2028 and U+2029 (E2 80 A8, E2 80 A9). *)
Definition is_linebreak (c : ascii) : bool :=
  let n := nat_of_ascii c in
  ((Nat.leb 10 n && Nat.leb n 13) || (Nat.leb 28 n && Nat.leb n 30))%bool.

Definition is_linebreak2 (a b : ascii) : bool :=
  (Nat.eqb (nat_of_ascii a) 194 && Nat.eqb (nat_of_ascii b) 133)%bool.

Definition is_linebreak3 (a b c : ascii) : bool :=
  let z := nat_of_ascii c in
  (Nat.eqb (nat_of_ascii a) 226 && Nat.eqb (nat_of_ascii b) 128 &&
   (Nat.eqb z 168 || Nat.eqb z 169))%bool.

(** [splitlines_aux cur s]: [cur] is the line read so far.  A boundary
    ends the line, also an empty one; text after the last boundary is a
    line only when it is not empty. *)
Fixpoint splitlines_aux (cur : string) (s : string) : list string :=
  match s with
  | EmptyString => if is_empty cur then [] else [cur]
  | String c r =>
      if is_linebreak c then
        match r with
        | String d r' =>
            if (Ascii.eqb c "013"%char && Ascii.eqb d "010"%char)%bool
            then cur :: splitlines_aux EmptyString r'
            else cur :: splitlines_aux EmptyString r
        | EmptyString => [cur]
        end
      else
        match r with
        | EmptyString => splitlines_aux (cur +:+ String c EmptyString) r
        | String d r2 =>
            if is_linebreak2 c d then cur :: splitlines_aux EmptyString r2
            else match r2 with
                 | EmptyString => splitlines_aux (cur +:+ String c EmptyString) r
                 | String e r3 =>
                     if is_linebreak3 c d e
                     then cur :: splitlines_aux EmptyString r3
                     else splitlines_aux (cur +:+ String c EmptyString) r
                 end
        end
  end.

Definition splitlines (s : string) : list string := splitlines_aux EmptyString s.

(** [str(n)] for an integer. *)
Definition str_of_Z (n : Z) : string := NilZero.string_of_int (Z.to_int n).

(** The double-quote character. *)
Definition dquote : string := String (ascii_of_nat 34) EmptyString.
Definition squote : string := String (ascii_of_nat 39) EmptyString.
Definition newline : string := String (ascii_of_nat 10) EmptyString.

(** [shlex.quote]: the empty string becomes two single quotes; a string
    of safe characters is returned as is; otherwise the string is put in
    single quotes, each embedded single quote written as
    quote, double-quote, quote, double-quote, quote. *)
Definition is_shell_safe (c : ascii) : bool :=
  let n := nat_of_ascii c in
  ((Nat.leb 48 n && Nat.leb n 57) || (Nat.leb 65 n && Nat.leb n 90) ||
   (Nat.leb 97 n && Nat.leb n 122) ||
   existsb (Ascii.eqb c) ["_"; "@"; "%"; "+"; "="; ":"; ","; "."; "/"; "-"]%char)%bool.

Fixpoint all_chars (p : ascii -> bool) (s : string) : bool :=
  match s with
  | EmptyString => true
  | String c r => (p c && all_chars p r)%bool
  end.

Fixpoint escape_squotes (s : string) : string :=
  match s with
  | EmptyString => EmptyString
  | String c r =>
      if Ascii.eqb c (ascii_of_nat 39)
      then squote +:+ dquote +:+ squote +:+ dquote +:+ squote +:+ escape_squotes r
      else String c (escape_squotes r)
  end.

Definition shlex_quote (s : string) : string :=
  if is_empty s then squote +:+ squote
  else if all_chars is_shell_safe s then s
  else squote +:+ escape_squotes s +:+ squote.

(** Exceptions: the class name and [str(e)]. *)
Record exn := Exn { exn_class : string; exn_str : string }.

Inductive outcome (A : Type) : Type :=
| Return (a : A)
| Raise (e : exn).
Arguments Return {A} a.
Arguments Raise {A} e.

(** Python values that [json.loads] can produce, and [None]. *)
#[warnings="-register-all"]
Inductive value : Type :=
| VNone
| VBool (b : bool)
| VNum (literal : string)
| VStr (s : string)
| VList (items : list value)
| VDict (items : list (string * value)).

End Py.
Export Py.


(* ===================================================================== *)
(** ** The world outside the sources *)
(* ===================================================================== *)

Module Runtime.

(** *** The SSH library

    paramiko is an external library.  The calls the sources make
    ([SSHClient()], [load_system_host_keys], [set_missing_host_key_policy],
    [connect], [exec_command], [close]) are modelled after its documented
    behaviour: [connect] looks the server key up in the system host keys,
    then in the client's own host keys; an entry that differs is a bad
    host key; no entry hands the key to the missing-host-key policy.
    [RejectPolicy] raises.  [AutoAddPolicy] adds the key to the client's
    own host keys and saves them only when a host-keys file was loaded
    with [load_host_keys], which records its file name. *)

Record HostKey := { key_type : string; key_data : string }.

Definition HostKey_eqb (a b : HostKey) : bool :=
  (String.eqb (key_type a) (key_type b) && String.eqb (key_data a) (key_data b))%bool.

Inductive Policy := RejectPolicy | AutoAddPolicy.

Record SSHClient := {
  system_host_keys : list (string * HostKey);
  host_keys : list (string * HostKey);
  host_keys_filename : option string;
  policy : Policy;
  peer : string;
}.

(** What a remote invocation does: the transport raises, or the remote
    process ends with its output and exit status. *)
Inductive RemoteRun :=
| RunRaised (e : exn)
| RunDone (stdout stderr : string) (exit_status : Z).

Record Server := {
  server_key : HostKey;
  server_accepts : string -> string -> bool;
  server_exec : string -> option Z -> RemoteRun;
}.

(** *** The configuration store (wasserfall_config.db) *)

Record ConfigDb := {
  hosts : list (Z * string * bool);
  ssh_variables : list (Z * string * string);
  postgre_variables : list (Z * string * string);
  commands : list (string * string);
}.

(** *** Result dictionaries of the runners and the log store *)

Record ResultDict := {
  rd_command : option string;
  rd_stdout : option string;
  rd_stderr : string;
  rd_exit_code : Z;
  rd_data : option value;
}.

(** One row of execution_tasks joined with its row of execution_results.
    [log_stdout_json] keeps the three members of the dumped object. *)
Record LogRecord := {
  log_target_host : string;
  log_query_text : string;
  log_database_name : option string;
  log_code : string;
  log_exit_code : Z;
  log_stdout_json : string * string * Z;
  log_stderr_text : string;
}.

(** *** Everything the sources read but do not own

    [config_db] and [logger_db] are [Raise] when sqlite cannot open
    the store.  [logger_insert row] is what the two INSERTs and the
    commit of a row do on an opened log store: [Raise] when sqlite
    refuses one of them (a missing table, a locked or read-only store),
    in which case nothing is committed.
    [network h] is [Raise] when no SSH transport to [h] can be set up.
    [render_sql] is common/template_engine.py, which is not part of the
    sources at hand.  [json_loads] is [json.loads]: it returns the parsed
    value or raises, [json.JSONDecodeError] for text that is not JSON,
    and other exceptions too ([ValueError] for an integer of more than
    4300 digits, [RecursionError] for deep nesting).  [int_of_str] is
    [int()] on a stored value, [None] standing for [ValueError]. *)
Record Env := {
  config_db : outcome ConfigDb;
  logger_db : outcome unit;
  logger_insert : LogRecord -> outcome unit;
  ROOT : string;
  path_exists : string -> bool;
  expanduser : string -> string;
  network : string -> outcome Server;
  render_sql : string -> gmap string string -> outcome string;
  json_loads : string -> outcome value;
  int_of_str : string -> option Z;
}.

(** *** The mutable world *)
Record World := {
  logger_rows : list LogRecord;
  host_key_files : gmap string (list (string * HostKey));
  connects : list string;
  execs : list (string * string);
  closes : list string;
}.

(** *** Computations that may raise *)
Definition M (A : Type) : Type := World -> outcome A * World.

Definition ret {A} (a : A) : M A := fun w => (Return a, w).
Definition raise {A} (e : exn) : M A := fun w => (Raise e, w).
Definition bind {A B} (m : M A) (k : A -> M B) : M B :=
  fun w => match m w with
           | (Return a, w') => k a w'
           | (Raise e, w') => (Raise e, w')
           end.

(** [try: m except Exception as e: h e]. *)
Definition try_except {A} (m : M A) (h : exn -> M A) : M A :=
  fun w => match m w with
           | (Return a, w') => (Return a, w')
           | (Raise e, w') => h e w'
           end.

(** [try: x = m except Exception as e: h e else: k x], the shape of a
    guarded call whose handler returns from the function. *)
Definition try_except_else {A B} (m : M A) (h : exn -> M B) (k : A -> M B) : M B :=
  fun w => match m w with
           | (Return a, w') => k a w'
           | (Raise e, w') => h e w'
           end.

(** [of_outcome o]: return or raise as [o] says, the world unchanged. *)
Definition of_outcome {A} (o : outcome A) : M A := fun w => (o, w).

Definition of_option {A} (e : exn) (o : option A) : M A :=
  match o with Some a => ret a | None => raise e end.

Declare Scope py_scope.
Delimit Scope py_scope with py.
Notation "x <- m ;; k" := (bind m (fun x => k))
  (at level 100, m at next level, right associativity) : py_scope.
Notation "m ;;; k" := (bind m (fun _ => k))
  (at level 100, k at level 200, right associativity) : py_scope.
Open Scope py_scope.

(** *** paramiko operations *)

Definition new_client : SSHClient :=
  {| system_host_keys := []; host_keys := []; host_keys_filename := None;
     policy := RejectPolicy; peer := EmptyString |}.

Definition system_known_hosts : string := "~/.ssh/known_hosts".

Definition load_system_host_keys (c : SSHClient) : M SSHClient :=
  fun w =>
    (Return {| system_host_keys :=
                 system_host_keys c ++ default [] (host_key_files w !! system_known_hosts);
               host_keys := host_keys c;
               host_keys_filename := host_keys_filename c;
               policy := policy c; peer := peer c |}, w).

Definition set_missing_host_key_policy (p : Policy) (c : SSHClient) : SSHClient :=
  {| system_host_keys := system_host_keys c; host_keys := host_keys c;
     host_keys_filename := host_keys_filename c; policy := p; peer := peer c |}.

Definition lookup_key (keys : list (string * HostKey)) (hostname ktype : string)
  : option HostKey :=
  match find (fun hk => (String.eqb (fst hk) hostname &&
                         String.eqb (key_type (snd hk)) ktype)%bool) keys with
  | Some hk => Some (snd hk)
  | None => None
  end.

Definition known_key (c : SSHClient) (hostname ktype : string) : option HostKey :=
  match lookup_key (system_host_keys c) hostname ktype with
  | Some k => Some k
  | None => lookup_key (host_keys c) hostname ktype
  end.

Definition note_connect (hostname : string) (w : World) : World :=
  {| logger_rows := logger_rows w; host_key_files := host_key_files w;
     connects := connects w ++ [hostname]; execs := execs w; closes := closes w |}.

Definition save_host_keys (filename : string) (keys : list (string * HostKey))
  (w : World) : World :=
  {| logger_rows := logger_rows w;
     host_key_files := <[filename := keys]> (host_key_files w);
     connects := connects w; execs := execs w; closes := closes w |}.

Definition missing_host_key (c : SSHClient) (hostname : string) (k : HostKey)
  : M SSHClient :=
  match policy c with
  | RejectPolicy =>
      raise (Exn "SSHException"
                 ("Server " +:+ squote +:+ hostname +:+ squote +:+
                  " not found in known_hosts"))
  | AutoAddPolicy =>
      fun w =>
        let keys := host_keys c ++ [(hostname, k)] in
        let c' := {| system_host_keys := system_host_keys c; host_keys := keys;
                     host_keys_filename := host_keys_filename c;
                     policy := policy c; peer := peer c |} in
        (Return c', match host_keys_filename c with
                    | Some f => save_host_keys f keys w
                    | None => w
                    end)
  end.

Definition connect (env : Env) (c : SSHClient)
  (hostname username key_filename : string) (timeout : Z) : M SSHClient :=
  (fun w => (Return tt, note_connect hostname w)) ;;;
  srv <- of_outcome (network env hostname) ;;
  c1 <- match known_key c hostname (key_type (server_key srv)) with
        | Some k =>
            if HostKey_eqb k (server_key srv) then ret c
            else raise (Exn "BadHostKeyException"
                            ("Host key for server " +:+ squote +:+ hostname +:+ squote +:+
                             " does not match: got " +:+
                             squote +:+ key_data (server_key srv) +:+ squote +:+
                             ", expected " +:+ squote +:+ key_data k +:+ squote))
        | None => missing_host_key c hostname (server_key srv)
        end ;;
  if server_accepts srv username key_filename
  then ret {| system_host_keys := system_host_keys c1; host_keys := host_keys c1;
              host_keys_filename := host_keys_filename c1;
              policy := policy c1; peer := hostname |}
  else raise (Exn "AuthenticationException" "Authentication failed.").

(** [client.exec_command(cmd, timeout)] followed by reading both streams
    and the exit status. *)
Definition exec_command (env : Env) (c : SSHClient) (cmd : string) (timeout : option Z)
  : World -> RemoteRun * World :=
  fun w =>
    let w' := {| logger_rows := logger_rows w; host_key_files := host_key_files w;
                 connects := connects w; execs := execs w ++ [(peer c, cmd)];
                 closes := closes w |} in
    match network env (peer c) with
    | Return srv => (server_exec srv cmd timeout, w')
    | Raise e => (RunRaised e, w')
    end.

(** [client.close()] inside [try: ... except: pass]. *)
Definition close (c : SSHClient) (w : World) : World :=
  {| logger_rows := logger_rows w; host_key_files := host_key_files w;
     connects := connects w; execs := execs w; closes := closes w ++ [peer c] |}.

(** [try: m finally: if client: client.close()] for a client that is
    already bound when [m] starts. *)
Definition finally_close {A} (c : SSHClient) (m : M A) : M A :=
  fun w => let '(o, w') := m w in (o, close c w').

End Runtime.
Export Runtime.
Open Scope py_scope.

(* ===================================================================== *)
(** ** common/getter.py *)
(* ===================================================================== *)

Module getter.

Definition get_sqlite_connection {A} (store : outcome A) : option A * string :=
  match store with
  | Return conn => (Some conn, "ok")
  | Raise e => (None, "sqlite_error: " +:+ exn_str e)
  end.

Definition get_ssh_connection (env : Env) (username hostname key_path : string)
  (timeout : Z) (allow_new_hosts : bool) : M (option SSHClient * string) :=
  let client := new_client in
  client <- (if allow_new_hosts
             then ret (set_missing_host_key_policy AutoAddPolicy client)
             else c <- load_system_host_keys client ;;
                  ret (set_missing_host_key_policy RejectPolicy c)) ;;
  try_except
    (c <- connect env client hostname username key_path timeout ;;
     ret (Some c, "ssh_0"))
    (fun e => ret (None, "ssh_99: " +:+ exn_str e)).

(** [{var: val for var, val in rows}]: a later row replaces an earlier one. *)
Definition dict_of_rows (rows : list (string * string)) : gmap string string :=
  foldl (fun m kv => <[fst kv := snd kv]> m) ∅ rows.

Definition rows_of_host (host_id : Z) (table : list (Z * string * string))
  : list (string * string) :=
  map (fun r => (snd (fst r), snd r))
      (List.filter (fun r => Z.eqb (fst (fst r)) host_id) table).

Definition get_config_for_host (env : Env) (host_name : string)
  : M (string * gmap string string * gmap string string) :=
  db <- of_outcome (config_db env) ;;
  match find (fun h => (String.eqb (snd (fst h)) host_name && snd h)%bool) (hosts db) with
  | None =>
      raise (Exn "ValueError"
                 ("Host " +:+ squote +:+ host_name +:+ squote +:+ " not found or disabled"))
  | Some row =>
      let host_id := fst (fst row) in
      let ssh_vars := dict_of_rows (rows_of_host host_id (ssh_variables db)) in
      let pg_vars := dict_of_rows (rows_of_host host_id (postgre_variables db)) in
      ret (host_name, ssh_vars, pg_vars)
  end.

Definition get_all_active_hosts (env : Env) : M (list string) :=
  db <- of_outcome (config_db env) ;;
  ret (map (fun h => snd (fst h)) (List.filter (fun h => snd h) (hosts db))).

End getter.

(* ===================================================================== *)
(** ** common/logger.py *)
(* ===================================================================== *)

Module logger.

(** The two inserts of [log_execution] as one row. *)
Definition row_of (target_host query_text : string) (result : ResultDict)
  (code : string) (database_name : option string) : LogRecord :=
  let exit_code := rd_exit_code result in
  let stdout_text := default EmptyString (rd_stdout result) in
  let stderr_text := rd_stderr result in
  {| log_target_host := target_host;
     log_query_text := query_text;
     log_database_name := database_name;
     log_code := code;
     log_exit_code := exit_code;
     log_stdout_json := (stdout_text, stderr_text, exit_code);
     log_stderr_text := stderr_text |}.

Definition append_row (row : LogRecord) (w : World) : World :=
  {| logger_rows := logger_rows w ++ [row];
     host_key_files := host_key_files w; connects := connects w;
     execs := execs w; closes := closes w |}.

(** The store path argument is fixed to the logger store of [Env].  When
    the store cannot be opened the function prints a message and
    returns without a row.  The inserts and the commit are not guarded:
    an exception of theirs leaves the function, with nothing written. *)
Definition log_execution (env : Env) (target_host query_text : string)
  (result : ResultDict) (code : string) (database_name : option string) : M unit :=
  match getter.get_sqlite_connection (logger_db env) with
  | (None, _) => ret tt
  | (Some _, _) =>
      let row := row_of target_host query_text result code database_name in
      of_outcome (logger_insert env row) ;;;
      fun w => (Return tt, append_row row w)
  end.

(** The rows a call of [log_execution] that returns has added. *)
Definition rows_logged (env : Env) (row : LogRecord) : list LogRecord :=
  match logger_db env with
  | Return _ => [row]
  | Raise _ => []
  end.

End logger.

(* ===================================================================== *)
(** ** command_executor_ssh/modules/ssh_runner.py *)
(* ===================================================================== *)

Module ssh_runner.

Definition _classify_ssh_error (stderr : string) (exit_code : Z) : string :=
  let err := lower stderr in
  if contains "permission denied" err then "cmd_12"
  else if (contains "not found" err || contains "no such file" err)%bool then "cmd_10"
  else if contains "timeout" err then "cmd_16"
  else if (contains "sudo" err && contains "password" err)%bool then "cmd_12"
  else if negb (exit_code =? 0) then "cmd_18"
  else "cmd_99".

Definition full_cmd (command : string) (sudo : bool) (sudo_user : string) : string :=
  if sudo then "sudo -u " +:+ sudo_user +:+ " " +:+ command else command.

Definition run_ssh_command (env : Env) (ssh_client : SSHClient) (command : string)
  (sudo : bool) (sudo_user : string) (timeout : Z) : M (ResultDict * string) :=
  fun w =>
    match exec_command env ssh_client (full_cmd command sudo sudo_user)
            (Some timeout) w with
    | (RunDone stdout stderr exit_code, w') =>
        let out := strip stdout in
        let err := strip stderr in
        let result := {| rd_command := Some command; rd_stdout := Some out;
                         rd_stderr := err; rd_exit_code := exit_code;
                         rd_data := None |} in
        if exit_code =? 0 then (Return (result, "cmd_0"), w')
        else (Return (result, _classify_ssh_error err exit_code), w')
    | (RunRaised e, w') =>
        (Return ({| rd_command := Some command; rd_stdout := Some EmptyString;
                    rd_stderr := exn_str e; rd_exit_code := -1;
                    rd_data := None |}, "ssh_99"), w')
    end.

End ssh_runner.

(* ===================================================================== *)
(** ** command_executor_postgresql/modules/postgres_runner.py *)
(* ===================================================================== *)

Module postgres_runner.

Definition _parse_psql_error (stderr : string) (exit_code : Z) : string :=
  let err := lower stderr in
  if (contains "psql: not found" err || contains "command not found" err)%bool
  then "pg_10"
  else if (contains "fatal" err && contains "password" err)%bool then "pg_12"
  else if (contains "fatal" err &&
           (contains "could not connect" err || contains "no route" err))%bool
  then "pg_16"
  else if (contains "syntax error" err || contains "error:" err)%bool then "pg_14"
  else if negb (exit_code =? 0) then "pg_18" else "pg_99".

Definition psql_command (sql db_user db_name : string) (db_port : Z)
  (psql_path : string) (db_password : option string) : string :=
  let psql_flags := "-U " +:+ shlex_quote db_user +:+ " -d " +:+ shlex_quote db_name +:+
                    " -p " +:+ str_of_Z db_port +:+ " -t -q -A -v ON_ERROR_STOP=1" in
  let env_vars := match db_password with
                  | Some pw => if truthy pw then "PGPASSWORD=" +:+ shlex_quote pw +:+ " "
                               else EmptyString
                  | None => EmptyString
                  end in
  let wrapped_sql := "SELECT json_agg(t) FROM (" +:+ rstrip_semicolon (strip sql) +:+ ") t;" in
  let inner_cmd := env_vars +:+ psql_path +:+ " " +:+ psql_flags +:+
                   " <<'__PGSQL_HEREDOC__'" +:+ newline +:+ wrapped_sql +:+ newline +:+
                   "__PGSQL_HEREDOC__" in
  "su - postgres -c " +:+ shlex_quote inner_cmd.

Definition run_postgres_command_over_ssh (env : Env) (ssh_client : SSHClient)
  (sql db_user db_name : string) (db_port : Z) (psql_path : string)
  (db_password : option string) : M (ResultDict * string) :=
  let full_cmd := psql_command sql db_user db_name db_port psql_path db_password in
  fun w =>
    match exec_command env ssh_client full_cmd None w with
    | (RunRaised _, w') =>
        (Return ({| rd_command := None; rd_stdout := None;
                    rd_stderr := "SSH Execution Failed"; rd_exit_code := -1;
                    rd_data := Some VNone |}, "ssh_99"), w')
    | (RunDone stdout stderr exit_code, w') =>
        let out := strip stdout in
        let err := strip stderr in
        let res := fun data => {| rd_command := None; rd_stdout := None;
                                  rd_stderr := err; rd_exit_code := exit_code;
                                  rd_data := Some data |} in
        if exit_code =? 0 then
          if truthy out then
            match json_loads env out with
            | Return parsed => (Return (res parsed, "pg_0"), w')
            | Raise e =>
                if String.eqb (exn_class e) "JSONDecodeError"
                then (Return (res (VStr out), "pg_0"), w')
                else (Raise e, w')
            end
          else (Return (res (VList []), "pg_0"), w')
        else (Return (res VNone, _parse_psql_error err exit_code), w')
    end.

End postgres_runner.

(* ===================================================================== *)
(** ** command_executor_postgresql/modules/getter.py *)
(* ===================================================================== *)

Module pg_getter.

(** The messages of the two exceptions below are Russian text in the
    source; the model carries an English rendering. *)
Definition get_sql_template (env : Env) (command_name : string) : M string :=
  db <- of_outcome (config_db env) ;;
  match find (fun c => String.eqb (fst c) command_name) (commands db) with
  | None =>
      raise (Exn "ValueError"
                 ("SQL command " +:+ squote +:+ command_name +:+ squote +:+
                  " not found in table commands"))
  | Some row => ret (snd row)
  end.

Definition discovery_command : string :=
  "su - postgres -c " +:+ dquote +:+
  "psql -t -A -c 'SELECT datname FROM pg_database WHERE datistemplate = false;'" +:+
  dquote.

Definition get_user_databases (env : Env) (client : SSHClient)
  (pg_vars : gmap string string) : M (list string) :=
  fun w =>
    match exec_command env client discovery_command None w with
    | (RunRaised e, w') => (Raise e, w')
    | (RunDone stdout stderr _, w') =>
        let out := strip stdout in
        let err := strip stderr in
        if truthy err
        then (Raise (Exn "RuntimeError" ("database list query failed: " +:+ err)), w')
        else (Return (List.filter truthy (map strip (splitlines out))), w')
    end.

End pg_getter.

(** [Path] handling shared by both [process_host] functions: a key path
    that is not absolute is taken below [ROOT] when that file exists and
    is home-expanded otherwise. *)
Definition is_absolute (path : string) : bool := String.prefix "/" path.

Definition resolve_key_path (env : Env) (key_path : string) : string :=
  if is_absolute key_path then key_path
  else let test_path := ROOT env +:+ "/" +:+ key_path in
       if path_exists env test_path then test_path else expanduser env key_path.

(** [int(d.get(key, dflt))]. *)
Definition int_get (env : Env) (d : gmap string string) (key : string) (dflt : Z) : M Z :=
  match d !! key with
  | None => ret dflt
  | Some s =>
      of_option (Exn "ValueError" ("invalid literal for int() with base 10: " +:+ s))
                (int_of_str env s)
  end.

(** [--var key=value] arguments to the template variables. *)
Definition template_vars_of (var : option (list string)) : gmap string string :=
  foldl (fun m v => match split_eq v with
                    | Some kv => <[strip (fst kv) := strip (snd kv)]> m
                    | None => m
                    end) ∅ (default [] var).

(** Futures of a worker pool: the workers are run one after the other in
    submission order, each future holding what its call returned or
    raised. *)
Fixpoint run_pool {A} (task : string -> M A) (hosts : list string)
  : World -> list (string * outcome A) * World :=
  fun w =>
    match hosts with
    | [] => ([], w)
    | h :: rest =>
        let '(o, w1) := task h w in
        let '(futs, w2) := run_pool task rest w1 in
        ((h, o) :: futs, w2)
    end.

(** [ThreadPoolExecutor(max_workers=n)]. *)
Definition ThreadPoolExecutor (max_workers : Z) : M unit :=
  if max_workers <=? 0
  then raise (Exn "ValueError" "max_workers must be greater than 0")
  else ret tt.

(* ===================================================================== *)
(** ** command_executor_postgresql/main.py *)
(* ===================================================================== *)

Module pg_main.

Record DbResult := {
  database : string;
  db_pg_code : string;
  db_exit_code : Z;
  db_success : bool;
  db_data : value;
}.

(** The dictionary [process_host] returns.  [pg_code] is [None] when the
    key is absent and [Some None] when it holds [None]. *)
Record HostResult := {
  host : string;
  ssh_code : string;
  pg_code : option (option string);
  error : option string;
  success : bool;
  results : option (list DbResult);
  databases_processed : option nat;
  databases_failed : option nat;
}.

Definition failure_log (error_msg : string) : ResultDict :=
  {| rd_command := None; rd_stdout := None; rd_stderr := error_msg;
     rd_exit_code := -1; rd_data := Some VNone |}.

Definition failure_result (name ssh pg : string) (with_pg : bool) (error_msg : string)
  : HostResult :=
  {| host := name; ssh_code := ssh;
     pg_code := Some (if with_pg then Some pg else None);
     error := Some error_msg; success := false; results := None;
     databases_processed := None; databases_failed := None |}.

(** The [for db_name in databases] loop of [process_host]. *)
Fixpoint run_databases (env : Env) (client : SSHClient) (name rendered_sql : string)
  (pg_vars : gmap string string) (databases : list string) (results : list DbResult)
  : M (list DbResult) :=
  match databases with
  | [] => ret results
  | db_name :: rest =>
      db_port <- int_get env pg_vars "PG_DB_PORT" 5432 ;;
      r <- postgres_runner.run_postgres_command_over_ssh env client rendered_sql
             (default "postgres" (pg_vars !! "PG_DB_USER")) db_name db_port
             (default "/usr/bin/psql" (pg_vars !! "PG_PSQL_PATH"))
             (pg_vars !! "PG_PASSWORD") ;;
      let result := fst r in
      let pg_code := snd r in
      logger.log_execution env name rendered_sql result pg_code (Some db_name) ;;;
      run_databases env client name rendered_sql pg_vars rest
        (results ++ [{| database := db_name; db_pg_code := pg_code;
                        db_exit_code := rd_exit_code result;
                        db_success := String.eqb pg_code "pg_0";
                        db_data := default VNone (rd_data result) |}])
  end.

(** Lines 172-178: the database list the host is run on. *)
Definition resolve_databases (env : Env) (client : SSHClient)
  (pg_vars : gmap string string) (target_dbs exclude_dbs : option (list string))
  : M (list string) :=
  databases <- match target_dbs with
               | Some (d :: ds) => ret (d :: ds)
               | _ => pg_getter.get_user_databases env client pg_vars
               end ;;
  match exclude_dbs, databases with
  | Some ((_ :: _) as excl), _ :: _ =>
      ret (List.filter (fun db => negb (existsb (String.eqb db) excl)) databases)
  | _, _ => ret databases
  end.

(** Lines 169-268: the part of [process_host] that runs on an open
    session. *)
Definition process_host_session (env : Env) (name cmd_name : string)
  (client : SSHClient) (pg_vars template_vars : gmap string string)
  (target_dbs exclude_dbs : option (list string)) : M HostResult :=
  databases <- resolve_databases env client pg_vars target_dbs exclude_dbs ;;
  match databases with
  | [] =>
      let error_msg := "No databases to process" in
      logger.log_execution env name ("DB_LIST_ERROR: " +:+ cmd_name)
        (failure_log error_msg) "pg_99" None ;;;
      ret (failure_result name "ssh_0" "pg_99" true error_msg)
  | _ :: _ =>
      try_except_else
        (sql_template <- pg_getter.get_sql_template env cmd_name ;;
         of_outcome (render_sql env sql_template template_vars))
        (fun e =>
           let error_msg := "Template Error: " +:+ exn_str e in
           logger.log_execution env name ("TEMPLATE_ERROR: " +:+ cmd_name)
             (failure_log error_msg) "pg_99" None ;;;
           ret (failure_result name "ssh_0" "pg_99" true error_msg))
        (fun rendered_sql =>
           results <- run_databases env client name rendered_sql pg_vars databases [] ;;
           let all_success := match results with
                              | [] => false
                              | _ :: _ => forallb db_success results
                              end in
           ret {| host := name; ssh_code := "ssh_0"; pg_code := None; error := None;
                  success := all_success; results := Some results;
                  databases_processed := Some (length results);
                  databases_failed :=
                    Some (length (List.filter (fun r => negb (db_success r)) results)) |})
  end.

(** Lines 103-167: configuration and session.  The value is the
    dictionary [process_host] returns early, or the resolved name, the
    open session and the SQL variables.  [get_ssh_connection] hands out
    a client with [ssh_0] and only then, so the last branch is never
    taken. *)
Definition acquire_session (env : Env) (host_name cmd_name : string)
  (allow_new_hosts : bool)
  : M (HostResult + (string * SSHClient * gmap string string)) :=
  try_except_else
    (getter.get_config_for_host env host_name)
    (fun e =>
       let error_msg := "CONFIG_ERROR: " +:+ exn_str e in
       logger.log_execution env host_name ("CONFIG_ERROR: " +:+ cmd_name)
         (failure_log error_msg) "ssh_99" None ;;;
       ret (inl (failure_result host_name "ssh_99" EmptyString false error_msg)))
    (fun cfg =>
       let name := fst (fst cfg) in
       let ssh_vars := snd (fst cfg) in
       let pg_vars := snd cfg in
       let key_path_str := default "~/.ssh/id_ed25519" (ssh_vars !! "SSH_KEY_PATH") in
       let key_path := resolve_key_path env key_path_str in
       let username := default "root" (ssh_vars !! "SSH_USER") in
       timeout <- int_get env ssh_vars "SSH_TIMEOUT" 10 ;;
       conn <- getter.get_ssh_connection env username name key_path timeout
                 allow_new_hosts ;;
       let ssh_code := snd conn in
       if negb (String.eqb ssh_code "ssh_0") then
         let error_msg := "SSH Connection Failed: " +:+ ssh_code in
         logger.log_execution env name ("SSH_ERROR: " +:+ cmd_name)
           (failure_log error_msg) ssh_code None ;;;
         ret (inl (failure_result name ssh_code EmptyString false error_msg))
       else
         match fst conn with
         | Some client => ret (inr (name, client, pg_vars))
         | None =>
             raise (Exn "AttributeError"
                        "'NoneType' object has no attribute 'exec_command'")
         end).

Definition process_host (env : Env) (host_name cmd_name : string)
  (template_vars : gmap string string) (target_dbs exclude_dbs : option (list string))
  (allow_new_hosts : bool) : M HostResult :=
  s <- acquire_session env host_name cmd_name allow_new_hosts ;;
  match s with
  | inl result => ret result
  | inr (name, client, pg_vars) =>
      finally_close client
        (process_host_session env name cmd_name client pg_vars template_vars
           target_dbs exclude_dbs)
  end.

(** The status [print_pg_result] prints for a host. *)
Inductive Status := OK | PARTIAL | FAIL.

Definition has_results (result : HostResult) : bool :=
  match results result with
  | Some (_ :: _) => true
  | _ => false
  end.

(** [result.get("results")] read as a list: the units that were run. *)
Definition unit_results (result : HostResult) : list DbResult :=
  default [] (results result).

Definition successful_units (result : HostResult) : nat :=
  length (List.filter db_success (unit_results result)).

Definition print_pg_result (result : HostResult) : Status :=
  if negb (String.eqb (ssh_code result) "ssh_0") then FAIL
  else if negb (has_results result) then FAIL
  else if success result then OK
  else PARTIAL.

Record Args := {
  arg_cmd : string;
  arg_host : option string;
  arg_workers : Z;
  arg_var : option (list string);
  arg_db : option (list string);
  arg_db_exclude : option (list string);
  arg_allow_new_hosts : bool;
  arg_verbose : bool;
}.

(** The three counters of [main]. *)
Record Counters := {
  success_count : nat;
  partial_count : nat;
  fail_count : nat;
}.

(** One turn of the [for future in as_completed(futures)] loop. *)
Definition count_future (c : Counters) (future : outcome HostResult) : Counters :=
  match future with
  | Return result =>
      if success result then
        {| success_count := S (success_count c); partial_count := partial_count c;
           fail_count := fail_count c |}
      else if has_results result then
        {| success_count := success_count c; partial_count := S (partial_count c);
           fail_count := fail_count c |}
      else
        {| success_count := success_count c; partial_count := partial_count c;
           fail_count := S (fail_count c) |}
  | Raise _ =>
      {| success_count := success_count c; partial_count := partial_count c;
         fail_count := S (fail_count c) |}
  end.

Definition zero_counters : Counters :=
  {| success_count := 0; partial_count := 0; fail_count := 0 |}.

(** The bucket a future falls in, by the tests of the loop body, and
    the counters with that bucket incremented. *)
Definition bucket_of (future : outcome HostResult) : Status :=
  match future with
  | Return result =>
      if success result then OK
      else if has_results result then PARTIAL
      else FAIL
  | Raise _ => FAIL
  end.

Definition increment (b : Status) (c : Counters) : Counters :=
  match b with
  | OK => {| success_count := S (success_count c); partial_count := partial_count c;
             fail_count := fail_count c |}
  | PARTIAL => {| success_count := success_count c;
                  partial_count := S (partial_count c); fail_count := fail_count c |}
  | FAIL => {| success_count := success_count c; partial_count := partial_count c;
               fail_count := S (fail_count c) |}
  end.

(** The number of hosts counted. *)
Definition total (c : Counters) : nat :=
  (success_count c + partial_count c + fail_count c)%nat.

(** The host list of a run. *)
Definition hosts_of (env : Env) (args : Args) : M (list string) :=
  match arg_host args with
  | Some h => if truthy h then ret [h] else getter.get_all_active_hosts env
  | None => getter.get_all_active_hosts env
  end.

(** [main] returns [None] to its caller; the model returns the counters
    of its closing line, or [None] when it leaves early for want of
    hosts. *)
Definition main (env : Env) (args : Args) : M (option Counters) :=
  let template_vars := template_vars_of (arg_var args) in
  hosts <- hosts_of env args ;;
  match hosts with
  | [] => ret None
  | _ :: _ =>
      ThreadPoolExecutor (arg_workers args) ;;;
      fun w =>
        let '(futures, w') :=
          run_pool (fun h => process_host env h (arg_cmd args) template_vars
                               (arg_db args) (arg_db_exclude args)
                               (arg_allow_new_hosts args)) hosts w in
        (Return (Some (fold_left count_future (map snd futures) zero_counters)), w')
  end.

(** The exit status of the script: [main()] is called and its value
    dropped, so the status is 0 unless an exception reaches the top. *)
Definition exit_status (env : Env) (args : Args) (w : World) : Z :=
  match fst (main env args w) with
  | Return _ => 0
  | Raise _ => 1
  end.

End pg_main.

(* ===================================================================== *)
(** ** command_executor_ssh/main.py *)
(* ===================================================================== *)

Module ssh_main.

Definition get_command_template (env : Env) (command_name : string) : option string :=
  match getter.get_sqlite_connection (config_db env) with
  | (None, _) => None
  | (Some db, _) =>
      match find (fun c => String.eqb (fst c) command_name) (commands db) with
      | Some row => Some (snd row)
      | None => None
      end
  end.

(** The dictionary [process_host] returns. *)
Record HostResult := {
  host : string;
  success : bool;
  error : option string;
  cmd_code : option string;
  exit_code : option Z;
  stdout : string;
  stderr : string;
}.

Definition process_host (env : Env) (host_name command_template : string)
  (template_vars : gmap string string) (sudo : bool) (sudo_user : string)
  (timeout : Z) (allow_new_hosts dry_run : bool) : M HostResult :=
  cfg <- getter.get_config_for_host env host_name ;;
  let name := fst (fst cfg) in
  let ssh_vars := snd (fst cfg) in
  let key_path :=
    resolve_key_path env (default "~/.ssh/id_ed25519" (ssh_vars !! "SSH_KEY_PATH")) in
  let username := default "root" (ssh_vars !! "SSH_USER") in
  ssh_timeout <- int_get env ssh_vars "SSH_TIMEOUT" 10 ;;
  rendered_command <- of_outcome (render_sql env command_template template_vars) ;;
  if dry_run then
    ret {| host := host_name; success := true; error := None;
           cmd_code := Some "cmd_0"; exit_code := None;
           stdout := "[DRY-RUN] " +:+ rendered_command; stderr := EmptyString |}
  else
    conn <- getter.get_ssh_connection env username name key_path ssh_timeout
              allow_new_hosts ;;
    let ssh_code := snd conn in
    if negb (String.eqb ssh_code "ssh_0") then
      logger.log_execution env name rendered_command
        {| rd_command := None; rd_stdout := Some EmptyString; rd_stderr := ssh_code;
           rd_exit_code := -1; rd_data := None |} ssh_code None ;;;
      ret {| host := host_name; success := false;
             error := Some ("SSH error: " +:+ ssh_code);
             cmd_code := Some ssh_code; exit_code := Some (-1);
             stdout := EmptyString; stderr := EmptyString |}
    else
      match fst conn with
      | Some client =>
          finally_close client
            (r <- ssh_runner.run_ssh_command env client rendered_command sudo
                    sudo_user timeout ;;
             let cmd_result := fst r in
             let cmd_code := snd r in
             logger.log_execution env name rendered_command cmd_result cmd_code None ;;;
             ret {| host := host_name; success := String.eqb cmd_code "cmd_0";
                    error := None; cmd_code := Some cmd_code;
                    exit_code := Some (rd_exit_code cmd_result);
                    stdout := default EmptyString (rd_stdout cmd_result);
                    stderr := rd_stderr cmd_result |})
      | None =>
          raise (Exn "AttributeError"
                     "'NoneType' object has no attribute 'exec_command'")
      end.

Record Args := {
  arg_cmd : string;
  arg_host : option string;
  arg_workers : Z;
  arg_var : option (list string);
  arg_sudo : bool;
  arg_sudo_user : string;
  arg_timeout : Z;
  arg_allow_new_hosts : bool;
  arg_dry_run : bool;
  arg_verbose : bool;
}.

(** The counters [success] and [fail] and the dictionary [results] of
    [main]. *)
Record Counters := {
  success_count : nat;
  fail_count : nat;
  results : gmap string HostResult;
}.

(** One turn of the [for future in as_completed(futures)] loop. *)
Definition count_future (c : Counters) (future : string * outcome HostResult)
  : Counters :=
  match snd future with
  | Return r =>
      if success r then
        {| success_count := S (success_count c); fail_count := fail_count c;
           results := <[fst future := r]> (results c) |}
      else
        {| success_count := success_count c; fail_count := S (fail_count c);
           results := <[fst future := r]> (results c) |}
  | Raise _ =>
      {| success_count := success_count c; fail_count := S (fail_count c);
         results := results c |}
  end.

Definition zero_counters : Counters :=
  {| success_count := 0; fail_count := 0; results := ∅ |}.

(** The futures [main] collects and the counters after its loop. *)
Definition dispatch (env : Env) (args : Args) (hosts : list string)
  : World -> (list (string * outcome HostResult) * Counters) * World :=
  fun w =>
    let command_template :=
      default (arg_cmd args) (get_command_template env (arg_cmd args)) in
    let '(futures, w') :=
      run_pool (fun h => process_host env h command_template
                           (template_vars_of (arg_var args)) (arg_sudo args)
                           (arg_sudo_user args) (arg_timeout args)
                           (arg_allow_new_hosts args) (arg_dry_run args)) hosts w in
    ((futures, fold_left count_future futures zero_counters), w').

(** The host list of a run. *)
Definition hosts_of (env : Env) (args : Args) : M (list string) :=
  match arg_host args with
  | Some h => if truthy h then ret [h] else getter.get_all_active_hosts env
  | None => getter.get_all_active_hosts env
  end.

Definition main (env : Env) (args : Args) : M Z :=
  hosts <- hosts_of env args ;;
  match hosts with
  | [] => ret 1
  | h0 :: _ =>
      ThreadPoolExecutor (arg_workers args) ;;;
      d <- (fun w => let '(r, w') := dispatch env args hosts w in (Return r, w')) ;;
      let c := snd d in
      (if (Nat.eqb (length hosts) 1 && negb (arg_verbose args))%bool
       then of_option (Exn "KeyError" h0) (results c !! h0) ;;; ret tt
       else ret tt) ;;;
      ret (if Nat.eqb (fail_count c) 0 then 0 else 1)
  end.

(** The exit status of the script, [sys.exit(main())]: the value [main]
    returns, or 1 when an exception reaches the top. *)
Definition exit_status (env : Env) (args : Args) (w : World) : Z :=
  match fst (main env args w) with
  | Return code => code
  | Raise _ => 1
  end.




End ssh_main.

(* ===================================================================== *)
(** ** The classification taxonomy as ordered rule tables *)
(* ===================================================================== *)

Module Taxonomy.

(** A rule: a test on the lower-cased stderr text and the exit code, and
    the code it yields. *)
Definition Rule (C : Type) : Type := (string -> Z -> bool) * C.

(** First match wins; [fallback] when no rule matches. *)
Definition first_match {C} (rules : list (Rule C)) (fallback : C)
  (err : string) (exit_code : Z) : C :=
  match find (fun r => fst r err exit_code) rules with
  | Some r => snd r
  | None => fallback
  end.

Inductive ShellCode :=
| ShSuccess | ShAuthDenied | ShNotFound | ShTimeout | ShGenericFailure | ShUnknown.

Definition shell_code (c : ShellCode) : string :=
  match c with
  | ShSuccess => "cmd_0"
  | ShAuthDenied => "cmd_12"
  | ShNotFound => "cmd_10"
  | ShTimeout => "cmd_16"
  | ShGenericFailure => "cmd_18"
  | ShUnknown => "cmd_99"
  end.

Definition all_shell_codes : list ShellCode :=
  [ShSuccess; ShAuthDenied; ShNotFound; ShTimeout; ShGenericFailure; ShUnknown].

Definition shell_rules : list (Rule ShellCode) :=
  [ (fun err _ => contains "permission denied" err, ShAuthDenied);
    (fun err _ => (contains "not found" err || contains "no such file" err)%bool,
     ShNotFound);
    (fun err _ => contains "timeout" err, ShTimeout);
    (fun err _ => (contains "sudo" err && contains "password" err)%bool, ShAuthDenied);
    (fun _ exit_code => negb (exit_code =? 0), ShGenericFailure) ].

Inductive SqlCode :=
| SqlSuccess | SqlExecutableMissing | SqlAuthFailure | SqlUnreachable
| SqlSyntaxError | SqlGenericFailure | SqlUnknown.

Definition sql_code (c : SqlCode) : string :=
  match c with
  | SqlSuccess => "pg_0"
  | SqlExecutableMissing => "pg_10"
  | SqlAuthFailure => "pg_12"
  | SqlUnreachable => "pg_16"
  | SqlSyntaxError => "pg_14"
  | SqlGenericFailure => "pg_18"
  | SqlUnknown => "pg_99"
  end.

Definition all_sql_codes : list SqlCode :=
  [SqlSuccess; SqlExecutableMissing; SqlAuthFailure; SqlUnreachable;
   SqlSyntaxError; SqlGenericFailure; SqlUnknown].

Definition sql_rules : list (Rule SqlCode) :=
  [ (fun err _ => (contains "psql: not found" err || contains "command not found" err)%bool,
     SqlExecutableMissing);
    (fun err _ => (contains "fatal" err && contains "password" err)%bool, SqlAuthFailure);
    (fun err _ => (contains "fatal" err &&
                   (contains "could not connect" err || contains "no route" err))%bool,
     SqlUnreachable);
    (fun err _ => (contains "syntax error" err || contains "error:" err)%bool,
     SqlSyntaxError);
    (fun _ exit_code => negb (exit_code =? 0), SqlGenericFailure) ].

(** The codes a runner can return for an invocation that was carried out
    in the session, and the code of one that could not be dispatched. *)
Definition in_session_codes : list string :=
  map shell_code all_shell_codes ++ map sql_code all_sql_codes.

Definition dispatch_failure_code : string := "ssh_99".

(** The transport family: [ssh_99], alone or followed by the message of
    the connection error. *)
Definition is_transport_failure (code : string) : bool :=
  String.prefix dispatch_failure_code code.

End Taxonomy.

(* ===================================================================== *)
(** ** A small fleet used for concrete runs *)
(* ===================================================================== *)

Module Fleet.

Definition key_a : HostKey := {| key_type := "ssh-ed25519"; key_data := "AAAAC3-a" |}.
Definition key_c : HostKey := {| key_type := "ssh-ed25519"; key_data := "AAAAC3-c" |}.

(** Hosts [a] and [c] are active, [idle] is switched off; [b] is active
    but cannot be reached. *)
Definition config : ConfigDb :=
  {| hosts := [(1, "a", true); (2, "b", true); (3, "idle", false); (4, "c", true)];
     ssh_variables := [(1, "SSH_USER", "ops"); (1, "SSH_TIMEOUT", "5")];
     postgre_variables := [(1, "PG_DB_PORT", "5433")];
     commands := [("one", "SELECT 1;"); ("up", "uptime")] |}.

(** An integer literal of 4301 digits. *)
Fixpoint nines (n : nat) : string :=
  match n with
  | O => EmptyString
  | S m => String "9" (nines m)
  end.

Definition huge_number : string := nines 4301.

(** The remote side of [a] and [c]: database [broken] answers every
    statement with a syntax error, database [empty] with a blank line,
    database [huge] with an integer of 4301 digits; the discovery query
    lists [db1] and [broken], [uptime] succeeds, anything else run
    through psql returns one row. *)
Definition remote (cmd : string) (timeout : option Z) : RemoteRun :=
  if contains "pg_database" cmd then RunDone ("db1" +:+ newline +:+ "broken" +:+ newline) EmptyString 0
  else if contains "-d broken" cmd
  then RunDone EmptyString "ERROR:  syntax error at or near SELEC" 1
  else if contains "-d empty" cmd then RunDone newline EmptyString 0
  else if contains "-d huge" cmd then RunDone huge_number EmptyString 0
  else if contains "psql" cmd then RunDone "[1]" EmptyString 0
  else if contains "uptime" cmd then RunDone " 10:00 up 3 days" EmptyString 0
  else RunDone EmptyString "sh: command not found" 127.

Definition server_a : Server :=
  {| server_key := key_a; server_accepts := fun _ _ => true; server_exec := remote |}.
Definition server_c : Server :=
  {| server_key := key_c; server_accepts := fun _ _ => true; server_exec := remote |}.

(** [json.loads] on the outputs of the fleet: the one-row answer, [null],
    an integer literal (refused with [ValueError] beyond 4300 digits),
    and text that is not JSON. *)
Definition is_digit (c : ascii) : bool :=
  let n := nat_of_ascii c in (Nat.leb 48 n && Nat.leb n 57)%bool.

Definition is_integer_literal (s : string) : bool :=
  match s with
  | EmptyString => false
  | String "0" EmptyString => true
  | String "0" _ => false
  | String _ _ => all_chars is_digit s
  end.

Definition json_loads_stub (s : string) : outcome value :=
  if String.eqb s "[1]" then Return (VList [VNum "1"])
  else if String.eqb s "null" then Return VNone
  else if is_integer_literal s then
    if Nat.ltb 4300 (String.length s)
    then Raise (Exn "ValueError"
                    ("Exceeds the limit (4300 digits) for integer string conversion: " +:+
                     "value has " +:+ str_of_Z (Z.of_nat (String.length s)) +:+
                     " digits; use sys.set_int_max_str_digits() to increase the limit"))
    else Return (VNum s)
  else Raise (Exn "JSONDecodeError" "Expecting value: line 1 column 1 (char 0)").

Definition int_stub (s : string) : option Z :=
  if String.eqb s "5" then Some 5
  else if String.eqb s "5433" then Some 5433
  else None.

Definition env : Env :=
  {| config_db := Return config;
     logger_db := Return tt;
     logger_insert := fun _ => Return tt;
     ROOT := "/opt/wasserfall";
     path_exists := fun _ => false;
     expanduser := fun p => match p with
                            | String "~" rest => "/home/ops" +:+ rest
                            | _ => p
                            end;
     network := fun h => if String.eqb h "a" then Return server_a
                         else if String.eqb h "c" then Return server_c
                         else Raise (Exn "OSError" "No route to host");
     render_sql := fun t _ => Return t;
     json_loads := json_loads_stub;
     int_of_str := int_stub |}.

(** The known-hosts file knows [a] and does not know [c]. *)
Definition world0 : World :=
  {| logger_rows := [];
     host_key_files := {[ system_known_hosts := [("a", key_a)] ]};
     connects := []; execs := []; closes := [] |}.

Definition no_vars : gmap string string := ∅.

(** An open session to [a]. *)
Definition session_a : SSHClient :=
  {| system_host_keys := [("a", key_a)]; host_keys := []; host_keys_filename := None;
     policy := RejectPolicy; peer := "a" |}.

(** The invocation of the SQL runner on database [db] of [a]. *)
Definition psql_on (db : string) : string :=
  postgres_runner.psql_command "SELECT 1;" "postgres" db 5432 "/usr/bin/psql" None.

Definition pg_args (h : option string) (cmd : string) (dbs : option (list string))
  : pg_main.Args :=
  {| pg_main.arg_cmd := cmd; pg_main.arg_host := h; pg_main.arg_workers := 5;
     pg_main.arg_var := None; pg_main.arg_db := dbs; pg_main.arg_db_exclude := None;
     pg_main.arg_allow_new_hosts := false; pg_main.arg_verbose := false |}.

Definition ssh_args (h : option string) (cmd : string) : ssh_main.Args :=
  {| ssh_main.arg_cmd := cmd; ssh_main.arg_host := h; ssh_main.arg_workers := 5;
     ssh_main.arg_var := None; ssh_main.arg_sudo := false;
     ssh_main.arg_sudo_user := "root"; ssh_main.arg_timeout := 60;
     ssh_main.arg_allow_new_hosts := false; ssh_main.arg_dry_run := false;
     ssh_main.arg_verbose := false |}.




(** The outcome of host [a] run on the single database [broken]. *)
Definition outcome_broken : pg_main.HostResult :=
  {| pg_main.host := "a"; pg_main.ssh_code := "ssh_0"; pg_main.pg_code := None;
     pg_main.error := None; pg_main.success := false;
     pg_main.results :=
       Some [{| pg_main.database := "broken"; pg_main.db_pg_code := "pg_14";
                pg_main.db_exit_code := 1; pg_main.db_success := false;
                pg_main.db_data := VNone |}];
     pg_main.databases_processed := Some 1%nat;
     pg_main.databases_failed := Some 1%nat |}.


End Fleet.

(* ===================================================================== *)
(** ** EXECUTOR/command_executor_postgresql/modules/postgres_runner.py *)
(* ===================================================================== *)

(** The older copy of the SQL runner.  It builds the same command and
    differs in its result dictionary, which also holds the key
    [stdout]. *)
Module executor_runner.

Definition _parse_psql_error (stderr : string) (exit_code : Z) : string :=
  let err := lower stderr in
  if (contains "psql: not found" err || contains "command not found" err)%bool
  then "pg_10"
  else if (contains "fatal" err && contains "password" err)%bool then "pg_12"
  else if (contains "fatal" err &&
           (contains "could not connect" err || contains "no route" err))%bool
  then "pg_16"
  else if (contains "syntax error" err || contains "error:" err)%bool then "pg_14"
  else if negb (exit_code =? 0) then "pg_18" else "pg_99".

Definition run_postgres_command_over_ssh (env : Env) (ssh_client : SSHClient)
  (sql db_user db_name : string) (db_port : Z) (psql_path : string)
  (db_password : option string) : M (ResultDict * string) :=
  let full_cmd :=
    postgres_runner.psql_command sql db_user db_name db_port psql_path db_password in
  fun w =>
    match exec_command env ssh_client full_cmd None w with
    | (RunRaised _, w') =>
        (Return ({| rd_command := None; rd_stdout := Some EmptyString;
                    rd_stderr := "SSH Execution Failed"; rd_exit_code := -1;
                    rd_data := Some VNone |}, "ssh_99"), w')
    | (RunDone stdout stderr exit_code, w') =>
        let raw_out := strip stdout in
        let raw_err := strip stderr in
        let result := fun data => {| rd_command := None; rd_stdout := Some raw_out;
                                     rd_stderr := raw_err; rd_exit_code := exit_code;
                                     rd_data := Some data |} in
        if exit_code =? 0 then
          if truthy raw_out then
            match json_loads env raw_out with
            | Return parsed => (Return (result parsed, "pg_0"), w')
            | Raise e =>
                if String.eqb (exn_class e) "JSONDecodeError"
                then (Return (result (VStr raw_out), "pg_0"), w')
                else (Raise e, w')
            end
          else (Return (result (VList []), "pg_0"), w')
        else (Return (result VNone, _parse_psql_error raw_err exit_code), w')
    end.

End executor_runner.

(* ===================================================================== *)
(** ** command_executor_ssh/main.py: the status line *)
(* ===================================================================== *)

Module ssh_report.

Definition STATUS_MAP : gmap string string :=
  list_to_map [("cmd_0", "OK"); ("ssh_0", "OK"); ("ssh_99", "UNREACHABLE");
               ("cmd_10", "FAILED"); ("cmd_12", "FAILED"); ("cmd_16", "FAILED");
               ("cmd_18", "FAILED")].

(** The status word of the line [print_result] prints:
    [STATUS_MAP.get(code, "UNKNOWN")]. *)
Definition print_result (result : ssh_main.HostResult) : string :=
  match ssh_main.cmd_code result with
  | Some code => default "UNKNOWN" (STATUS_MAP !! code)
  | None => "UNKNOWN"
  end.

End ssh_report.

(* ===================================================================== *)
(** ** Notions used to state what the pipelines do to the world *)
(* ===================================================================== *)

Module Audit.

(** [w'] is [w] with rows, connection attempts, remote invocations and
    closed sessions appended, and the host-key files untouched. *)
Definition only_appends (w w' : World) : Prop :=
  host_key_files w' = host_key_files w /\
  (exists rows, logger_rows w' = logger_rows w ++ rows) /\
  (exists cs, connects w' = connects w ++ cs) /\
  (exists es, execs w' = execs w ++ es) /\
  (exists cl, closes w' = closes w ++ cl).

(** What a log row and a unit result say about one unit. *)
Definition row_summary (row : LogRecord) : option string * string * Z :=
  (log_database_name row, log_code row, log_exit_code row).

Definition unit_summary (u : pg_main.DbResult) : option string * string * Z :=
  (Some (pg_main.database u), pg_main.db_pg_code u, pg_main.db_exit_code u).

(** The last row of a table for a key. *)
Definition last_value (rows : list (string * string)) (key : string) : option string :=
  match find (fun kv => String.eqb (fst kv) key) (rev rows) with
  | Some kv => Some (snd kv)
  | None => None
  end.

(** A host name is active in the hosts table. *)
Definition is_active (db : ConfigDb) (host_name : string) : bool :=
  existsb (fun h => (String.eqb (snd (fst h)) host_name && snd h)%bool) (hosts db).

(** A text has neither leading nor trailing blanks: stripping it
    changes nothing. *)
Definition trimmed (s : string) : Prop := strip s = s.

(** The exception of [json.loads] that the SQL runner does not catch:
    any but [JSONDecodeError]. *)
Definition json_escape (env : Env) (out : string) : option exn :=
  match json_loads env out with
  | Return _ => None
  | Raise e => if String.eqb (exn_class e) "JSONDecodeError" then None else Some e
  end.

(** The exception that leaves the SQL runner for a remote run that
    ended with [stdout] and [exit_code]: the runner parses the stripped
    output on exit code 0 only, and only when it is not empty. *)
Definition unit_escape (env : Env) (stdout : string) (exit_code : Z) : option exn :=
  if exit_code =? 0
  then if truthy (strip stdout) then json_escape env (strip stdout) else None
  else None.

(** The data of a unit that ended with exit code 0 and was returned. *)
Definition payload (env : Env) (stdout : string) : value :=
  if is_empty (strip stdout) then VList []
  else match json_loads env (strip stdout) with
       | Return parsed => parsed
       | Raise _ => VStr (strip stdout)
       end.

(** What every unit result of the SQL pipeline satisfies. *)
Definition unit_ok (u : pg_main.DbResult) : Prop :=
  (pg_main.db_success u = true <-> pg_main.db_pg_code u = "pg_0") /\
  (pg_main.db_pg_code u = "pg_0" <-> pg_main.db_exit_code u = 0) /\
  (pg_main.db_success u = false -> pg_main.db_data u = VNone) /\
  In (pg_main.db_pg_code u)
     ["pg_0"; "pg_10"; "pg_12"; "pg_14"; "pg_16"; "pg_18"; "ssh_99"].

(** A log row written for a unit of host [name] running [sql]. *)
Definition unit_row_ok (name sql : string) (row : LogRecord) : Prop :=
  log_target_host row = name /\ log_query_text row = sql /\
  log_stdout_json row = (EmptyString, log_stderr_text row, log_exit_code row).

(** [sql] is the statement of command [cmd] rendered with the variables
    [tv]: the template [get_sql_template] returns for [cmd], rendered
    by [render_sql]. *)
Definition renders_to (env : Env) (cmd : string) (tv : gmap string string)
  (sql : string) : Prop :=
  exists template,
    (forall w, pg_getter.get_sql_template env cmd w = (Return template, w)) /\
    render_sql env template tv = Return sql.

(** [w'] is [w] but for the log rows and the remote invocations. *)
Definition same_sessions (w w' : World) : Prop :=
  host_key_files w' = host_key_files w /\ connects w' = connects w /\
  closes w' = closes w.

End Audit.

(** Inputs for concrete runs of the properties below. *)
Module Cases.

(** The no-break space U+00A0 and the line separator U+2028, as UTF-8. *)
Definition nbsp : string :=
  String (ascii_of_nat 194) (String (ascii_of_nat 160) EmptyString).

Definition line_separator : string :=
  String (ascii_of_nat 226)
    (String (ascii_of_nat 128) (String (ascii_of_nat 168) EmptyString)).

Definition env_no_log : Env :=
  {| config_db := config_db Fleet.env;
     logger_db := Raise (Exn "OperationalError" "unable to open database file");
     logger_insert := logger_insert Fleet.env;
     ROOT := ROOT Fleet.env; path_exists := path_exists Fleet.env;
     expanduser := expanduser Fleet.env; network := network Fleet.env;
     render_sql := render_sql Fleet.env; json_loads := json_loads Fleet.env;
     int_of_str := int_of_str Fleet.env |}.

Definition env_no_config : Env :=
  {| config_db := Raise (Exn "OperationalError" "unable to open database file");
     logger_db := logger_db Fleet.env;
     logger_insert := logger_insert Fleet.env;
     ROOT := ROOT Fleet.env; path_exists := path_exists Fleet.env;
     expanduser := expanduser Fleet.env; network := network Fleet.env;
     render_sql := render_sql Fleet.env; json_loads := json_loads Fleet.env;
     int_of_str := int_of_str Fleet.env |}.


(** What the SQL pipeline returns for the switched-off host [idle]. *)
Definition outcome_idle : pg_main.HostResult :=
  pg_main.failure_result "idle" "ssh_99" EmptyString false
    "CONFIG_ERROR: Host 'idle' not found or disabled".

(** The run of host [a] on the single database [broken], and the world
    it leaves. *)
Definition run_broken : outcome pg_main.HostResult * World :=
  pg_main.process_host Fleet.env "a" "one" Fleet.no_vars (Some ["broken"]) None false
    Fleet.world0.

(** The unit result of database [broken]. *)
Definition unit_broken : pg_main.DbResult :=
  {| pg_main.database := "broken"; pg_main.db_pg_code := "pg_14";
     pg_main.db_exit_code := 1; pg_main.db_success := false;
     pg_main.db_data := VNone |}.

Definition run_idle : outcome pg_main.HostResult * World :=
  pg_main.process_host Fleet.env "idle" "one" Fleet.no_vars None None false
    Fleet.world0.

(** The shell pipeline run on host [a] with the command [uptime], and
    on the unreachable host [b]. *)
Definition shell_outcome_a : ssh_main.HostResult :=
  {| ssh_main.host := "a"; ssh_main.success := true; ssh_main.error := None;
     ssh_main.cmd_code := Some "cmd_0"; ssh_main.exit_code := Some 0;
     ssh_main.stdout := "10:00 up 3 days"; ssh_main.stderr := EmptyString |}.

Definition shell_run_a : outcome ssh_main.HostResult * World :=
  ssh_main.process_host Fleet.env "a" "uptime" Fleet.no_vars false "root" 60 false false
    Fleet.world0.

Definition shell_outcome_b : ssh_main.HostResult :=
  {| ssh_main.host := "b"; ssh_main.success := false;
     ssh_main.error := Some "SSH error: ssh_99: No route to host";
     ssh_main.cmd_code := Some "ssh_99: No route to host";
     ssh_main.exit_code := Some (-1);
     ssh_main.stdout := EmptyString; ssh_main.stderr := EmptyString |}.

Definition shell_run_b : outcome ssh_main.HostResult * World :=
  ssh_main.process_host Fleet.env "b" "uptime" Fleet.no_vars false "root" 60 false false
    Fleet.world0.

End Cases.

(* ===================================================================== *)
(** ** Properties *)
(* ===================================================================== *)

Import Taxonomy.

(** *** Text primitives *)

Lemma prefix_app (n t : string) : String.prefix n (n +:+ t) = true.
Proof.
  induction n as [|c n IH]; simpl.
  - now destruct t.
  - destruct (ascii_dec c c) as [_|ne]; [exact IH | now destruct ne].
Qed.

Lemma prefix_split (n h : string) :
  String.prefix n h = true -> exists t, h = n +:+ t.
Proof.
  revert h; induction n as [|c n IH]; intros h H.
  - now exists h.
  - destruct h as [|d h]; simpl in H; [discriminate|].
    destruct (ascii_dec c d) as [->|]; [|discriminate].
    destruct (IH _ H) as [t ->]. now exists t.
Qed.

Lemma append_nil_l (s : string) : EmptyString +:+ s = s.
Proof. reflexivity. Qed.

Lemma append_cons (c : ascii) (a s : string) :
  String c a +:+ s = String c (a +:+ s).
Proof. reflexivity. Qed.

Lemma contains_prefix (n h : string) :
  String.prefix n h = true -> contains n h = true.
Proof.
  destruct h; simpl; intros ->; reflexivity.
Qed.

(** [contains] is the substring test. *)
Lemma contains_spec (n h : string) :
  contains n h = true <-> exists a b, h = a +:+ n +:+ b.
Proof.
  split.
  - induction h as [|c h IH]; intros H.
    + destruct n; [now exists EmptyString, EmptyString | discriminate].
    + change (contains n (String c h))
        with (String.prefix n (String c h) || contains n h)%bool in H.
      apply orb_true_iff in H as [H|H].
      * destruct (prefix_split _ _ H) as [t Ht]. exists EmptyString, t. exact Ht.
      * destruct (IH H) as (a & b & ->). now exists (String c a), b.
  - intros (a & b & ->). induction a as [|c a IH].
    + rewrite append_nil_l. apply contains_prefix, prefix_app.
    + rewrite append_cons. simpl. rewrite IH. apply orb_true_r.
Qed.

Lemma lower_char_idem (c : ascii) : lower_char (lower_char c) = lower_char c.
Proof.
  destruct c as [[] [] [] [] [] [] [] []]; reflexivity.
Qed.

Lemma lower_idem (s : string) : lower (lower s) = lower s.
Proof.
  induction s as [|c s IH]; simpl; [reflexivity|].
  now rewrite lower_char_idem, IH.
Qed.

(** *** The classifiers *)

Ltac split_tests :=
  repeat match goal with
         | |- context [contains ?p ?e] => destruct (contains p e)
         | |- context [?z =? 0] => destruct (z =? 0)
         end.

Lemma classify_ssh_error_table (stderr : string) (exit_code : Z) :
  ssh_runner._classify_ssh_error stderr exit_code =
  shell_code (first_match shell_rules ShUnknown (lower stderr) exit_code).
Proof.
  unfold ssh_runner._classify_ssh_error, first_match, shell_rules.
  cbn [find fst snd]. generalize (lower stderr) as err; intros err.
  split_tests; reflexivity.
Qed.

Lemma parse_psql_error_table (stderr : string) (exit_code : Z) :
  postgres_runner._parse_psql_error stderr exit_code =
  sql_code (first_match sql_rules SqlUnknown (lower stderr) exit_code).
Proof.
  unfold postgres_runner._parse_psql_error, first_match, sql_rules.
  cbn [find fst snd]. generalize (lower stderr) as err; intros err.
  split_tests; reflexivity.
Qed.

Lemma first_match_in {C} (rules : list (Rule C)) (fallback : C) err exit_code :
  first_match rules fallback err exit_code = fallback \/
  In (first_match rules fallback err exit_code) (map snd rules).
Proof.
  unfold first_match.
  destruct (find (fun r => fst r err exit_code) rules) as [r|] eqn:E;
    [right | now left].
  apply find_some in E as [Hin _]. now apply in_map.
Qed.

Lemma classify_ssh_error_not_success (stderr : string) (exit_code : Z) :
  ssh_runner._classify_ssh_error stderr exit_code <> shell_code ShSuccess.
Proof.
  rewrite classify_ssh_error_table.
  destruct (first_match_in shell_rules ShUnknown (lower stderr) exit_code) as [->|H].
  - discriminate.
  - simpl in H.
    repeat (destruct H as [H|H]; [rewrite <- H; discriminate|]). destruct H.
Qed.

Lemma parse_psql_error_not_success (stderr : string) (exit_code : Z) :
  postgres_runner._parse_psql_error stderr exit_code <> sql_code SqlSuccess.
Proof.
  rewrite parse_psql_error_table.
  destruct (first_match_in sql_rules SqlUnknown (lower stderr) exit_code) as [->|H].
  - discriminate.
  - simpl in H.
    repeat (destruct H as [H|H]; [rewrite <- H; discriminate|]). destruct H.
Qed.

Lemma shell_code_in_session (c : ShellCode) : In (shell_code c) in_session_codes.
Proof. destruct c; simpl; tauto. Qed.

Lemma sql_code_in_session (c : SqlCode) : In (sql_code c) in_session_codes.
Proof. destruct c; simpl; tauto. Qed.

Lemma in_session_not_transport (code : string) :
  In code in_session_codes -> is_transport_failure code = false.
Proof.
  simpl. intros H.
  repeat (destruct H as [H|H]; [rewrite <- H; reflexivity|]). destruct H.
Qed.

(** *** The runners *)

(** What [run_ssh_command] returns, by what the remote invocation did. *)
Lemma run_ssh_command_cases env c command sudo sudo_user timeout w :
  match exec_command env c (ssh_runner.full_cmd command sudo sudo_user)
          (Some timeout) w with
  | (RunRaised e, w') =>
      ssh_runner.run_ssh_command env c command sudo sudo_user timeout w =
      (Return ({| rd_command := Some command; rd_stdout := Some EmptyString;
                  rd_stderr := exn_str e; rd_exit_code := -1; rd_data := None |},
               dispatch_failure_code), w')
  | (RunDone stdout stderr exit_code, w') =>
      exists code,
        ssh_runner.run_ssh_command env c command sudo sudo_user timeout w =
        (Return ({| rd_command := Some command; rd_stdout := Some (strip stdout);
                    rd_stderr := strip stderr; rd_exit_code := exit_code;
                    rd_data := None |}, code), w') /\
        In code in_session_codes /\
        (code = shell_code ShSuccess <-> exit_code = 0)
  end.
Proof.
  unfold ssh_runner.run_ssh_command.
  destruct (exec_command env c _ (Some timeout) w) as [[e|out err ec] w'].
  - reflexivity.
  - destruct (ec =? 0) eqn:E.
    + exists (shell_code ShSuccess). split; [reflexivity|].
      split; [apply shell_code_in_session|]. apply Z.eqb_eq in E. tauto.
    + eexists. split; [reflexivity|]. split.
      * rewrite classify_ssh_error_table. apply shell_code_in_session.
      * apply Z.eqb_neq in E. split; [|tauto].
        intros H. now apply classify_ssh_error_not_success in H.
Qed.

(** What [run_postgres_command_over_ssh] does, by what the remote
    invocation did: it returns, unless the exit code is 0 and
    [json.loads] raises an exception other than [JSONDecodeError]. *)
Lemma run_postgres_cases env c sql db_user db_name db_port psql_path db_password w :
  match exec_command env c
          (postgres_runner.psql_command sql db_user db_name db_port psql_path db_password)
          None w with
  | (RunRaised e, w') =>
      postgres_runner.run_postgres_command_over_ssh env c sql db_user db_name db_port
        psql_path db_password w =
      (Return ({| rd_command := None; rd_stdout := None;
                  rd_stderr := "SSH Execution Failed"; rd_exit_code := -1;
                  rd_data := Some VNone |}, dispatch_failure_code), w')
  | (RunDone stdout stderr exit_code, w') =>
      match Audit.unit_escape env stdout exit_code with
      | Some e =>
          postgres_runner.run_postgres_command_over_ssh env c sql db_user db_name db_port
            psql_path db_password w = (Raise e, w')
      | None =>
          exists data code,
            postgres_runner.run_postgres_command_over_ssh env c sql db_user db_name
              db_port psql_path db_password w =
            (Return ({| rd_command := None; rd_stdout := None; rd_stderr := strip stderr;
                        rd_exit_code := exit_code; rd_data := Some data |}, code), w') /\
            In code in_session_codes /\
            (code = sql_code SqlSuccess <-> exit_code = 0) /\
            (exit_code = 0 -> data = Audit.payload env stdout) /\
            (exit_code <> 0 ->
             data = VNone /\
             code = postgres_runner._parse_psql_error (strip stderr) exit_code)
      end
  end.
Proof.
  unfold postgres_runner.run_postgres_command_over_ssh, Audit.unit_escape,
    Audit.json_escape, Audit.payload.
  destruct (exec_command env c _ None w) as [[e|out err ec] w'].
  - reflexivity.
  - destruct (ec =? 0) eqn:E.
    + apply Z.eqb_eq in E. unfold truthy.
      destruct (is_empty (strip out)); cbn [negb].
      * do 2 eexists. split; [reflexivity|].
        split; [apply (sql_code_in_session SqlSuccess)|]. tauto.
      * destruct (json_loads env (strip out)) as [parsed|e].
        -- do 2 eexists. split; [reflexivity|].
           split; [apply (sql_code_in_session SqlSuccess)|]. tauto.
        -- destruct (String.eqb (exn_class e) "JSONDecodeError"); [|reflexivity].
           do 2 eexists. split; [reflexivity|].
           split; [apply (sql_code_in_session SqlSuccess)|]. tauto.
    + apply Z.eqb_neq in E. do 2 eexists. split; [reflexivity|]. split.
      * rewrite parse_psql_error_table. apply sql_code_in_session.
      * split; [|tauto]. split; [|tauto].
        intros H. now apply parse_psql_error_not_success in H.
Qed.

(* ===================================================================== *)
(** ** The classification tables and the runners: main results *)
(* ===================================================================== *)

(** C4, as stated, fails: with no textual match and exit code 0 the shell
    classifier returns [cmd_99], which is not the success code [cmd_0]
    that the table of the claim ends in. *)
Lemma C4_counterexample :
  ssh_runner._classify_ssh_error EmptyString 0 = "cmd_99" /\
  ~ (forall stderr exit_code,
       ssh_runner._classify_ssh_error stderr exit_code =
       shell_code (first_match shell_rules ShSuccess (lower stderr) exit_code)).
Proof.
  split; [reflexivity|].
  intros H. specialize (H EmptyString 0). discriminate H.
Qed.

(** C4 (amended): for every stderr text and exit code the shell
    classifier is the ordered first-match table on the lower-cased text
    (permission denied: AuthDenied; not found or no such file: NotFound;
    timeout: Timeout; sudo with password: AuthDenied; otherwise a
    non-zero exit code: GenericFailure), and when no rule matches it
    yields the distinct code [cmd_99], never the success code. *)
Theorem C4_shell_classifier_is_rule_table (stderr : string) (exit_code : Z) :
  ssh_runner._classify_ssh_error stderr exit_code =
  shell_code (first_match shell_rules ShUnknown (lower stderr) exit_code) /\
  ssh_runner._classify_ssh_error stderr exit_code <> shell_code ShSuccess.
Proof.
  split.
  - apply classify_ssh_error_table.
  - apply classify_ssh_error_not_success.
Qed.

(** C5, as stated, fails: with no textual match and exit code 0 the SQL
    classifier returns [pg_99], not the success code [pg_0] that the
    table of the claim ends in. *)
Lemma C5_counterexample :
  postgres_runner._parse_psql_error EmptyString 0 = "pg_99" /\
  ~ (forall stderr exit_code,
       postgres_runner._parse_psql_error stderr exit_code =
       sql_code (first_match sql_rules SqlSuccess (lower stderr) exit_code)).
Proof.
  split; [reflexivity|].
  intros H. specialize (H EmptyString 0). discriminate H.
Qed.

(** C5 (amended): for every stderr text and exit code the SQL classifier
    is the ordered first-match table on the lower-cased text (missing
    executable: ExecutableMissing; fatal with password: AuthFailure;
    fatal with could not connect or no route: Unreachable; syntax error
    or error: SyntaxError; otherwise a non-zero exit code:
    GenericFailure), and when no rule matches it yields the distinct
    Unknown code [pg_99]; it never yields the success code. *)
Theorem C5_sql_classifier_is_rule_table (stderr : string) (exit_code : Z) :
  postgres_runner._parse_psql_error stderr exit_code =
  sql_code (first_match sql_rules SqlUnknown (lower stderr) exit_code) /\
  postgres_runner._parse_psql_error stderr exit_code <> sql_code SqlSuccess.
Proof.
  split.
  - apply parse_psql_error_table.
  - apply parse_psql_error_not_success.
Qed.

(** A remote run that ended with exit code 0, by its stripped output
    and by what [json.loads] does with it. *)
Lemma zero_exit_cases env c sql db_user db_name db_port psql_path db_password
  w stdout stderr w' :
  exec_command env c
    (postgres_runner.psql_command sql db_user db_name db_port psql_path db_password)
    None w = (RunDone stdout stderr 0, w') ->
  (strip stdout = EmptyString ->
   exists res,
     postgres_runner.run_postgres_command_over_ssh env c sql db_user db_name db_port
       psql_path db_password w = (Return (res, "pg_0"), w') /\
     rd_exit_code res = 0 /\ rd_data res = Some (VList [])) /\
  (strip stdout <> EmptyString ->
   forall parsed,
     json_loads env (strip stdout) = Return parsed ->
     exists res,
       postgres_runner.run_postgres_command_over_ssh env c sql db_user db_name db_port
         psql_path db_password w = (Return (res, "pg_0"), w') /\
       rd_exit_code res = 0 /\ rd_data res = Some parsed) /\
  (strip stdout <> EmptyString ->
   forall e,
     json_loads env (strip stdout) = Raise e ->
     exn_class e = "JSONDecodeError" ->
     exists res,
       postgres_runner.run_postgres_command_over_ssh env c sql db_user db_name db_port
         psql_path db_password w = (Return (res, "pg_0"), w') /\
       rd_exit_code res = 0 /\ rd_data res = Some (VStr (strip stdout))) /\
  (strip stdout <> EmptyString ->
   forall e,
     json_loads env (strip stdout) = Raise e ->
     exn_class e <> "JSONDecodeError" ->
     postgres_runner.run_postgres_command_over_ssh env c sql db_user db_name db_port
       psql_path db_password w = (Raise e, w')).
Proof.
  intros Hrun. unfold postgres_runner.run_postgres_command_over_ssh.
  rewrite Hrun. change (0 =? 0) with true. cbv iota. unfold truthy.
  destruct (strip stdout) as [|ch rest] eqn:E; cbn [is_empty negb].
  - split; [intros _; eexists; split; [reflexivity|]; split; reflexivity|].
    split; [intros H; now destruct H|]. split; intros H; now destruct H.
  - split; [discriminate|]. split; [|split].
    + intros _ parsed ->. eexists. split; [reflexivity|]. split; reflexivity.
    + intros _ e -> Hclass. apply String.eqb_eq in Hclass. rewrite Hclass.
      eexists. split; [reflexivity|]. split; reflexivity.
    + intros _ e -> Hclass. apply String.eqb_neq in Hclass. now rewrite Hclass.
Qed.

(** C6 fails on the code: when the remote exit code is 0 the SQL runner
    hands the stripped output to [json.loads] and catches
    [JSONDecodeError] only.  Database [huge] of host [a] answers with an
    integer of 4301 digits and exit code 0; [json.loads] refuses it with
    [ValueError], and the runner raises instead of returning [pg_0] with
    the raw text.  The rest of the claim holds: on exit code 0 the
    runner returns [pg_0] with the empty list for an output that is
    empty once stripped (database [empty], a blank line), with the
    parsed value when the output parses, and with the stripped text when
    [json.loads] raises [JSONDecodeError]. *)
Theorem C6_zero_exit_payload :
  (exists e w',
      postgres_runner.run_postgres_command_over_ssh Fleet.env Fleet.session_a
        "SELECT 1;" "postgres" "huge" 5432 "/usr/bin/psql" None Fleet.world0 =
      (Raise e, w') /\
      exn_class e = "ValueError" /\
      exec_command Fleet.env Fleet.session_a (Fleet.psql_on "huge") None Fleet.world0 =
      (RunDone Fleet.huge_number EmptyString 0, w')) /\
  (exists res w',
      postgres_runner.run_postgres_command_over_ssh Fleet.env Fleet.session_a
        "SELECT 1;" "postgres" "empty" 5432 "/usr/bin/psql" None Fleet.world0 =
      (Return (res, "pg_0"), w') /\
      rd_data res = Some (VList []) /\
      exec_command Fleet.env Fleet.session_a (Fleet.psql_on "empty") None Fleet.world0 =
      (RunDone newline EmptyString 0, w')) /\
  (forall env c sql db_user db_name db_port psql_path db_password w stdout stderr w',
      exec_command env c
        (postgres_runner.psql_command sql db_user db_name db_port psql_path db_password)
        None w = (RunDone stdout stderr 0, w') ->
      (strip stdout = EmptyString ->
       exists res,
         postgres_runner.run_postgres_command_over_ssh env c sql db_user db_name
           db_port psql_path db_password w = (Return (res, "pg_0"), w') /\
         rd_exit_code res = 0 /\ rd_data res = Some (VList [])) /\
      (strip stdout <> EmptyString ->
       forall parsed,
         json_loads env (strip stdout) = Return parsed ->
         exists res,
           postgres_runner.run_postgres_command_over_ssh env c sql db_user db_name
             db_port psql_path db_password w = (Return (res, "pg_0"), w') /\
           rd_exit_code res = 0 /\ rd_data res = Some parsed) /\
      (strip stdout <> EmptyString ->
       forall e,
         json_loads env (strip stdout) = Raise e ->
         exn_class e = "JSONDecodeError" ->
         exists res,
           postgres_runner.run_postgres_command_over_ssh env c sql db_user db_name
             db_port psql_path db_password w = (Return (res, "pg_0"), w') /\
           rd_exit_code res = 0 /\ rd_data res = Some (VStr (strip stdout))) /\
      (strip stdout <> EmptyString ->
       forall e,
         json_loads env (strip stdout) = Raise e ->
         exn_class e <> "JSONDecodeError" ->
         postgres_runner.run_postgres_command_over_ssh env c sql db_user db_name
           db_port psql_path db_password w = (Raise e, w'))).
Proof.
  split; [|split; [|exact zero_exit_cases]].
  - do 2 eexists. split; [vm_compute; reflexivity|].
    split; [reflexivity | vm_compute; reflexivity].
  - do 2 eexists. split; [vm_compute; reflexivity|].
    split; [reflexivity | vm_compute; reflexivity].
Qed.

(** C7: in both runners a transport exception during the invocation
    yields the code [ssh_99].  For an invocation that ran to an exit
    status the shell runner returns an in-session code, and every code
    the SQL runner returns is an in-session code.  No in-session code,
    the generic failures of a clean non-zero exit included, belongs to
    the transport family. *)
Theorem C7_dispatch_failure_code_is_separate :
  (forall env c command sudo sudo_user timeout w,
      exists result code w',
        ssh_runner.run_ssh_command env c command sudo sudo_user timeout w =
        (Return (result, code), w') /\
        match fst (exec_command env c (ssh_runner.full_cmd command sudo sudo_user)
                     (Some timeout) w) with
        | RunRaised _ => code = dispatch_failure_code
        | RunDone _ _ _ => In code in_session_codes
        end) /\
  (forall env c sql db_user db_name db_port psql_path db_password w,
      match fst (exec_command env c
                   (postgres_runner.psql_command sql db_user db_name db_port
                      psql_path db_password) None w) with
      | RunRaised _ =>
          exists result w',
            postgres_runner.run_postgres_command_over_ssh env c sql db_user db_name
              db_port psql_path db_password w =
            (Return (result, dispatch_failure_code), w')
      | RunDone _ _ _ =>
          forall result code w',
            postgres_runner.run_postgres_command_over_ssh env c sql db_user db_name
              db_port psql_path db_password w = (Return (result, code), w') ->
            In code in_session_codes
      end) /\
  is_transport_failure dispatch_failure_code = true /\
  Forall (fun code => is_transport_failure code = false) in_session_codes /\
  ~ In dispatch_failure_code in_session_codes /\
  dispatch_failure_code <> shell_code ShGenericFailure /\
  dispatch_failure_code <> sql_code SqlGenericFailure.
Proof.
  split; [|split; [|split; [reflexivity|split;
    [apply List.Forall_forall; exact in_session_not_transport|]]]].
  - intros env c command sudo sudo_user timeout w.
    pose proof (run_ssh_command_cases env c command sudo sudo_user timeout w) as H.
    destruct (exec_command env c _ (Some timeout) w) as [[e|out err ec] w'].
    + do 3 eexists. split; [exact H | reflexivity].
    + destruct H as (code & Heq & Hin & _). do 3 eexists. split; [exact Heq | exact Hin].
  - intros env c sql db_user db_name db_port psql_path db_password w.
    pose proof (run_postgres_cases env c sql db_user db_name db_port psql_path
                  db_password w) as H.
    destruct (exec_command env c _ None w) as [[e|out err ec] w']; cbn [fst].
    + do 2 eexists. exact H.
    + intros result code' w2 Hret.
      destruct (Audit.unit_escape env out ec) as [e|].
      * rewrite H in Hret. discriminate.
      * destruct H as (data & code & Heq & Hin & _).
        rewrite Heq in Hret. now inversion Hret; subst.
  - split; [|split; discriminate].
    intros Hin. apply in_session_not_transport in Hin. discriminate Hin.
Qed.

(** What the SQL runner does for an invocation that ran to an exit
    status: every code it returns is [pg_0] exactly when the exit code
    is 0; on a non-zero exit code it returns the code of the classifier;
    on exit code 0 it returns [pg_0] whatever the stderr text, unless
    [json.loads] raises an exception other than [JSONDecodeError], which
    leaves the runner. *)
Lemma pg_code_by_exit env c sql db_user db_name db_port psql_path db_password
  w stdout stderr exit_code w' :
  exec_command env c
    (postgres_runner.psql_command sql db_user db_name db_port psql_path db_password)
    None w = (RunDone stdout stderr exit_code, w') ->
  (forall res code w2,
      postgres_runner.run_postgres_command_over_ssh env c sql db_user db_name db_port
        psql_path db_password w = (Return (res, code), w2) ->
      (code = "pg_0" <-> exit_code = 0) /\ rd_exit_code res = exit_code) /\
  (exit_code <> 0 ->
   exists res,
     postgres_runner.run_postgres_command_over_ssh env c sql db_user db_name db_port
       psql_path db_password w =
     (Return (res, postgres_runner._parse_psql_error (strip stderr) exit_code), w')) /\
  (exit_code = 0 ->
   match Audit.unit_escape env stdout 0 with
   | None =>
       exists res,
         postgres_runner.run_postgres_command_over_ssh env c sql db_user db_name
           db_port psql_path db_password w = (Return (res, "pg_0"), w')
   | Some e =>
       postgres_runner.run_postgres_command_over_ssh env c sql db_user db_name db_port
         psql_path db_password w = (Raise e, w')
   end).
Proof.
  intros Hrun.
  pose proof (run_postgres_cases env c sql db_user db_name db_port psql_path
                db_password w) as H.
  rewrite Hrun in H. split; [|split].
  - intros res code w2 Hret.
    destruct (Audit.unit_escape env stdout exit_code) as [e|].
    + rewrite H in Hret. discriminate.
    + destruct H as (data & code' & Heq & _ & Hcode & _).
      rewrite Heq in Hret. inversion Hret; subst. split; [exact Hcode | reflexivity].
  - intros Hne.
    assert (Audit.unit_escape env stdout exit_code = None) as Hesc.
    { unfold Audit.unit_escape. apply Z.eqb_neq in Hne. now rewrite Hne. }
    rewrite Hesc in H. destruct H as (data & code & Heq & _ & _ & _ & Hcl).
    destruct (Hcl Hne) as [_ ->]. eexists. exact Heq.
  - intros ->. destruct (Audit.unit_escape env stdout 0) as [e|]; [exact H|].
    destruct H as (data & code & Heq & _ & Hcode & _).
    assert (code = "pg_0") as -> by now apply Hcode.
    eexists. exact Heq.
Qed.

(** C10 fails on the code in one case: database [huge] of host [a]
    exits with 0, and the SQL runner returns no code at all, because
    the [ValueError] of [json.loads] leaves it.  Apart from that the
    claim holds: every code the runner returns is [pg_0] exactly when
    the remote exit code is 0; a non-zero exit code gets the code of the
    classifier, which never returns [pg_0]; an exit code of 0 gets
    [pg_0] whatever the stderr text, whenever [json.loads] returns or
    raises [JSONDecodeError]. *)
Theorem C10_pg_success_iff_zero_exit :
  (exists w',
      exec_command Fleet.env Fleet.session_a (Fleet.psql_on "huge") None Fleet.world0 =
      (RunDone Fleet.huge_number EmptyString 0, w') /\
      forall res code w2,
        postgres_runner.run_postgres_command_over_ssh Fleet.env Fleet.session_a
          "SELECT 1;" "postgres" "huge" 5432 "/usr/bin/psql" None Fleet.world0 <>
        (Return (res, code), w2)) /\
  (forall env c sql db_user db_name db_port psql_path db_password w stdout stderr
          exit_code w',
      exec_command env c
        (postgres_runner.psql_command sql db_user db_name db_port psql_path db_password)
        None w = (RunDone stdout stderr exit_code, w') ->
      (forall res code w2,
          postgres_runner.run_postgres_command_over_ssh env c sql db_user db_name
            db_port psql_path db_password w = (Return (res, code), w2) ->
          (code = "pg_0" <-> exit_code = 0) /\ rd_exit_code res = exit_code) /\
      (exit_code <> 0 ->
       exists res,
         postgres_runner.run_postgres_command_over_ssh env c sql db_user db_name
           db_port psql_path db_password w =
         (Return (res, postgres_runner._parse_psql_error (strip stderr) exit_code),
          w')) /\
      (exit_code = 0 ->
       match Audit.unit_escape env stdout 0 with
       | None =>
           exists res,
             postgres_runner.run_postgres_command_over_ssh env c sql db_user db_name
               db_port psql_path db_password w = (Return (res, "pg_0"), w')
       | Some e =>
           postgres_runner.run_postgres_command_over_ssh env c sql db_user db_name
             db_port psql_path db_password w = (Raise e, w')
       end)) /\
  (forall text status, postgres_runner._parse_psql_error text status <> "pg_0").
Proof.
  split; [|split; [exact pg_code_by_exit | exact parse_psql_error_not_success]].
  eexists. split; [vm_compute; reflexivity|].
  intros res code w2 Hret. vm_compute in Hret. discriminate Hret.
Qed.

(* ===================================================================== *)
(** ** The host pipelines *)
(* ===================================================================== *)

Lemma bind_run {A B} (m : M A) (k : A -> M B) (w : World) :
  bind m k w = match m w with
               | (Return a, w1) => k a w1
               | (Raise e, w1) => (Raise e, w1)
               end.
Proof. reflexivity. Qed.

(** A call of [log_execution] returns, having added its row (no row when
    the store does not open), or raises the exception of the insert,
    with nothing written. *)
Lemma log_execution_run env target query result code db w :
  (exists w',
      logger.log_execution env target query result code db w = (Return tt, w') /\
      logger_rows w' =
        logger_rows w ++
        logger.rows_logged env (logger.row_of target query result code db) /\
      host_key_files w' = host_key_files w /\ connects w' = connects w /\
      execs w' = execs w /\ closes w' = closes w /\
      (logger_db env = Return tt ->
       logger_insert env (logger.row_of target query result code db) = Return tt)) \/
  (exists e,
      logger.log_execution env target query result code db w = (Raise e, w) /\
      logger_db env = Return tt /\
      logger_insert env (logger.row_of target query result code db) = Raise e).
Proof.
  unfold logger.log_execution, logger.rows_logged, getter.get_sqlite_connection.
  destruct (logger_db env) as [[]|e].
  - rewrite bind_run. unfold of_outcome.
    destruct (logger_insert env _) as [[]|e].
    + left. eexists. split; [reflexivity|]. simpl. tauto.
    + right. exists e. tauto.
  - left. exists w. split; [reflexivity|]. rewrite app_nil_r.
    repeat split; discriminate.
Qed.

(** When the insert of the row does not raise, the call returns. *)
Lemma log_execution_returns env target query result code db w :
  (logger_db env = Return tt ->
   logger_insert env (logger.row_of target query result code db) = Return tt) ->
  exists w',
    logger.log_execution env target query result code db w = (Return tt, w') /\
    logger_rows w' =
      logger_rows w ++
      logger.rows_logged env (logger.row_of target query result code db) /\
    host_key_files w' = host_key_files w /\ connects w' = connects w /\
    execs w' = execs w /\ closes w' = closes w.
Proof.
  intros Hok.
  destruct (log_execution_run env target query result code db w)
    as [(w' & H & Hr & Hf & Hc & He & Hl & _)|(e & _ & Hdb & Hins)].
  - exists w'. tauto.
  - rewrite (Hok Hdb) in Hins. discriminate.
Qed.

(** Every database of the list is run once, in order. *)
Lemma run_databases_returns env c name sql pgv dbs :
  forall acc w l w',
    pg_main.run_databases env c name sql pgv dbs acc w = (Return l, w') ->
    exists new, l = acc ++ new /\ map pg_main.database new = dbs.
Proof.
  induction dbs as [|d dbs IH]; intros acc w l w' H; simpl in H.
  - inversion H; subst. exists []. now rewrite app_nil_r.
  - rewrite bind_run in H.
    destruct (int_get env pgv "PG_DB_PORT" 5432 w) as [[port|e] w1]; [|discriminate].
    rewrite bind_run in H.
    destruct (postgres_runner.run_postgres_command_over_ssh env c sql _ d port _ _ w1)
      as [[[res code]|e] w2]; [|discriminate].
    rewrite bind_run in H. cbn [fst snd] in H.
    destruct (log_execution_run env name sql res code (Some d) w2)
      as [(w3 & Hlog & _)|(e & Hlog & _)]; rewrite Hlog in H; [|discriminate]. apply IH in H as (new & -> & Hmap).
    eexists (_ :: new). split.
    + rewrite <- app_assoc. reflexivity.
    + simpl. now rewrite Hmap.
Qed.

(** The shape of what the session part of the SQL pipeline returns:
    a failure without unit results, or one unit result per resolved
    database. *)
Lemma process_host_session_shape env name cmd c pgv tv tdbs edbs w r w' :
  pg_main.process_host_session env name cmd c pgv tv tdbs edbs w = (Return r, w') ->
  pg_main.ssh_code r = "ssh_0" /\
  ((pg_main.results r = None /\ pg_main.success r = false /\
    pg_main.pg_code r = Some (Some "pg_99")) \/
   (exists dbs w1 l,
      pg_main.resolve_databases env c pgv tdbs edbs w = (Return dbs, w1) /\
      dbs <> [] /\ pg_main.results r = Some l /\ map pg_main.database l = dbs /\
      pg_main.success r = forallb pg_main.db_success l)).
Proof.
  unfold pg_main.process_host_session. rewrite bind_run.
  destruct (pg_main.resolve_databases env c pgv tdbs edbs w) as [[dbs|e] w1];
    [|discriminate].
  destruct dbs as [|d dbs].
  - rewrite bind_run.
    destruct (log_execution_run env name ("DB_LIST_ERROR: " +:+ cmd)
                (pg_main.failure_log "No databases to process") "pg_99" None w1)
      as [(w2 & -> & _)|(elog & -> & _)]; [|discriminate].
    intros H; inversion H; subst. simpl. split; [reflexivity|]. left. tauto.
  - unfold try_except_else.
    match goal with |- context [bind ?m ?k w1] => destruct (bind m k w1) as [[sql|e] w2] end.
    + rewrite bind_run.
      destruct (pg_main.run_databases env c name sql pgv (d :: dbs) [] w2)
        as [[l|e] w3] eqn:Hrun; [|discriminate].
      intros H; inversion H; subst. simpl. split; [reflexivity|]. right.
      apply run_databases_returns in Hrun as (new & -> & Hmap). simpl in *.
      exists (d :: dbs), w1, new. repeat split; try congruence.
      destruct new; [discriminate | reflexivity].
    + rewrite bind_run.
      match goal with
      | |- context [logger.log_execution env ?a ?b ?x ?y ?z w2] =>
          destruct (log_execution_run env a b x y z w2)
            as [(w3 & -> & _)|(elog & -> & _)]
      end; [|discriminate].
      intros H; inversion H; subst. simpl. split; [reflexivity|]. left. tauto.
Qed.

(** *** Opening a session *)

Lemma transport_failure_message (msg : string) :
  is_transport_failure ("ssh_99: " +:+ msg) = true.
Proof.
  change ("ssh_99: " +:+ msg) with (dispatch_failure_code +:+ (": " +:+ msg)).
  apply prefix_app.
Qed.

(** [get_ssh_connection] never raises and never writes a host-keys file;
    it makes one connection attempt and returns either a client for the
    host with [ssh_0] or no client with a transport-failure code. *)
Lemma get_ssh_connection_frame env u h k t allow w :
  exists client code w',
    getter.get_ssh_connection env u h k t allow w = (Return (client, code), w') /\
    logger_rows w' = logger_rows w /\ host_key_files w' = host_key_files w /\
    connects w' = connects w ++ [h] /\ execs w' = execs w /\ closes w' = closes w /\
    ((exists c, client = Some c /\ code = "ssh_0" /\ peer c = h) \/
     (client = None /\ is_transport_failure code = true)).
Proof.
  unfold getter.get_ssh_connection, try_except, connect.
  rewrite !bind_run.
  set (c0 := if allow then _ else _).
  assert (exists cl, c0 w = (Return cl, w) /\ host_keys_filename cl = None)
    as (cl & -> & Hfile).
  { subst c0. destruct allow.
    - eexists. split; reflexivity.
    - rewrite bind_run. unfold load_system_host_keys. eexists. split; reflexivity. }
  rewrite !bind_run. cbn [of_outcome].
  destruct (network env h) as [srv|e].
  - rewrite !bind_run.
    destruct (known_key cl h (key_type (server_key srv))) as [key|].
    + destruct (HostKey_eqb key (server_key srv)).
      * cbn [ret]. destruct (server_accepts srv u k);
          do 3 eexists; (split; [reflexivity|]); simpl;
            repeat split; eauto using transport_failure_message.
      * do 3 eexists. split; [reflexivity|]. simpl.
        repeat split; eauto using transport_failure_message.
    + unfold missing_host_key. destruct (policy cl).
      * do 3 eexists. split; [reflexivity|]. simpl.
        repeat split; eauto using transport_failure_message.
      * rewrite Hfile. destruct (server_accepts srv u k);
          do 3 eexists; (split; [reflexivity|]); simpl;
            repeat split; eauto using transport_failure_message.
  - do 3 eexists. split; [reflexivity|]. simpl.
    repeat split; eauto using transport_failure_message.
Qed.

(** *** The SQL pipeline *)

(** What the first part of the SQL pipeline yields when it ends the
    pipeline early: a failure with a transport code other than [ssh_0]. *)
Lemma acquire_session_early env host_name cmd allow w r w' :
  pg_main.acquire_session env host_name cmd allow w = (Return (inl r), w') ->
  pg_main.ssh_code r <> "ssh_0" /\ pg_main.results r = None /\
  pg_main.success r = false /\ execs w' = execs w.
Proof.
  unfold pg_main.acquire_session, try_except_else.
  destruct (getter.get_config_for_host env host_name w) as [[cfg|e] w1] eqn:Hcfg.
  - assert (execs w1 = execs w /\ connects w1 = connects w) as [Hex _].
    { unfold getter.get_config_for_host in Hcfg. rewrite bind_run in Hcfg.
      unfold of_outcome in Hcfg. destruct (config_db env); [|discriminate].
      match type of Hcfg with context [find ?f ?l] => destruct (find f l) end;
        inversion Hcfg; subst; tauto. }
    rewrite bind_run.
    destruct (int_get env (snd (fst cfg)) "SSH_TIMEOUT" 10 w1) as [[t|e] w2] eqn:Hint;
      [|discriminate].
    assert (w2 = w1) as ->.
    { unfold int_get in Hint. destruct (_ !! _); [|now inversion Hint].
      unfold of_option in Hint. destruct (int_of_str env _); now inversion Hint. }
    rewrite bind_run.
    match goal with
    | |- context [getter.get_ssh_connection env ?u ?h ?k t allow w1] =>
        destruct (get_ssh_connection_frame env u h k t allow w1)
          as (client & code & w3 & -> & _ & _ & _ & Hex3 & _)
    end.
    cbn [fst snd] in *.
    destruct (String.eqb code "ssh_0") eqn:Hcode; cbn [negb].
    + destruct client; discriminate.
    + rewrite bind_run.
      match goal with
      | |- context [logger.log_execution env ?a ?b ?x ?y ?z w3] =>
          destruct (log_execution_run env a b x y z w3)
            as [(w4 & -> & _ & _ & _ & Hex4 & _)|(elog & -> & _)]
      end; [|discriminate].
      intros H; inversion H; subst. simpl.
      apply String.eqb_neq in Hcode. repeat split; try assumption. congruence.
  - rewrite bind_run.
    match goal with
    | |- context [logger.log_execution env ?a ?b ?x ?y ?z w1] =>
        destruct (log_execution_run env a b x y z w1)
          as [(w2 & -> & _ & _ & _ & Hex2 & _)|(elog & -> & _)]
    end; [|discriminate].
    intros H; inversion H; subst. simpl.
    assert (w1 = w) as ->.
    { unfold getter.get_config_for_host in Hcfg. rewrite bind_run in Hcfg.
      unfold of_outcome in Hcfg. destruct (config_db env); [|now inversion Hcfg].
      match type of Hcfg with context [find ?f ?l] => destruct (find f l) end;
        now inversion Hcfg. }
    repeat split; try assumption; discriminate.
Qed.

(** The shape of what the SQL pipeline returns. *)
Lemma process_host_shape env host_name cmd tv tdbs edbs allow w r w' :
  pg_main.process_host env host_name cmd tv tdbs edbs allow w = (Return r, w') ->
  (pg_main.ssh_code r <> "ssh_0" /\ pg_main.results r = None /\
   pg_main.success r = false) \/
  (pg_main.ssh_code r = "ssh_0" /\
   ((pg_main.results r = None /\ pg_main.success r = false /\
     pg_main.pg_code r = Some (Some "pg_99")) \/
    (exists l, l <> [] /\ pg_main.results r = Some l /\
               pg_main.success r = forallb pg_main.db_success l))).
Proof.
  unfold pg_main.process_host. rewrite bind_run.
  destruct (pg_main.acquire_session env host_name cmd allow w)
    as [[[r0|[[name client] pgv]]|e] w1] eqn:Hacq; [| |discriminate].
  - intros H; inversion H; subst.
    apply acquire_session_early in Hacq. left. tauto.
  - unfold finally_close.
    destruct (pg_main.process_host_session env name cmd client pgv tv tdbs edbs w1)
      as [[r0|e] w2] eqn:Hs; [|discriminate].
    intros H; inversion H; subst.
    apply process_host_session_shape in Hs as [Hssh Hs]. right. split; [exact Hssh|].
    destruct Hs as [Hs|(dbs & w5 & l & _ & Hne & Hres & Hmap & Hsucc)]; [now left|].
    right. exists l. repeat split; try assumption.
    intros ->. now apply Hne.
Qed.







(** *** The fleet summary of the SQL dispatcher *)

Lemma count_future_bucket (c : pg_main.Counters) (future : outcome pg_main.HostResult) :
  pg_main.count_future c future = pg_main.increment (pg_main.bucket_of future) c.
Proof.
  destruct future as [r|e]; simpl; [|reflexivity].
  destruct (pg_main.success r); [reflexivity|].
  destruct (pg_main.has_results r); reflexivity.
Qed.

Lemma increment_total (b : pg_main.Status) (c : pg_main.Counters) :
  pg_main.total (pg_main.increment b c) = S (pg_main.total c).
Proof. destruct b; unfold pg_main.total; simpl; lia. Qed.

Lemma fold_count_total (futures : list (outcome pg_main.HostResult)) :
  forall c, pg_main.total (fold_left pg_main.count_future futures c)
            = (pg_main.total c + length futures)%nat.
Proof.
  induction futures as [|f futures IH]; intros c; simpl; [lia|].
  rewrite IH, count_future_bucket, increment_total. lia.
Qed.

Lemma filter_length_bound {A} (f : A -> bool) (l : list A) :
  (length (List.filter f l) <= length l)%nat.
Proof.
  induction l as [|x l IH]; simpl; [lia|]. destruct (f x); simpl; lia.
Qed.

Lemma forallb_filter_length {A} (f : A -> bool) (l : list A) :
  forallb f l = true <-> length (List.filter f l) = length l.
Proof.
  induction l as [|x l IH]; simpl; [tauto|].
  pose proof (filter_length_bound f l). destruct (f x); simpl.
  - rewrite IH. lia.
  - split; [discriminate | lia].
Qed.

(** The bucket of a returned outcome, by its unit results. *)
Lemma bucket_by_units env host_name cmd tv tdbs edbs allow w r w' :
  pg_main.process_host env host_name cmd tv tdbs edbs allow w = (Return r, w') ->
  (pg_main.bucket_of (Return r) = pg_main.OK <->
   (0 < length (pg_main.unit_results r) /\
    pg_main.successful_units r = length (pg_main.unit_results r))%nat) /\
  (pg_main.bucket_of (Return r) = pg_main.PARTIAL <->
   (0 < length (pg_main.unit_results r) /\
    pg_main.successful_units r < length (pg_main.unit_results r))%nat) /\
  (pg_main.bucket_of (Return r) = pg_main.FAIL <->
   length (pg_main.unit_results r) = 0%nat) /\
  (length (pg_main.unit_results r) = 0%nat ->
   pg_main.ssh_code r <> "ssh_0" \/ pg_main.pg_code r = Some (Some "pg_99")) /\
  pg_main.print_pg_result r = pg_main.bucket_of (Return r).
Proof.
  intros H. apply process_host_shape in H.
  unfold pg_main.bucket_of, pg_main.print_pg_result, pg_main.successful_units,
    pg_main.unit_results, pg_main.has_results.
  destruct H as [(Hssh & Hres & Hs)|(Hssh & [(Hres & Hs & Hpg)|(l & Hne & Hres & Hs)])];
    rewrite Hres, Hs.
  - apply String.eqb_neq in Hssh. rewrite Hssh. simpl.
    repeat split; try discriminate; try lia; try tauto.
    left. now apply String.eqb_neq.
  - rewrite Hssh. simpl. repeat split; try discriminate; try lia; try tauto.
  - rewrite Hssh. destruct l as [|x l]; [now destruct Hne|].
    change (default [] (Some (x :: l))) with (x :: l).
    pose proof (filter_length_bound pg_main.db_success (x :: l)) as Hle.
    pose proof (forallb_filter_length pg_main.db_success (x :: l)) as Hall.
    change (String.eqb "ssh_0" "ssh_0") with true. cbn [negb].
    destruct (forallb pg_main.db_success (x :: l)).
    + assert (length (List.filter pg_main.db_success (x :: l)) = length (x :: l))
        as Hk by now apply Hall.
      rewrite Hk. simpl. repeat split; try discriminate; try lia; try tauto.
    + assert (length (List.filter pg_main.db_success (x :: l)) <> length (x :: l))
        as Hk by (intros Hk; apply Hall in Hk; discriminate).
      simpl in *. repeat split; try discriminate; try lia; try tauto.
Qed.

(** One unit result per resolved database, in order. *)
Lemma units_follow_targets env name cmd c pgv tv tdbs edbs w dbs w1 r w' :
  pg_main.resolve_databases env c pgv tdbs edbs w = (Return dbs, w1) ->
  pg_main.process_host_session env name cmd c pgv tv tdbs edbs w = (Return r, w') ->
  pg_main.results r = None \/ map pg_main.database (pg_main.unit_results r) = dbs.
Proof.
  intros Hres H. apply process_host_session_shape in H as [_ H].
  destruct H as [(Hnone & _)|(dbs' & w2 & l & Hres' & _ & Hl & Hmap & _)]; [now left|].
  right. unfold pg_main.unit_results. rewrite Hl. simpl. congruence.
Qed.

Lemma increment_comm (a b : pg_main.Status) (c : pg_main.Counters) :
  pg_main.increment a (pg_main.increment b c) =
  pg_main.increment b (pg_main.increment a c).
Proof. destruct a, b; reflexivity. Qed.

(** The counters do not depend on the order in which the futures
    complete. *)
Lemma fold_count_permutation (l l' : list (outcome pg_main.HostResult)) :
  Permutation l l' ->
  forall c, fold_left pg_main.count_future l c = fold_left pg_main.count_future l' c.
Proof.
  induction 1 as [|x l l' _ IH|x y l|l l' l'' _ IH1 _ IH2]; intros c; simpl.
  - reflexivity.
  - apply IH.
  - now rewrite !count_future_bucket, increment_comm.
  - now rewrite IH1, IH2.
Qed.

(** C1, as stated, fails: host [a] run on the single database [broken]
    has one unit and no successful unit, and is counted PARTIAL, though
    [0 < 0 < 1] does not hold. *)
Lemma C1_counterexample :
  ~ (forall env host_name cmd tv tdbs edbs allow w r w',
        pg_main.process_host env host_name cmd tv tdbs edbs allow w = (Return r, w') ->
        (0 < length (pg_main.unit_results r))%nat ->
        (pg_main.count_future pg_main.zero_counters (Return r) =
           pg_main.increment pg_main.PARTIAL pg_main.zero_counters <->
         (0 < pg_main.successful_units r < length (pg_main.unit_results r))%nat)).
Proof.
  intros H.
  destruct (pg_main.process_host Fleet.env "a" "one" Fleet.no_vars (Some ["broken"])
              None false Fleet.world0) as [[r|e] w'] eqn:E;
    [|vm_compute in E; discriminate].
  specialize (H _ _ _ _ _ _ _ _ _ _ E).
  vm_compute in E. inversion E; subst r. clear E.
  assert (0 < 0 < 1)%nat as Hk; [|lia].
  apply H; [vm_compute; lia | reflexivity].
Qed.

(** C1 (amended): every completed host increments exactly one of the
    three counters, whatever the completion order.  A host whose
    pipeline returned [N >= 1] unit results, [k] of them successful, is
    counted success iff [k = N] and partial iff [k < N], the case [k = 0]
    included; it is counted fail iff its pipeline returned no unit
    result, which happens only with a transport code other than [ssh_0]
    or with the pre-execution failure [pg_99]; the pipeline returns one
    unit result per resolved database.  The printed status agrees with
    the bucket. *)
Theorem C1_fleet_summary_buckets :
  (forall c future,
      pg_main.count_future c future = pg_main.increment (pg_main.bucket_of future) c) /\
  (forall futures,
      pg_main.total (fold_left pg_main.count_future futures pg_main.zero_counters) =
      length futures) /\
  (forall l l' c,
      Permutation l l' ->
      fold_left pg_main.count_future l c = fold_left pg_main.count_future l' c) /\
  (forall env host_name cmd tv tdbs edbs allow w r w',
      pg_main.process_host env host_name cmd tv tdbs edbs allow w = (Return r, w') ->
      (pg_main.bucket_of (Return r) = pg_main.OK <->
       (0 < length (pg_main.unit_results r) /\
        pg_main.successful_units r = length (pg_main.unit_results r))%nat) /\
      (pg_main.bucket_of (Return r) = pg_main.PARTIAL <->
       (0 < length (pg_main.unit_results r) /\
        pg_main.successful_units r < length (pg_main.unit_results r))%nat) /\
      (pg_main.bucket_of (Return r) = pg_main.FAIL <->
       length (pg_main.unit_results r) = 0%nat) /\
      (length (pg_main.unit_results r) = 0%nat ->
       pg_main.ssh_code r <> "ssh_0" \/ pg_main.pg_code r = Some (Some "pg_99")) /\
      pg_main.print_pg_result r = pg_main.bucket_of (Return r)) /\
  (forall env name cmd c pgv tv tdbs edbs w dbs w1 r w',
      pg_main.resolve_databases env c pgv tdbs edbs w = (Return dbs, w1) ->
      pg_main.process_host_session env name cmd c pgv tv tdbs edbs w = (Return r, w') ->
      pg_main.results r = None \/
      map pg_main.database (pg_main.unit_results r) = dbs).
Proof.
  split; [exact count_future_bucket|].
  split; [intros futures; now rewrite fold_count_total|].
  split; [intros l l' c Hp; now apply fold_count_permutation|].
  split; [exact bucket_by_units | exact units_follow_targets].
Qed.

(** C1 on the fleet: host [a] run on the single database [broken]. *)
Lemma C1_witness :
  pg_main.bucket_of (Return Fleet.outcome_broken) = pg_main.PARTIAL <->
  (0 < length (pg_main.unit_results Fleet.outcome_broken) /\
   pg_main.successful_units Fleet.outcome_broken <
   length (pg_main.unit_results Fleet.outcome_broken))%nat.
Proof.
  destruct C1_fleet_summary_buckets as (_ & _ & _ & Hbucket & _).
  refine (proj1 (proj2 (Hbucket Fleet.env "a" "one" Fleet.no_vars (Some ["broken"]) None
                          false Fleet.world0 Fleet.outcome_broken
                          (snd (pg_main.process_host Fleet.env "a" "one" Fleet.no_vars
                                  (Some ["broken"]) None false Fleet.world0)) _))).
  vm_compute. reflexivity.
Defined.

(* ===================================================================== *)
(** ** Failures at the pipeline boundary *)
(* ===================================================================== *)

(** Looking a host up does not touch the world. *)
Lemma get_config_for_host_pure env host_name w o w1 :
  getter.get_config_for_host env host_name w = (o, w1) -> w1 = w.
Proof.
  unfold getter.get_config_for_host. rewrite bind_run. unfold of_outcome.
  destruct (config_db env) as [db|e]; [|now inversion 1].
  match goal with |- context [find ?f ?l] => destruct (find f l) end;
    now inversion 1.
Qed.

(** The shell pipeline has no handler around the configuration lookup:
    its exception leaves [process_host], with nothing logged. *)
Lemma ssh_config_failure_escapes env host_name tmpl tv sudo user timeout allow dry w e w1 :
  getter.get_config_for_host env host_name w = (Raise e, w1) ->
  ssh_main.process_host env host_name tmpl tv sudo user timeout allow dry w =
  (Raise e, w).
Proof.
  intros H. pose proof (get_config_for_host_pure _ _ _ _ _ H) as ->.
  unfold ssh_main.process_host. now rewrite bind_run, H.
Qed.

(** Nor around the rendering of the command. *)
Lemma ssh_template_failure_escapes env host_name tmpl tv sudo user timeout allow dry
  w cfg t e :
  getter.get_config_for_host env host_name w = (Return cfg, w) ->
  int_get env (snd (fst cfg)) "SSH_TIMEOUT" 10 w = (Return t, w) ->
  render_sql env tmpl tv = Raise e ->
  ssh_main.process_host env host_name tmpl tv sudo user timeout allow dry w =
  (Raise e, w).
Proof.
  intros Hcfg Hint Hr. unfold ssh_main.process_host.
  rewrite bind_run, Hcfg, bind_run, Hint, bind_run. unfold of_outcome. now rewrite Hr.
Qed.

(** The SQL pipeline turns the same failure into a returned outcome with
    the code [ssh_99], logs it, and attempts no session (the insert of
    the log row not raising). *)
Lemma pg_config_failure_returned env host_name cmd tv tdbs edbs allow w e w1 :
  getter.get_config_for_host env host_name w = (Raise e, w1) ->
  (logger_db env = Return tt ->
   logger_insert env
     (logger.row_of host_name ("CONFIG_ERROR: " +:+ cmd)
        (pg_main.failure_log ("CONFIG_ERROR: " +:+ exn_str e)) "ssh_99" None) =
   Return tt) ->
  exists w',
    pg_main.process_host env host_name cmd tv tdbs edbs allow w =
    (Return (pg_main.failure_result host_name "ssh_99" EmptyString false
               ("CONFIG_ERROR: " +:+ exn_str e)), w') /\
    connects w' = connects w /\ execs w' = execs w /\
    logger_rows w' =
      logger_rows w ++
      logger.rows_logged env
        (logger.row_of host_name ("CONFIG_ERROR: " +:+ cmd)
           (pg_main.failure_log ("CONFIG_ERROR: " +:+ exn_str e)) "ssh_99" None).
Proof.
  intros H Hok. pose proof (get_config_for_host_pure _ _ _ _ _ H) as ->.
  unfold pg_main.process_host, pg_main.acquire_session, try_except_else.
  rewrite bind_run, H, bind_run.
  match goal with
  | |- context [logger.log_execution env ?a ?b ?x ?y ?z w] =>
      destruct (log_execution_returns env a b x y z w Hok)
        as (w2 & -> & Hrows & _ & Hconn & Hex & _)
  end.
  exists w2. split; [reflexivity|]. tauto.
Qed.

(** A failing discovery query leaves the SQL pipeline as an exception. *)
Lemma pg_discovery_failure_escapes env name cmd c pgv tv edbs w e w1 :
  pg_getter.get_user_databases env c pgv w = (Raise e, w1) ->
  pg_main.process_host_session env name cmd c pgv tv None edbs w = (Raise e, w1).
Proof.
  intros H. unfold pg_main.process_host_session, pg_main.resolve_databases.
  now rewrite !bind_run, H.
Qed.

(** C3 fails on the shell pipeline: for the switched-off host [idle] the
    configuration lookup raises, and [process_host] of the shell variant
    lets the exception through, with no log row and no outcome, whereas
    the SQL variant returns an outcome with the code [ssh_99], logs one
    row and attempts no session. *)
Theorem C3_shell_config_failure_escapes :
  ssh_main.process_host Fleet.env "idle" "uptime" Fleet.no_vars false "root" 60
    false false Fleet.world0 =
  (Raise (Exn "ValueError" "Host 'idle' not found or disabled"), Fleet.world0) /\
  exists r w',
    pg_main.process_host Fleet.env "idle" "one" Fleet.no_vars None None false
      Fleet.world0 = (Return r, w') /\
    pg_main.ssh_code r = "ssh_99" /\ pg_main.success r = false /\
    connects w' = [] /\
    map log_code (logger_rows w') = ["ssh_99"].
Proof.
  split.
  - apply ssh_config_failure_escapes with (w1 := Fleet.world0). vm_compute. reflexivity.
  - destruct (pg_config_failure_returned Fleet.env "idle" "one" Fleet.no_vars None None
                false Fleet.world0
                (Exn "ValueError" "Host 'idle' not found or disabled") Fleet.world0)
      as (w' & Hrun & Hconn & _ & Hrows);
      [vm_compute; reflexivity | reflexivity |].
    do 2 eexists. split; [exact Hrun|]. rewrite Hconn, Hrows. repeat split.
Qed.

(* ===================================================================== *)
(** ** The exit status of a dispatch run *)
(* ===================================================================== *)







(** The SQL variant drops the value of [main]: whenever [main] returns,
    the exit status is 0, whatever the counters. *)
Lemma pg_exit_status_of_return env args w r w' :
  pg_main.main env args w = (Return r, w') -> pg_main.exit_status env args w = 0.
Proof.
  intros H. unfold pg_main.exit_status. now rewrite H.
Qed.

(** On the fleet, the SQL variant counts one partial and two failed
    hosts and exits with status 0. *)
Lemma pg_exit_status_with_failures :
  fst (pg_main.main Fleet.env (Fleet.pg_args None "one" None) Fleet.world0) =
  Return (Some {| pg_main.success_count := 0; pg_main.partial_count := 1;
                  pg_main.fail_count := 2 |}) /\
  pg_main.exit_status Fleet.env (Fleet.pg_args None "one" None) Fleet.world0 = 0.
Proof.
  split; vm_compute; reflexivity.
Qed.

(* ===================================================================== *)
(** ** The host-key policy *)
(* ===================================================================== *)

(** With new host keys not allowed, a reachable host whose key is not in
    the system known-hosts file is rejected: no client, a
    transport-failure code, nothing written. *)
Lemma unknown_host_rejected env u h k t w srv :
  network env h = Return srv ->
  lookup_key (default [] (host_key_files w !! system_known_hosts)) h
    (key_type (server_key srv)) = None ->
  exists w',
    getter.get_ssh_connection env u h k t false w =
    (Return (None, "ssh_99: " +:+ "Server " +:+ squote +:+ h +:+ squote +:+
                   " not found in known_hosts"), w') /\
    host_key_files w' = host_key_files w.
Proof.
  intros Hnet Hkey.
  unfold getter.get_ssh_connection, try_except, connect, load_system_host_keys.
  rewrite !bind_run. cbn [ret of_outcome]. rewrite !bind_run. cbn [of_outcome].
  rewrite Hnet. rewrite !bind_run.
  unfold known_key. cbn [system_host_keys host_keys set_missing_host_key_policy new_client].
  rewrite app_nil_l, Hkey. cbn [lookup_key find].
  unfold missing_host_key. cbn [policy].
  eexists. split; reflexivity.
Qed.

(** With new host keys allowed, a reachable host that accepts the login
    gets a session whatever its key; the key is kept in the client only
    and no host-keys file is written. *)
Lemma new_host_accepted_in_memory env u h k t w srv :
  network env h = Return srv ->
  server_accepts srv u k = true ->
  exists client w',
    getter.get_ssh_connection env u h k t true w = (Return (Some client, "ssh_0"), w') /\
    host_keys client = [(h, server_key srv)] /\
    host_key_files w' = host_key_files w.
Proof.
  intros Hnet Hacc.
  unfold getter.get_ssh_connection, try_except, connect.
  rewrite !bind_run. cbn [ret of_outcome]. rewrite !bind_run. cbn [of_outcome].
  rewrite Hnet. rewrite !bind_run.
  unfold known_key, missing_host_key.
  cbn [system_host_keys host_keys set_missing_host_key_policy new_client lookup_key find
       policy host_keys_filename].
  rewrite Hacc. do 2 eexists. split; [reflexivity|]. split; reflexivity.
Qed.

(** C9 holds for the strict policy and fails for the permissive one:
    host [c], whose key is not in the known-hosts file, is rejected with
    a transport-failure code when new host keys are not allowed; when
    they are allowed the session opens with the key trusted by that
    client, but the known-hosts file is left as it was, and the next
    strict session to [c] is rejected again. *)
Theorem C9_new_host_key_not_persisted :
  fst (getter.get_ssh_connection Fleet.env "ops" "c" "/home/ops/.ssh/id_ed25519" 10
         false Fleet.world0) =
    Return (None, "ssh_99: Server 'c' not found in known_hosts") /\
  exists client w1,
    getter.get_ssh_connection Fleet.env "ops" "c" "/home/ops/.ssh/id_ed25519" 10
      true Fleet.world0 = (Return (Some client, "ssh_0"), w1) /\
    host_keys client = [("c", Fleet.key_c)] /\
    host_key_files w1 = host_key_files Fleet.world0 /\
    fst (getter.get_ssh_connection Fleet.env "ops" "c" "/home/ops/.ssh/id_ed25519" 10
           false w1) =
      Return (None, "ssh_99: Server 'c' not found in known_hosts").
Proof.
  split; [vm_compute; reflexivity|].
  destruct (new_host_accepted_in_memory Fleet.env "ops" "c" "/home/ops/.ssh/id_ed25519"
              10 Fleet.world0 Fleet.server_c eq_refl eq_refl)
    as (client & w1 & Hrun & Hkeys & Hfiles).
  exists client, w1. split; [exact Hrun|]. split; [exact Hkeys|]. split; [exact Hfiles|].
  destruct (unknown_host_rejected Fleet.env "ops" "c" "/home/ops/.ssh/id_ed25519" 10 w1
              Fleet.server_c eq_refl) as (w2 & -> & _).
  - rewrite Hfiles. vm_compute. reflexivity.
  - reflexivity.
Qed.

(* ===================================================================== *)
(** ** Further properties of the classifiers and the runners *)
(* ===================================================================== *)

Lemma lower_app (a b : string) : lower (a +:+ b) = lower a +:+ lower b.
Proof.
  induction a as [|c a IH]; [reflexivity|].
  rewrite append_cons. simpl. now rewrite IH.
Qed.

Lemma contains_in_any_case (pattern a s b : string) :
  lower s = pattern -> contains pattern (lower (a +:+ s +:+ b)) = true.
Proof.
  intros <-. rewrite !lower_app. apply contains_spec. now exists (lower a), (lower b).
Qed.

(** X1: a stderr text that holds "permission denied" anywhere, in any
    letter case, is classified [cmd_12] by the shell classifier,
    whatever else the text holds and whatever the exit code. *)
Theorem shell_permission_denied_wins (a s b : string) (exit_code : Z) :
  lower s = "permission denied" ->
  ssh_runner._classify_ssh_error (a +:+ s +:+ b) exit_code = "cmd_12".
Proof.
  intros H. unfold ssh_runner._classify_ssh_error. cbv zeta.
  now rewrite (contains_in_any_case _ a s b H).
Qed.

Lemma shell_permission_denied_wins_witness :
  ssh_runner._classify_ssh_error
    ("bash: /opt/run.sh: " +:+ "Permission Denied" +:+ " (sudo: a password is required)")
    126 = "cmd_12".
Proof.
  apply (shell_permission_denied_wins "bash: /opt/run.sh: " "Permission Denied"
           " (sudo: a password is required)" 126).
  reflexivity.
Defined.

(** X2: a stderr text that reports a missing executable ("psql: not
    found" or "command not found", in any letter case) is classified
    [pg_10] by the SQL classifier, whatever else the text holds (a FATAL
    password line, an ERROR: line) and whatever the exit code. *)
Theorem sql_missing_executable_wins (a s b : string) (exit_code : Z) :
  lower s = "psql: not found" \/ lower s = "command not found" ->
  postgres_runner._parse_psql_error (a +:+ s +:+ b) exit_code = "pg_10".
Proof.
  intros [H|H]; unfold postgres_runner._parse_psql_error; cbv zeta;
    rewrite (contains_in_any_case _ a s b H); [reflexivity|].
  now rewrite orb_true_r.
Qed.

Lemma sql_missing_executable_wins_witness :
  postgres_runner._parse_psql_error
    ("FATAL: password; ERROR: " +:+ "sh: PSQL: Not Found" +:+ EmptyString) 0 = "pg_10".
Proof.
  apply (sql_missing_executable_wins "FATAL: password; ERROR: sh: " "PSQL: Not Found"
           EmptyString 0).
  left. reflexivity.
Defined.

(** X3: both classifiers read the text without regard to letter case,
    and the value of a non-zero exit code never changes the result. *)
Theorem classifiers_ignore_case_and_exit_value (stderr : string) (e1 e2 : Z) :
  e1 <> 0 -> e2 <> 0 ->
  ssh_runner._classify_ssh_error (lower stderr) e1 =
    ssh_runner._classify_ssh_error stderr e2 /\
  postgres_runner._parse_psql_error (lower stderr) e1 =
    postgres_runner._parse_psql_error stderr e2.
Proof.
  intros H1 H2. apply Z.eqb_neq in H1, H2.
  unfold ssh_runner._classify_ssh_error, postgres_runner._parse_psql_error.
  cbv zeta. now rewrite lower_idem, H1, H2.
Qed.

Lemma classifiers_ignore_case_and_exit_value_witness :
  ssh_runner._classify_ssh_error (lower "Connection TIMEOUT") 1 =
    ssh_runner._classify_ssh_error "Connection TIMEOUT" 255 /\
  postgres_runner._parse_psql_error (lower "Connection TIMEOUT") 1 =
    postgres_runner._parse_psql_error "Connection TIMEOUT" 255.
Proof.
  apply (classifiers_ignore_case_and_exit_value "Connection TIMEOUT" 1 255); lia.
Defined.

(** X4: the shell runner always returns; its code is one of [cmd_0],
    [cmd_10], [cmd_12], [cmd_16], [cmd_18] and [ssh_99], never [cmd_99];
    the code is [cmd_0] exactly when the recorded exit code is 0, so the
    stderr text never demotes a zero exit; [ssh_99] comes with the exit
    code -1; and the result keeps the command as given, without the
    sudo prefix. *)
Theorem shell_runner_codes env c command sudo sudo_user timeout w :
  exists res code w',
    ssh_runner.run_ssh_command env c command sudo sudo_user timeout w =
    (Return (res, code), w') /\
    In code ["cmd_0"; "cmd_10"; "cmd_12"; "cmd_16"; "cmd_18"; "ssh_99"] /\
    (code = "cmd_0" <-> rd_exit_code res = 0) /\
    (code = "ssh_99" -> rd_exit_code res = -1) /\
    rd_command res = Some command.
Proof.
  unfold ssh_runner.run_ssh_command.
  destruct (exec_command env c _ (Some timeout) w) as [[e|out err ec] w'].
  - do 3 eexists. split; [reflexivity|]. simpl.
    split; [tauto|]. split; [split; discriminate|]. split; reflexivity.
  - destruct (ec =? 0) eqn:E.
    + apply Z.eqb_eq in E. do 3 eexists. split; [reflexivity|]. simpl.
      split; [tauto|]. split; [tauto|]. split; [discriminate | reflexivity].
    + do 3 eexists. split; [reflexivity|]. cbn [rd_exit_code rd_command].
      apply Z.eqb_neq in E.
      unfold ssh_runner._classify_ssh_error. cbv zeta.
      rewrite (proj2 (Z.eqb_neq ec 0) E). cbn [negb].
      generalize (lower (strip err)) as t; intros t.
      split_tests; (split; [simpl; tauto|]);
        (split; [split; [discriminate | intros; contradiction]|]);
        (split; [discriminate | reflexivity]).
Qed.

(** X5: the SQL runner returns a result and a code, except when the
    exit code is 0 and [json.loads] raises an exception other than
    [JSONDecodeError] on the stripped, non-empty output: that exception
    leaves the runner.  A returned code is one of [pg_0], [pg_10],
    [pg_12], [pg_14], [pg_16], [pg_18] and [ssh_99], never [pg_99]; it
    is [pg_0] exactly when the recorded exit code is 0; [ssh_99] comes
    with the exit code -1; and a result with another code than [pg_0]
    carries no data. *)
Theorem sql_runner_codes env c sql db_user db_name db_port psql_path db_password w :
  match postgres_runner.run_postgres_command_over_ssh env c sql db_user db_name db_port
          psql_path db_password w with
  | (Return (res, code), _) =>
      In code ["pg_0"; "pg_10"; "pg_12"; "pg_14"; "pg_16"; "pg_18"; "ssh_99"] /\
      (code = "pg_0" <-> rd_exit_code res = 0) /\
      (code = "ssh_99" -> rd_exit_code res = -1) /\
      (code <> "pg_0" -> rd_data res = Some VNone) /\
      rd_stdout res = None
  | (Raise e, w') =>
      exists stdout stderr,
        exec_command env c
          (postgres_runner.psql_command sql db_user db_name db_port psql_path
             db_password) None w = (RunDone stdout stderr 0, w') /\
        strip stdout <> EmptyString /\
        json_loads env (strip stdout) = Raise e /\
        exn_class e <> "JSONDecodeError"
  end.
Proof.
  unfold postgres_runner.run_postgres_command_over_ssh.
  destruct (exec_command env c _ None w) as [[e|out err ec] w'].
  - simpl. split; [tauto|]. split; [split; discriminate|]. repeat split.
  - destruct (ec =? 0) eqn:E.
    + apply Z.eqb_eq in E. subst ec. unfold truthy.
      destruct (strip out) as [|ch rest] eqn:Hout; cbn [is_empty negb].
      * simpl. split; [tauto|]. split; [tauto|]. split; [discriminate|].
        split; [congruence | reflexivity].
      * destruct (json_loads env (String ch rest)) as [parsed|e] eqn:Hj.
        -- simpl. split; [tauto|]. split; [tauto|]. split; [discriminate|].
           split; [congruence | reflexivity].
        -- destruct (String.eqb (exn_class e) "JSONDecodeError") eqn:Hc.
           ++ simpl. split; [tauto|]. split; [tauto|]. split; [discriminate|].
              split; [congruence | reflexivity].
           ++ exists out, err. split; [reflexivity|]. rewrite Hout.
              split; [discriminate|]. split; [exact Hj|].
              now apply String.eqb_neq.
    + cbn [rd_exit_code rd_data rd_stdout].
      apply Z.eqb_neq in E.
      unfold postgres_runner._parse_psql_error. cbv zeta.
      rewrite (proj2 (Z.eqb_neq ec 0) E). cbn [negb].
      generalize (lower (strip err)) as t; intros t.
      split_tests; (split; [simpl; tauto|]);
        (split; [split; [discriminate | intros; contradiction]|]);
        (split; [discriminate|]); (split; reflexivity).
Qed.


(* ===================================================================== *)
(** ** The configuration store *)
(* ===================================================================== *)

Lemma find_none_iff {A} (f : A -> bool) (l : list A) :
  find f l = None <-> forall x, In x l -> f x = false.
Proof.
  split; [apply find_none|].
  induction l as [|x l IH]; intros H; [reflexivity|]. simpl.
  rewrite (H x (or_introl eq_refl)). apply IH. intros y Hy. apply H. now right.
Qed.

(** X7: the hosts [get_all_active_hosts] lists are exactly the hosts
    [get_config_for_host] resolves: for a listed host the lookup returns
    the name it was given, for any other host it raises [ValueError];
    neither call touches the world, and when the store cannot be opened
    both raise the same exception. *)
Theorem active_hosts_are_the_resolvable_hosts env host_name w :
  match getter.get_all_active_hosts env w with
  | (Return active, w1) =>
      w1 = w /\
      (In host_name active ->
       exists ssh_vars pg_vars,
         getter.get_config_for_host env host_name w =
         (Return (host_name, ssh_vars, pg_vars), w)) /\
      (~ In host_name active ->
       exists msg,
         getter.get_config_for_host env host_name w =
         (Raise (Exn "ValueError" msg), w))
  | (Raise e, w1) =>
      w1 = w /\ getter.get_config_for_host env host_name w = (Raise e, w)
  end.
Proof.
  unfold getter.get_all_active_hosts, getter.get_config_for_host.
  rewrite !bind_run. unfold of_outcome.
  destruct (config_db env) as [db|e]; [|split; reflexivity].
  cbn [ret]. split; [reflexivity|].
  set (f := fun h : Z * string * bool => (String.eqb (snd (fst h)) host_name && snd h)%bool).
  destruct (find f (hosts db)) as [row|] eqn:E.
  - split; [intros _; do 2 eexists; reflexivity|].
    intros Hnot. destruct Hnot. apply find_some in E as [Hin Hf]. subst f.
    apply andb_true_iff in Hf as [Hname Htog]. apply String.eqb_eq in Hname.
    apply in_map_iff. exists row. split; [exact Hname|].
    apply filter_In. now split.
  - split; [|intros _; eexists; reflexivity].
    intros Hin. apply in_map_iff in Hin as (row & Hname & Hrow).
    apply filter_In in Hrow as [Hrow Htog].
    pose proof (proj1 (find_none_iff f (hosts db)) E row Hrow) as Hf. subst f.
    simpl in Hf. rewrite Hname, String.eqb_refl, Htog in Hf. discriminate.
Qed.

Lemma dict_of_rows_snoc (rows : list (string * string)) (kv : string * string) :
  getter.dict_of_rows (rows ++ [kv]) = <[fst kv := snd kv]> (getter.dict_of_rows rows).
Proof.
  unfold getter.dict_of_rows. now rewrite foldl_app.
Qed.

(** X8: the variable dictionary built from the rows of a host holds,
    for every variable, the value of the last row that names it, and
    nothing for a variable no row names. *)
Theorem host_variables_keep_last_row (rows : list (string * string)) (key : string) :
  getter.dict_of_rows rows !! key = Audit.last_value rows key.
Proof.
  induction rows as [|kv rows IH] using rev_ind.
  - reflexivity.
  - rewrite dict_of_rows_snoc. unfold Audit.last_value.
    rewrite rev_app_distr. simpl.
    destruct (String.eqb (fst kv) key) eqn:E.
    + apply String.eqb_eq in E. subst key. apply lookup_insert_eq.
    + apply String.eqb_neq in E. rewrite lookup_insert_ne by exact E. exact IH.
Qed.

(** X9: the two variants resolve a command name against the same table:
    when the shell variant finds a template the SQL variant returns the
    same one; when the shell variant finds none (unknown name, or a
    store that cannot be opened) the SQL variant raises. *)
Theorem command_lookup_agrees env command_name w :
  match ssh_main.get_command_template env command_name with
  | Some template =>
      pg_getter.get_sql_template env command_name w = (Return template, w)
  | None => exists e, pg_getter.get_sql_template env command_name w = (Raise e, w)
  end.
Proof.
  unfold ssh_main.get_command_template, pg_getter.get_sql_template,
    getter.get_sqlite_connection.
  rewrite bind_run. unfold of_outcome.
  destruct (config_db env) as [db|e]; [|now eexists].
  destruct (find _ (commands db)) as [row|]; [reflexivity | now eexists].
Qed.

(* ===================================================================== *)
(** ** Database discovery *)
(* ===================================================================== *)

Lemma rstrip_idem (s : string) : rstrip (rstrip s) = rstrip s.
Proof.
  induction s as [|c r IH]; [reflexivity|].
  cbn [rstrip]. cbv zeta.
  destruct (blank (String c (rstrip r))) eqn:E; [reflexivity|].
  cbn [rstrip]. cbv zeta. rewrite IH, E. reflexivity.
Qed.

Lemma lstrip_fixed (s : string) : starts_blank s = false -> lstrip s = s.
Proof.
  destruct s as [|a [|b [|c r]]]; cbn [starts_blank lstrip]; intros H;
    [reflexivity|..].
  - rewrite orb_false_r in H. now rewrite H.
  - apply orb_false_iff in H as [Ha H]. rewrite orb_false_r in H.
    now rewrite Ha, H.
  - apply orb_false_iff in H as [Ha H]. apply orb_false_iff in H as [Hb Hc].
    now rewrite Ha, Hb, Hc.
Qed.

Lemma lstrip_cons (a : ascii) (r : string) :
  lstrip (String a r) =
  if is_space a then lstrip r
  else match r with
       | EmptyString => String a r
       | String b r2 =>
           if is_space2 a b then lstrip r2
           else match r2 with
                | EmptyString => String a r
                | String c r3 => if is_space3 a b c then lstrip r3 else String a r
                end
       end.
Proof. reflexivity. Qed.

Lemma lstrip_starts_blank_n (n : nat) :
  forall s, (String.length s <= n)%nat -> starts_blank (lstrip s) = false.
Proof.
  induction n as [|n IH]; intros s Hlen.
  - destruct s; [reflexivity | simpl in Hlen; lia].
  - destruct s as [|a r]; [reflexivity|]. simpl in Hlen. rewrite lstrip_cons.
    destruct (is_space a) eqn:Ea; [apply IH; lia|].
    destruct r as [|b r2]; [cbn [starts_blank]; now rewrite Ea|]. simpl in Hlen.
    destruct (is_space2 a b) eqn:Eb; [apply IH; lia|].
    destruct r2 as [|c r3]; [cbn [starts_blank]; now rewrite Ea, Eb|]. simpl in Hlen.
    destruct (is_space3 a b c) eqn:Ec; [apply IH; lia|].
    cbn [starts_blank]. now rewrite Ea, Eb, Ec.
Qed.

Lemma lstrip_starts_blank (s : string) : starts_blank (lstrip s) = false.
Proof. apply (lstrip_starts_blank_n (String.length s)). lia. Qed.

Lemma rstrip_is_prefix (s : string) : exists x, s = rstrip s +:+ x.
Proof.
  induction s as [|c r [x IH]]; [now exists EmptyString|].
  cbn [rstrip]. cbv zeta.
  destruct (blank (String c (rstrip r))).
  - now exists (String c r).
  - exists x. change (String c (rstrip r) +:+ x) with (String c (rstrip r +:+ x)).
    now rewrite <- IH.
Qed.

Lemma starts_blank_app (u x : string) :
  starts_blank u = true -> starts_blank (u +:+ x) = true.
Proof.
  destruct u as [|a [|b [|c r]]]; cbn [starts_blank]; [discriminate|..].
  - rewrite orb_false_r. intros H.
    change (String a EmptyString +:+ x) with (String a x).
    cbn [starts_blank]. now rewrite H.
  - rewrite orb_false_r. intros H.
    change (String a (String b EmptyString) +:+ x) with (String a (String b x)).
    cbn [starts_blank]. apply orb_true_iff in H as [->| ->]; [reflexivity|].
    destruct x; cbn [orb]; apply orb_true_r.
  - intros H.
    change (String a (String b (String c r)) +:+ x)
      with (String a (String b (String c (r +:+ x)))).
    exact H.
Qed.

Lemma rstrip_starts_blank (s : string) :
  starts_blank s = false -> starts_blank (rstrip s) = false.
Proof.
  intros H. destruct (starts_blank (rstrip s)) eqn:E; [|reflexivity].
  destruct (rstrip_is_prefix s) as [x Hx].
  apply (starts_blank_app _ x) in E. rewrite <- Hx in E. congruence.
Qed.

Lemma strip_idem (s : string) : strip (strip s) = strip s.
Proof.
  unfold strip.
  rewrite (lstrip_fixed (rstrip (lstrip s))).
  - apply rstrip_idem.
  - apply rstrip_starts_blank, lstrip_starts_blank.
Qed.

(** Blanks outside ASCII are stripped, and end lines, as the ASCII ones. *)
Lemma unicode_blanks :
  strip (Cases.nbsp +:+ " db1" +:+ Cases.line_separator +:+ newline) = "db1" /\
  strip (Cases.nbsp +:+ Cases.line_separator) = EmptyString /\
  splitlines ("db1" +:+ Cases.line_separator +:+ "db2" +:+ newline) = ["db1"; "db2"].
Proof. repeat split. Qed.

(** What [strip] returns has neither leading nor trailing blanks. *)
Lemma strip_trimmed (s : string) : Audit.trimmed (strip s).
Proof. apply strip_idem. Qed.

(** X10: database discovery looks only at the two output streams: when
    the transport raises, the exception is passed on; when the stripped
    stderr is not empty it raises [RuntimeError], whatever the exit
    status; otherwise it returns names that are non-empty and carry no
    surrounding blanks (stripping them again changes nothing), again
    whatever the exit status. *)
Theorem discovery_outcomes env client pg_vars w :
  match exec_command env client pg_getter.discovery_command None w with
  | (RunRaised e, w') =>
      pg_getter.get_user_databases env client pg_vars w = (Raise e, w')
  | (RunDone stdout stderr _, w') =>
      if is_empty (strip stderr)
      then exists dbs,
             pg_getter.get_user_databases env client pg_vars w = (Return dbs, w') /\
             Forall (fun d => d <> EmptyString /\ Audit.trimmed d) dbs
      else exists msg,
             pg_getter.get_user_databases env client pg_vars w =
             (Raise (Exn "RuntimeError" msg), w')
  end.
Proof.
  unfold pg_getter.get_user_databases.
  destruct (exec_command env client pg_getter.discovery_command None w)
    as [[e|out err st] w']; [reflexivity|].
  unfold truthy. destruct (is_empty (strip err)); cbn [negb]; [|now eexists].
  eexists. split; [reflexivity|].
  apply List.Forall_forall. intros d Hd.
  apply filter_In in Hd as [Hd Ht]. apply in_map_iff in Hd as (line & <- & _).
  split; [|apply strip_trimmed].
  intros E. rewrite E in Ht. discriminate.
Qed.

(* ===================================================================== *)
(** ** Template variables *)
(* ===================================================================== *)

Lemma contains_eq_cons (c : ascii) (k : string) :
  contains "=" (String c k) = (Ascii.eqb c "=" || contains "=" k)%bool.
Proof.
  change (contains "=" (String c k))
    with (String.prefix "=" (String c k) || contains "=" k)%bool.
  f_equal. cbn [String.prefix]. destruct (ascii_dec "=" c) as [<-|ne].
  - now destruct k.
  - destruct (Ascii.eqb c "=") eqn:E; [|reflexivity].
    apply Ascii.eqb_eq in E. now destruct ne.
Qed.

Lemma split_eq_app (k x : string) :
  contains "=" k = false -> split_eq (k +:+ "=" +:+ x) = Some (k, x).
Proof.
  induction k as [|c k IH]; intros H; [reflexivity|].
  rewrite contains_eq_cons in H. apply orb_false_iff in H as [Hc Hk].
  rewrite append_cons. simpl. rewrite Hc, (IH Hk). reflexivity.
Qed.

Lemma split_eq_none (v : string) : contains "=" v = false -> split_eq v = None.
Proof.
  induction v as [|c v IH]; intros H; [reflexivity|].
  rewrite contains_eq_cons in H. apply orb_false_iff in H as [Hc Hv].
  simpl. now rewrite Hc, (IH Hv).
Qed.

(** X11: of the [--var] arguments, one without "=" is ignored; one of
    the form [key=value] binds the stripped key to the stripped value,
    the value being everything after the first "=", and replaces what an
    earlier argument bound to that key. *)
Theorem template_vars_last_binding_wins :
  (forall vars k x,
      contains "=" k = false ->
      template_vars_of (Some (vars ++ [k +:+ "=" +:+ x])) !! strip k = Some (strip x)) /\
  (forall vars v,
      contains "=" v = false ->
      template_vars_of (Some (vars ++ [v])) = template_vars_of (Some vars)) /\
  template_vars_of None = ∅ /\ template_vars_of (Some []) = ∅.
Proof.
  split; [|split; [|split; reflexivity]].
  - intros vars k x H. unfold template_vars_of. cbn [default from_option id].
    rewrite foldl_app. cbn [foldl]. rewrite (split_eq_app k x H). cbn [fst snd].
    apply lookup_insert_eq.
  - intros vars v H. unfold template_vars_of. cbn [default from_option id].
    rewrite foldl_app. cbn [foldl]. now rewrite (split_eq_none v H).
Qed.

(** The value is stripped of a no-break space as of a space. *)
Lemma template_vars_last_binding_wins_witness :
  template_vars_of
    (Some (["schema=old"; "verbose"] ++
           [" schema " +:+ "=" +:+ (Cases.nbsp +:+ "a=b " +:+ Cases.nbsp)]))
    !! "schema" = Some "a=b".
Proof.
  exact (proj1 template_vars_last_binding_wins ["schema=old"; "verbose"] " schema "
           (Cases.nbsp +:+ "a=b " +:+ Cases.nbsp) eq_refl).
Defined.

(* ===================================================================== *)
(** ** What the pipelines do to the world *)
(* ===================================================================== *)

Lemma only_appends_refl (w : World) : Audit.only_appends w w.
Proof.
  unfold Audit.only_appends. split; [reflexivity|].
  repeat split; exists []; now rewrite app_nil_r.
Qed.

Lemma only_appends_trans (w1 w2 w3 : World) :
  Audit.only_appends w1 w2 -> Audit.only_appends w2 w3 -> Audit.only_appends w1 w3.
Proof.
  intros (Hf & [r Hr] & [c Hc] & [e He] & [l Hl]) (Hf' & [r' Hr'] & [c' Hc'] & [e' He'] & [l' Hl']).
  unfold Audit.only_appends. split; [congruence|].
  repeat split; eexists.
  - rewrite Hr', Hr, <- app_assoc. reflexivity.
  - rewrite Hc', Hc, <- app_assoc. reflexivity.
  - rewrite He', He, <- app_assoc. reflexivity.
  - rewrite Hl', Hl, <- app_assoc. reflexivity.
Qed.

Lemma same_sessions_refl (w : World) : Audit.same_sessions w w.
Proof. repeat split. Qed.

Lemma same_sessions_trans (w1 w2 w3 : World) :
  Audit.same_sessions w1 w2 -> Audit.same_sessions w2 w3 -> Audit.same_sessions w1 w3.
Proof.
  intros (A & B & C) (A' & B' & C'). repeat split; congruence.
Qed.

(** A remote invocation records itself and changes nothing else. *)
Lemma exec_command_effects env c cmd timeout w :
  exists run w',
    exec_command env c cmd timeout w = (run, w') /\
    execs w' = execs w ++ [(peer c, cmd)] /\
    logger_rows w' = logger_rows w /\ Audit.same_sessions w w'.
Proof.
  unfold exec_command.
  destruct (network env (peer c)); do 2 eexists; (split; [reflexivity|]);
    repeat split.
Qed.

(** What a call of [log_execution] does to the world, however it ends. *)
Lemma log_execution_effects env target query result code db w :
  exists o w',
    logger.log_execution env target query result code db w = (o, w') /\
    logger_rows w' =
      logger_rows w ++
      match o with
      | Return _ => logger.rows_logged env (logger.row_of target query result code db)
      | Raise _ => []
      end /\
    execs w' = execs w /\ Audit.same_sessions w w'.
Proof.
  destruct (log_execution_run env target query result code db w)
    as [(w' & H & Hr & Hf & Hc & He & Hl & _)|(elog & H & _)].
  - exists (Return tt), w'. repeat split; assumption.
  - exists (Raise elog), w. rewrite app_nil_r. repeat split; assumption.
Qed.

Lemma int_get_pure env d key dflt w o w' :
  int_get env d key dflt w = (o, w') -> w' = w.
Proof.
  unfold int_get, of_option, ret, raise.
  destruct (d !! key) as [v|]; [destruct (int_of_str env v)|]; now inversion 1.
Qed.

Ltac conjs := repeat match goal with |- _ /\ _ => split end.

(** One unit: what the runner does to the world, and what it returns
    when it returns. *)
Lemma run_postgres_unit env c sql user db port path pw w :
  exists o w',
    postgres_runner.run_postgres_command_over_ssh env c sql user db port path pw w =
    (o, w') /\
    execs w' = execs w ++ [(peer c, postgres_runner.psql_command sql user db port path pw)] /\
    logger_rows w' = logger_rows w /\ Audit.same_sessions w w' /\
    match o with
    | Return (res, code) =>
        rd_stdout res = None /\
        (exists data, rd_data res = Some data /\ (code <> "pg_0" -> data = VNone)) /\
        (code = "pg_0" <-> rd_exit_code res = 0) /\
        In code ["pg_0"; "pg_10"; "pg_12"; "pg_14"; "pg_16"; "pg_18"; "ssh_99"]
    | Raise _ => True
    end.
Proof.
  unfold postgres_runner.run_postgres_command_over_ssh.
  destruct (exec_command_effects env c
              (postgres_runner.psql_command sql user db port path pw) None w)
    as (run & w' & -> & Hex & Hrows & Hsess).
  destruct run as [e|out err ec].
  - do 2 eexists. split; [reflexivity|]. cbv iota beta.
    conjs; try reflexivity; try assumption.
    + eexists. split; reflexivity.
    + split; discriminate.
    + simpl. tauto.
  - destruct (ec =? 0) eqn:E.
    + apply Z.eqb_eq in E.
      destruct (truthy (strip out));
        [destruct (json_loads env (strip out)) as [parsed|e];
         [|destruct (String.eqb (exn_class e) "JSONDecodeError")]|];
        do 2 eexists; (split; [reflexivity|]); cbv iota beta;
          conjs; try reflexivity; try assumption; try exact I;
          try (eexists; split; [reflexivity | congruence]); simpl; tauto.
    + apply Z.eqb_neq in E. do 2 eexists. split; [reflexivity|]. cbv iota beta.
      conjs; try reflexivity; try assumption.
      * eexists. split; reflexivity.
      * split; [intros H; now apply parse_psql_error_not_success in H|].
        simpl. intros H. contradiction.
      * unfold postgres_runner._parse_psql_error. cbv zeta.
        rewrite (proj2 (Z.eqb_neq ec 0) E). cbn [negb].
        generalize (lower (strip err)) as t; intros t.
        split_tests; simpl; tauto.
Qed.

Lemma int_get_any_world env d key dflt w1 w2 :
  fst (int_get env d key dflt w1) = fst (int_get env d key dflt w2).
Proof.
  unfold int_get, of_option, ret, raise.
  destruct (d !! key) as [v|]; [destruct (int_of_str env v)|]; reflexivity.
Qed.

(** The unit loop, when it returns: one unit result, one invocation and
    (when the log store opens) one log row per database, in order. *)
Lemma run_databases_effects env c name sql pgv dbs :
  forall acc w l w',
    pg_main.run_databases env c name sql pgv dbs acc w = (Return l, w') ->
    exists new rows,
      l = acc ++ new /\ map pg_main.database new = dbs /\
      Forall Audit.unit_ok new /\
      logger_rows w' = logger_rows w ++ rows /\
      match logger_db env with
      | Return _ => map Audit.row_summary rows = map Audit.unit_summary new /\
                    Forall (Audit.unit_row_ok name sql) rows
      | Raise _ => rows = []
      end /\
      (forall port,
          fst (int_get env pgv "PG_DB_PORT" 5432 w) = Return port ->
          execs w' =
          execs w ++
          map (fun d => (peer c,
                         postgres_runner.psql_command sql
                           (default "postgres" (pgv !! "PG_DB_USER")) d port
                           (default "/usr/bin/psql" (pgv !! "PG_PSQL_PATH"))
                           (pgv !! "PG_PASSWORD"))) dbs) /\
      (dbs = [] -> execs w' = execs w) /\
      Audit.same_sessions w w'.
Proof.
  induction dbs as [|d dbs IH]; intros acc w l w' H; simpl in H.
  - inversion H; subst. exists [], []. rewrite !app_nil_r.
    conjs; try reflexivity.
    + constructor.
    + destruct (logger_db env); [split; [reflexivity | constructor] | reflexivity].
    + intros port _. simpl. now rewrite app_nil_r.
    + apply same_sessions_refl.
  - rewrite bind_run in H.
    destruct (int_get env pgv "PG_DB_PORT" 5432 w) as [[port|e] w1] eqn:Hint;
      [|discriminate].
    pose proof (int_get_pure _ _ _ _ _ _ _ Hint) as ->.
    rewrite bind_run in H.
    destruct (run_postgres_unit env c sql (default "postgres" (pgv !! "PG_DB_USER")) d
                port (default "/usr/bin/psql" (pgv !! "PG_PSQL_PATH"))
                (pgv !! "PG_PASSWORD") w)
      as (o2 & w2 & Hrun & Hex2 & Hrows2 & Hsess2 & Hres).
    rewrite Hrun in H. destruct o2 as [[res code]|e2]; [|discriminate].
    destruct Hres as (Hout & (data & Hdata & Hnone) & Hzero & Hcodes).
    rewrite bind_run in H. cbn [fst snd] in H.
    destruct (log_execution_effects env name sql res code (Some d) w2)
      as (o3 & w3 & Hlog & Hrows3 & Hex3 & Hsess3).
    rewrite Hlog in H. destruct o3 as [[]|e3]; [|discriminate].
    apply IH in H as (new & rows & -> & Hmap & Hok & Hrows & Hlogdb & Hexecs & _ & Hsess).
    eexists (_ :: new), (logger.rows_logged env _ ++ rows).
    conjs.
    + rewrite <- app_assoc. reflexivity.
    + simpl. now rewrite Hmap.
    + constructor; [|exact Hok]. unfold Audit.unit_ok. cbn. rewrite Hdata. cbn.
      conjs.
      * apply String.eqb_eq.
      * exact Hzero.
      * intros Hs. apply Hnone. intros ->. discriminate.
      * exact Hcodes.
    + rewrite Hrows, Hrows3, Hrows2, <- app_assoc. reflexivity.
    + unfold logger.rows_logged. destruct (logger_db env) as [[]|e].
      * destruct Hlogdb as [Hsum Hall]. split.
        -- simpl. now rewrite Hsum.
        -- constructor; [|exact Hall]. unfold Audit.unit_row_ok, logger.row_of. cbn.
           rewrite Hout. conjs; reflexivity.
      * subst rows. reflexivity.
    + intros port' Hport. cbn in Hport. inversion Hport; subst port'.
      rewrite (Hexecs port), Hex3, Hex2, <- app_assoc; [reflexivity|].
      rewrite (int_get_any_world env pgv "PG_DB_PORT" 5432 w3 w), Hint. reflexivity.
    + discriminate.
    + eapply same_sessions_trans; [exact Hsess2|].
      eapply same_sessions_trans; [exact Hsess3 | exact Hsess].
Qed.

(** The unit loop, however it ends, leaves sessions and host-key files
    alone and only appends rows and invocations. *)
Lemma run_databases_frame env c name sql pgv dbs :
  forall acc w o w',
    pg_main.run_databases env c name sql pgv dbs acc w = (o, w') ->
    Audit.same_sessions w w' /\
    (exists rows, logger_rows w' = logger_rows w ++ rows) /\
    (exists es, execs w' = execs w ++ es).
Proof.
  induction dbs as [|d dbs IH]; intros acc w o w' H; simpl in H.
  - inversion H; subst. split; [apply same_sessions_refl|].
    split; exists []; now rewrite app_nil_r.
  - rewrite bind_run in H.
    destruct (int_get env pgv "PG_DB_PORT" 5432 w) as [[port|e] w1] eqn:Hint.
    + pose proof (int_get_pure _ _ _ _ _ _ _ Hint) as ->.
      rewrite bind_run in H.
      destruct (run_postgres_unit env c sql (default "postgres" (pgv !! "PG_DB_USER")) d
                  port (default "/usr/bin/psql" (pgv !! "PG_PSQL_PATH"))
                  (pgv !! "PG_PASSWORD") w)
        as (o2 & w2 & Hrun & Hex2 & Hrows2 & Hsess2 & _).
      rewrite Hrun in H. destruct o2 as [[res code]|e2].
      * rewrite bind_run in H. cbn [fst snd] in H.
        destruct (log_execution_effects env name sql res code (Some d) w2)
          as (o3 & w3 & Hlog & Hrows3 & Hex3 & Hsess3).
        rewrite Hlog in H. destruct o3 as [[]|e3].
        -- apply IH in H as (Hsess & [rows Hrows] & [es Hes]).
           split; [|split].
           ++ eapply same_sessions_trans; [exact Hsess2|].
              eapply same_sessions_trans; [exact Hsess3 | exact Hsess].
           ++ eexists. rewrite Hrows, Hrows3, Hrows2, <- app_assoc. reflexivity.
           ++ eexists. rewrite Hes, Hex3, Hex2, <- app_assoc. reflexivity.
        -- inversion H; subst. split; [|split].
           ++ eapply same_sessions_trans; [exact Hsess2 | exact Hsess3].
           ++ eexists. rewrite Hrows3, Hrows2. reflexivity.
           ++ eexists. rewrite Hex3, Hex2. reflexivity.
      * inversion H; subst. split; [exact Hsess2|].
        split; eexists; [rewrite Hrows2, app_nil_r|rewrite Hex2]; reflexivity.
    + pose proof (int_get_pure _ _ _ _ _ _ _ Hint) as ->.
      inversion H; subst. split; [apply same_sessions_refl|].
      split; exists []; now rewrite app_nil_r.
Qed.

Lemma get_user_databases_effects env c pgv w o w' :
  pg_getter.get_user_databases env c pgv w = (o, w') ->
  execs w' = execs w ++ [(peer c, pg_getter.discovery_command)] /\
  logger_rows w' = logger_rows w /\ Audit.same_sessions w w'.
Proof.
  unfold pg_getter.get_user_databases.
  destruct (exec_command_effects env c pg_getter.discovery_command None w)
    as (run & w1 & -> & Hex & Hrows & Hsess).
  destruct run as [e|out err st]; [|destruct (truthy (strip err))];
    inversion 1; subst; auto.
Qed.

Lemma filter_excluded (excl dbs : list string) (d : string) :
  In d (List.filter (fun db => negb (existsb (String.eqb db) excl)) dbs) ->
  In d dbs /\ ~ In d excl.
Proof.
  intros H. apply filter_In in H as [Hin Hneg]. split; [exact Hin|].
  intros Hex. apply negb_true_iff in Hneg.
  assert (existsb (String.eqb d) excl = true) as Ht.
  { apply existsb_exists. exists d. split; [exact Hex | apply String.eqb_refl]. }
  congruence.
Qed.

(** Resolving the database list: a named list is used without asking
    the host, otherwise the discovery query is run once; the resolved
    list holds no excluded name, and only named ones when names were
    given. *)
Lemma resolve_databases_effects env c pgv tdbs edbs w o w' :
  pg_main.resolve_databases env c pgv tdbs edbs w = (o, w') ->
  logger_rows w' = logger_rows w /\ Audit.same_sessions w w' /\
  execs w' = execs w ++ match tdbs with
                        | Some (_ :: _) => []
                        | _ => [(peer c, pg_getter.discovery_command)]
                        end /\
  match o with
  | Return dbs =>
      (forall excl d, edbs = Some excl -> In d dbs -> ~ In d excl) /\
      (forall t ts d, tdbs = Some (t :: ts) -> In d dbs -> In d (t :: ts))
  | Raise _ => True
  end.
Proof.
  unfold pg_main.resolve_databases. rewrite bind_run.
  set (src := match tdbs with
              | Some (d :: ds) => ret (d :: ds)
              | _ => pg_getter.get_user_databases env c pgv
              end).
  destruct (src w) as [[dbs|e] w1] eqn:Hsrc.
  - assert (logger_rows w1 = logger_rows w /\ Audit.same_sessions w w1 /\
            execs w1 = execs w ++ match tdbs with
                                  | Some (_ :: _) => []
                                  | _ => [(peer c, pg_getter.discovery_command)]
                                  end /\
            (forall t ts d, tdbs = Some (t :: ts) -> In d dbs -> In d (t :: ts)))
      as (Hrows & Hsess & Hex & Hsub).
    { subst src. destruct tdbs as [[|t ts]|].
      - apply get_user_databases_effects in Hsrc as (A & B & C).
        conjs; try assumption. discriminate.
      - inversion Hsrc; subst. rewrite app_nil_r.
        conjs; try reflexivity; [apply same_sessions_refl|].
        intros t' ts' d H. now inversion H.
      - apply get_user_databases_effects in Hsrc as (A & B & C).
        conjs; try assumption. discriminate. }
    destruct edbs as [[|x excl]|]; [| destruct dbs as [|d0 dbs] |];
      inversion 1; subst; conjs; try assumption.
    + intros excl' d He. inversion He; subst. intros _ [].
    + intros excl' d _ [].
    + intros excl' d He Hin. inversion He; subst.
      now apply (filter_excluded (x :: excl) (d0 :: dbs) d) in Hin.
    + intros t ts d Ht Hin.
      apply (filter_excluded (x :: excl) (d0 :: dbs) d) in Hin as [Hin _]. eauto.
    + intros excl' d He. discriminate He.
  - assert (logger_rows w1 = logger_rows w /\ Audit.same_sessions w w1 /\
            execs w1 = execs w ++ match tdbs with
                                  | Some (_ :: _) => []
                                  | _ => [(peer c, pg_getter.discovery_command)]
                                  end) as (Hrows & Hsess & Hex).
    { subst src. destruct tdbs as [[|t ts]|].
      - now apply get_user_databases_effects in Hsrc.
      - discriminate.
      - now apply get_user_databases_effects in Hsrc. }
    inversion 1; subst. conjs; try assumption. exact I.
Qed.

Lemma get_config_for_host_name env host_name w cfg w1 :
  getter.get_config_for_host env host_name w = (Return cfg, w1) ->
  fst (fst cfg) = host_name.
Proof.
  unfold getter.get_config_for_host. rewrite bind_run. unfold of_outcome.
  destruct (config_db env) as [db|e]; [|discriminate].
  match goal with |- context [find ?f ?l] => destruct (find f l) end;
    inversion 1; reflexivity.
Qed.

(** The first part of the SQL pipeline: what it yields and what it does
    to the world. *)
Lemma acquire_session_effects env host_name cmd allow w o w1 :
  pg_main.acquire_session env host_name cmd allow w = (o, w1) ->
  host_key_files w1 = host_key_files w /\ execs w1 = execs w /\
  closes w1 = closes w /\
  match o with
  | Return (inr (name, client, pgv)) =>
      name = host_name /\ peer client = host_name /\
      connects w1 = connects w ++ [host_name] /\ logger_rows w1 = logger_rows w
  | Return (inl r) =>
      pg_main.host r = host_name /\ pg_main.results r = None /\
      pg_main.success r = false /\ pg_main.ssh_code r <> "ssh_0" /\
      pg_main.databases_processed r = None /\ pg_main.databases_failed r = None /\
      (connects w1 = connects w \/ connects w1 = connects w ++ [host_name]) /\
      exists msg row,
        pg_main.error r = Some msg /\
        logger_rows w1 = logger_rows w ++ logger.rows_logged env row /\
        log_code row = pg_main.ssh_code r /\ log_exit_code row = -1 /\
        log_database_name row = None /\ log_stderr_text row = msg /\
        log_target_host row = host_name
  | Raise _ =>
      (connects w1 = connects w \/ connects w1 = connects w ++ [host_name]) /\
      logger_rows w1 = logger_rows w
  end.
Proof.
  unfold pg_main.acquire_session, try_except_else.
  destruct (getter.get_config_for_host env host_name w) as [[cfg|e] w0] eqn:Hcfg;
    pose proof (get_config_for_host_pure _ _ _ _ _ Hcfg) as ->.
  - pose proof (get_config_for_host_name _ _ _ _ _ Hcfg) as Hname.
    rewrite bind_run.
    destruct (int_get env (snd (fst cfg)) "SSH_TIMEOUT" 10 w) as [[t|e] w2] eqn:Hint;
      pose proof (int_get_pure _ _ _ _ _ _ _ Hint) as ->.
    + rewrite bind_run.
      match goal with
      | |- context [getter.get_ssh_connection env ?u ?h ?k t allow w] =>
          destruct (get_ssh_connection_frame env u h k t allow w)
            as (client & code & w3 & -> & Hrows & Hfiles & Hconn & Hex & Hcl & Hres)
      end.
      cbn [fst snd]. rewrite Hname in *.
      destruct Hres as [(cl & -> & -> & Hpeer)|[-> Htf]].
      * change (String.eqb "ssh_0" "ssh_0") with true. cbn [negb].
        inversion 1; subst. conjs; try assumption; reflexivity.
      * assert (String.eqb code "ssh_0" = false) as ->.
        { apply String.eqb_neq. intros ->. discriminate Htf. }
        cbn [negb]. rewrite bind_run.
        match goal with
        | |- context [logger.log_execution env ?a ?b ?x ?y ?z w3] =>
            destruct (log_execution_effects env a b x y z w3)
              as (o4 & w4 & -> & Hrows4 & Hex4 & Hf4 & Hc4 & Hl4)
        end.
        destruct o4 as [[]|e4].
        -- inversion 1; subst. cbn.
           conjs; try congruence.
           ++ intros ->. discriminate Htf.
           ++ right. congruence.
           ++ do 2 eexists. conjs; [reflexivity | | | | | |].
              ** rewrite Hrows4, Hrows. reflexivity.
              ** reflexivity.
              ** reflexivity.
              ** reflexivity.
              ** reflexivity.
              ** reflexivity.
        -- inversion 1; subst. rewrite app_nil_r in Hrows4.
           conjs; try congruence. right. congruence.
    + inversion 1; subst. conjs; try reflexivity. now left.
  - rewrite bind_run.
    match goal with
    | |- context [logger.log_execution env ?a ?b ?x ?y ?z w] =>
        destruct (log_execution_effects env a b x y z w)
          as (o4 & w4 & -> & Hrows4 & Hex4 & Hf4 & Hc4 & Hl4)
    end.
    destruct o4 as [[]|e4].
    + inversion 1; subst. cbn.
      conjs; try congruence; try discriminate.
      * now left.
      * do 2 eexists. conjs; [reflexivity | exact Hrows4 | | | | |]; reflexivity.
    + inversion 1; subst. rewrite app_nil_r in Hrows4.
      conjs; try congruence. now left.
Qed.

Lemma run_databases_port env c name sql pgv d dbs acc w l w' :
  pg_main.run_databases env c name sql pgv (d :: dbs) acc w = (Return l, w') ->
  exists port, fst (int_get env pgv "PG_DB_PORT" 5432 w) = Return port.
Proof.
  simpl. rewrite bind_run.
  destruct (int_get env pgv "PG_DB_PORT" 5432 w) as [[port|e] w1]; [|discriminate].
  intros _. now exists port.
Qed.

Lemma template_pure env cmd tv w o w' :
  bind (pg_getter.get_sql_template env cmd)
       (fun sql_template => of_outcome (render_sql env sql_template tv)) w = (o, w') ->
  w' = w.
Proof.
  rewrite bind_run. unfold pg_getter.get_sql_template. rewrite bind_run.
  unfold of_outcome. destruct (config_db env) as [db|e]; [|now inversion 1].
  destruct (find _ (commands db)); cbn; now inversion 1.
Qed.

Lemma template_renders env cmd tv w sql w' :
  bind (pg_getter.get_sql_template env cmd)
       (fun sql_template => of_outcome (render_sql env sql_template tv)) w =
  (Return sql, w') ->
  Audit.renders_to env cmd tv sql.
Proof.
  rewrite bind_run. intros H. unfold Audit.renders_to.
  destruct (pg_getter.get_sql_template env cmd w) as [[template|e] w1] eqn:Ht;
    [|discriminate].
  unfold of_outcome in H.
  destruct (render_sql env template tv) as [out|e] eqn:Hr; [|discriminate].
  inversion H; subst. exists template. split; [|exact Hr].
  intros w0. revert Ht. unfold pg_getter.get_sql_template. rewrite !bind_run.
  unfold of_outcome. destruct (config_db env) as [db|e]; [|discriminate].
  destruct (find _ (commands db)) as [row|]; cbn; inversion 1; reflexivity.
Qed.

(** Everything the session part of the SQL pipeline returns. *)
Lemma session_returns env name cmd c pgv tv tdbs edbs w r w' :
  pg_main.process_host_session env name cmd c pgv tv tdbs edbs w = (Return r, w') ->
  pg_main.host r = name /\ pg_main.ssh_code r = "ssh_0" /\ Audit.same_sessions w w' /\
  exists dbs w1,
    pg_main.resolve_databases env c pgv tdbs edbs w = (Return dbs, w1) /\
    ((pg_main.results r = None /\ pg_main.success r = false /\
      pg_main.pg_code r = Some (Some "pg_99") /\
      pg_main.databases_processed r = None /\ pg_main.databases_failed r = None /\
      execs w' = execs w1 /\
      exists msg row,
        pg_main.error r = Some msg /\
        logger_rows w' = logger_rows w ++ logger.rows_logged env row /\
        log_code row = "pg_99" /\ log_exit_code row = -1 /\
        log_database_name row = None /\ log_stderr_text row = msg /\
        log_target_host row = name) \/
     (exists l rows sql port,
        dbs <> [] /\ pg_main.results r = Some l /\ map pg_main.database l = dbs /\
        Forall Audit.unit_ok l /\
        pg_main.success r = forallb pg_main.db_success l /\
        pg_main.error r = None /\ pg_main.pg_code r = None /\
        pg_main.databases_processed r = Some (length l) /\
        pg_main.databases_failed r =
          Some (length (List.filter (fun u => negb (pg_main.db_success u)) l)) /\
        logger_rows w' = logger_rows w ++ rows /\
        match logger_db env with
        | Return _ => map Audit.row_summary rows = map Audit.unit_summary l /\
                      Forall (Audit.unit_row_ok name sql) rows
        | Raise _ => rows = []
        end /\
        execs w' =
        execs w1 ++
        map (fun d => (peer c,
                       postgres_runner.psql_command sql
                         (default "postgres" (pgv !! "PG_DB_USER")) d port
                         (default "/usr/bin/psql" (pgv !! "PG_PSQL_PATH"))
                         (pgv !! "PG_PASSWORD"))) dbs /\
        Audit.renders_to env cmd tv sql)).
Proof.
  unfold pg_main.process_host_session. rewrite bind_run.
  destruct (pg_main.resolve_databases env c pgv tdbs edbs w) as [[dbs|e] w1] eqn:Hres;
    [|discriminate].
  pose proof (resolve_databases_effects _ _ _ _ _ _ _ _ Hres) as (Hrows1 & Hsess1 & _).
  destruct dbs as [|d dbs].
  - rewrite bind_run.
    match goal with
    | |- context [logger.log_execution env ?a ?b ?x ?y ?z w1] =>
        destruct (log_execution_effects env a b x y z w1)
          as (o2 & w2 & -> & Hrows2 & Hex2 & Hsess2)
    end.
    destruct o2 as [[]|e2]; [|discriminate].
    inversion 1; subst. cbn. conjs; try reflexivity.
    + eapply same_sessions_trans; eassumption.
    + exists [], w1. split; [reflexivity|]. left.
      conjs; try reflexivity; try assumption.
      do 2 eexists. split; [reflexivity|].
      split; [rewrite Hrows2, Hrows1; reflexivity|]. conjs; reflexivity.
  - unfold try_except_else.
    match goal with
    | |- context [bind ?m ?k w1] =>
        destruct (bind m k w1) as [[sql|e] w2] eqn:Htpl;
          pose proof (template_pure _ _ _ _ _ _ Htpl) as ->
    end.
    + rewrite bind_run. apply template_renders in Htpl.
      destruct (pg_main.run_databases env c name sql pgv (d :: dbs) [] w1)
        as [[l|e] w3] eqn:Hrun; [|discriminate].
      destruct (run_databases_port _ _ _ _ _ _ _ _ _ _ _ Hrun) as [port Hport].
      apply run_databases_effects in Hrun
        as (new & rows & Hl & Hmap & Hok & Hrows & Hlog & Hexecs & _ & Hsess).
      simpl in Hl. subst l.
      inversion 1; subst. cbn. conjs; try reflexivity.
      * eapply same_sessions_trans; eassumption.
      * exists (d :: dbs), w1. split; [reflexivity|]. right.
        exists new, rows, sql, port.
        conjs; try reflexivity; try assumption.
        -- discriminate.
        -- destruct new; [discriminate | reflexivity].
        -- rewrite Hrows, Hrows1. reflexivity.
        -- now apply Hexecs.
    + rewrite bind_run.
      match goal with
      | |- context [logger.log_execution env ?a ?b ?x ?y ?z w1] =>
          destruct (log_execution_effects env a b x y z w1)
            as (o2 & w2 & -> & Hrows2 & Hex2 & Hsess2)
      end.
      destruct o2 as [[]|e2]; [|discriminate].
      inversion 1; subst. cbn. conjs; try reflexivity.
      * eapply same_sessions_trans; eassumption.
      * exists (d :: dbs), w1. split; [reflexivity|]. left.
        conjs; try reflexivity; try assumption.
        do 2 eexists. split; [reflexivity|].
        split; [rewrite Hrows2, Hrows1; reflexivity|]. conjs; reflexivity.
Qed.

(** The session part, however it ends, leaves sessions and host-key
    files alone and only appends rows and invocations. *)
Lemma session_frame env name cmd c pgv tv tdbs edbs w o w' :
  pg_main.process_host_session env name cmd c pgv tv tdbs edbs w = (o, w') ->
  Audit.same_sessions w w' /\
  (exists rows, logger_rows w' = logger_rows w ++ rows) /\
  (exists es, execs w' = execs w ++ es).
Proof.
  unfold pg_main.process_host_session. rewrite bind_run.
  destruct (pg_main.resolve_databases env c pgv tdbs edbs w) as [[dbs|e] w1] eqn:Hres;
    pose proof (resolve_databases_effects _ _ _ _ _ _ _ _ Hres) as (Hrows1 & Hsess1 & Hex1 & _).
  - destruct dbs as [|d dbs].
    + rewrite bind_run.
      match goal with
      | |- context [logger.log_execution env ?a ?b ?x ?y ?z w1] =>
          destruct (log_execution_effects env a b x y z w1)
            as (o2 & w2 & -> & Hrows2 & Hex2 & Hsess2)
      end.
      destruct o2 as [[]|e2];
        inversion 1; subst; (split; [eapply same_sessions_trans; eassumption|]);
          split; eexists.
      * rewrite Hrows2, Hrows1. reflexivity.
      * rewrite Hex2, Hex1. reflexivity.
      * rewrite Hrows2, Hrows1. reflexivity.
      * rewrite Hex2, Hex1. reflexivity.
    + unfold try_except_else.
      match goal with
      | |- context [bind ?m ?k w1] =>
          destruct (bind m k w1) as [[sql|e] w2] eqn:Htpl;
            pose proof (template_pure _ _ _ _ _ _ Htpl) as ->
      end.
      * rewrite bind_run.
        destruct (pg_main.run_databases env c name sql pgv (d :: dbs) [] w1)
          as [[l|e] w3] eqn:Hrun;
          apply run_databases_frame in Hrun as (Hsess & [rows Hrows] & [es Hes]);
          inversion 1; subst;
            (split; [eapply same_sessions_trans; eassumption|]); split; eexists.
        -- rewrite Hrows, Hrows1. reflexivity.
        -- rewrite Hes, Hex1, <- app_assoc. reflexivity.
        -- rewrite Hrows, Hrows1. reflexivity.
        -- rewrite Hes, Hex1, <- app_assoc. reflexivity.
      * rewrite bind_run.
        match goal with
        | |- context [logger.log_execution env ?a ?b ?x ?y ?z w1] =>
            destruct (log_execution_effects env a b x y z w1)
              as (o2 & w2 & -> & Hrows2 & Hex2 & Hsess2)
        end.
        destruct o2 as [[]|e2];
          inversion 1; subst; (split; [eapply same_sessions_trans; eassumption|]);
            split; eexists.
        -- rewrite Hrows2, Hrows1. reflexivity.
        -- rewrite Hex2, Hex1. reflexivity.
        -- rewrite Hrows2, Hrows1. reflexivity.
        -- rewrite Hex2, Hex1. reflexivity.
  - inversion 1; subst. split; [assumption|]. split; eexists.
    + rewrite Hrows1. symmetry. apply app_nil_r.
    + exact Hex1.
Qed.

(** [process_host] of the SQL variant is its first part followed, on an
    open session, by the session part and the closing of the session. *)
Lemma process_host_cases env host_name cmd tv tdbs edbs allow w o w' :
  pg_main.process_host env host_name cmd tv tdbs edbs allow w = (o, w') ->
  exists oa w1,
    pg_main.acquire_session env host_name cmd allow w = (oa, w1) /\
    match oa with
    | Return (inl r) => o = Return r /\ w' = w1
    | Raise e => o = Raise e /\ w' = w1
    | Return (inr (name, client, pgv)) =>
        exists w2,
          pg_main.process_host_session env name cmd client pgv tv tdbs edbs w1 = (o, w2) /\
          w' = close client w2
    end.
Proof.
  unfold pg_main.process_host. rewrite bind_run.
  destruct (pg_main.acquire_session env host_name cmd allow w)
    as [[[r|[[name client] pgv]]|e] w1]; intros H; do 2 eexists;
    (split; [reflexivity|]).
  - now inversion H.
  - unfold finally_close in H.
    destruct (pg_main.process_host_session env name cmd client pgv tv tdbs edbs w1)
      as [o2 w2] eqn:Hs. inversion H; subst. exists w2. split; [exact Hs | reflexivity].
  - now inversion H.
Qed.

(** X12: whatever [process_host] of the SQL variant returns or raises,
    it only appends to the log store and to the records of connection
    attempts, remote invocations and closed sessions, and it never
    writes a host-keys file. *)
Theorem pg_pipeline_only_appends env host_name cmd tv tdbs edbs allow w :
  Audit.only_appends w
    (snd (pg_main.process_host env host_name cmd tv tdbs edbs allow w)).
Proof.
  destruct (pg_main.process_host env host_name cmd tv tdbs edbs allow w) as [o w'] eqn:H.
  cbn [snd].
  apply process_host_cases in H as (oa & w1 & Hacq & Hcase).
  pose proof (acquire_session_effects _ _ _ _ _ _ _ Hacq) as (Hf & Hex & Hcl & Ho).
  assert (Audit.only_appends w w1) as H1.
  { unfold Audit.only_appends. split; [exact Hf|].
    destruct oa as [[r|[[name client] pgv]]|e].
    - destruct Ho as (_ & _ & _ & _ & _ & _ & Hconn & msg & row & _ & Hrows & _).
      conjs.
      + eexists; exact Hrows.
      + destruct Hconn as [-> | ->]; [exists []; now rewrite app_nil_r | eexists; reflexivity].
      + exists []. now rewrite app_nil_r.
      + exists []. now rewrite app_nil_r.
    - destruct Ho as (_ & _ & Hconn & Hrows). conjs.
      + exists []. now rewrite app_nil_r.
      + eexists; eassumption.
      + exists []. now rewrite app_nil_r.
      + exists []. now rewrite app_nil_r.
    - destruct Ho as (Hconn & Hrows). conjs.
      + exists []. now rewrite app_nil_r.
      + destruct Hconn as [-> | ->]; [exists []; now rewrite app_nil_r | eexists; reflexivity].
      + exists []. now rewrite app_nil_r.
      + exists []. now rewrite app_nil_r. }
  destruct oa as [[r|[[name client] pgv]]|e].
  - destruct Hcase as [_ ->]. exact H1.
  - destruct Hcase as (w2 & Hs & ->).
    apply session_frame in Hs as ((Hf2 & Hc2 & Hl2) & [rows Hrows] & [es Hes]).
    eapply only_appends_trans; [exact H1|].
    unfold Audit.only_appends, close. cbn. conjs; try assumption.
    + eexists; eassumption.
    + exists []. now rewrite app_nil_r.
    + eexists; eassumption.
    + eexists. rewrite Hl2. reflexivity.
  - destruct Hcase as [_ ->]. exact H1.
Qed.

(** X13: the SQL pipeline makes at most one connection attempt, to the
    host it was given.  When its session opens, the session is closed
    exactly once, whether the pipeline returns or raises; when no
    session opens, nothing is closed and nothing is run on the host. *)
Theorem pg_session_closed_once env host_name cmd tv tdbs edbs allow w :
  let w' := snd (pg_main.process_host env host_name cmd tv tdbs edbs allow w) in
  match fst (pg_main.acquire_session env host_name cmd allow w) with
  | Return (inr _) =>
      connects w' = connects w ++ [host_name] /\ closes w' = closes w ++ [host_name]
  | _ =>
      closes w' = closes w /\ execs w' = execs w /\
      (connects w' = connects w \/ connects w' = connects w ++ [host_name])
  end.
Proof.
  destruct (pg_main.process_host env host_name cmd tv tdbs edbs allow w) as [o w'] eqn:H.
  cbn [snd]. cbv zeta.
  apply process_host_cases in H as (oa & w1 & Hacq & Hcase).
  pose proof (acquire_session_effects _ _ _ _ _ _ _ Hacq) as (Hf & Hex & Hcl & Ho).
  rewrite Hacq. cbn [fst].
  destruct oa as [[r|[[name client] pgv]]|e].
  - destruct Hcase as [_ ->].
    destruct Ho as (_ & _ & _ & _ & _ & _ & Hconn & _). tauto.
  - destruct Hcase as (w2 & Hs & ->). destruct Ho as (_ & Hpeer & Hconn & _).
    apply session_frame in Hs as ((Hf2 & Hc2 & Hl2) & _).
    unfold close. cbn. rewrite Hc2, Hl2, Hconn, Hcl, Hpeer. split; reflexivity.
  - destruct Hcase as [_ ->]. destruct Ho as (Hconn & _). tauto.
Qed.

(** Everything [process_host] of the SQL variant returns. *)
Lemma process_host_returns env host_name cmd tv tdbs edbs allow w r w' :
  pg_main.process_host env host_name cmd tv tdbs edbs allow w = (Return r, w') ->
  pg_main.host r = host_name /\
  ((pg_main.results r = None /\ pg_main.success r = false /\
    pg_main.databases_processed r = None /\ pg_main.databases_failed r = None /\
    (execs w' = execs w \/
     execs w' = execs w ++ [(host_name, pg_getter.discovery_command)]) /\
    exists msg row,
      pg_main.error r = Some msg /\
      logger_rows w' = logger_rows w ++ logger.rows_logged env row /\
      log_code row = (if String.eqb (pg_main.ssh_code r) "ssh_0" then "pg_99"
                      else pg_main.ssh_code r) /\
      log_exit_code row = -1 /\ log_database_name row = None /\
      log_stderr_text row = msg /\ log_target_host row = host_name) \/
   (exists l rows sql port (pgv : gmap string string),
      l <> [] /\ pg_main.results r = Some l /\ Forall Audit.unit_ok l /\
      pg_main.ssh_code r = "ssh_0" /\
      pg_main.success r = forallb pg_main.db_success l /\
      pg_main.error r = None /\
      pg_main.databases_processed r = Some (length l) /\
      pg_main.databases_failed r =
        Some (length (List.filter (fun u => negb (pg_main.db_success u)) l)) /\
      logger_rows w' = logger_rows w ++ rows /\
      match logger_db env with
      | Return _ => map Audit.row_summary rows = map Audit.unit_summary l /\
                    Forall (Audit.unit_row_ok host_name sql) rows
      | Raise _ => rows = []
      end /\
      execs w' =
      execs w ++
      match tdbs with
      | Some (_ :: _) => []
      | _ => [(host_name, pg_getter.discovery_command)]
      end ++
      map (fun u => (host_name,
                     postgres_runner.psql_command sql
                       (default "postgres" (pgv !! "PG_DB_USER")) (pg_main.database u)
                       port (default "/usr/bin/psql" (pgv !! "PG_PSQL_PATH"))
                       (pgv !! "PG_PASSWORD"))) l /\
      (forall excl u, edbs = Some excl -> In u l -> ~ In (pg_main.database u) excl) /\
      (forall t ts u, tdbs = Some (t :: ts) -> In u l ->
                      In (pg_main.database u) (t :: ts)) /\
      Audit.renders_to env cmd tv sql)).
Proof.
  intros H. apply process_host_cases in H as (oa & w1 & Hacq & Hcase).
  pose proof (acquire_session_effects _ _ _ _ _ _ _ Hacq) as (Hf & Hex & Hcl & Ho).
  destruct oa as [[r0|[[name client] pgv]]|e].
  - destruct Hcase as [Hr ->]. inversion Hr; subst r0.
    destruct Ho as (Hh & Hres & Hs & Hssh & Hp & Hfl & _ & msg & row & He & Hrows & Hc & Hrest).
    split; [exact Hh|]. left. conjs; try assumption; [now left|].
    exists msg, row. conjs; try assumption; try tauto.
    apply String.eqb_neq in Hssh. now rewrite Hssh.
  - destruct Hcase as (w2 & Hs & ->).
    destruct Ho as (-> & Hpeer & Hconn & Hrows1).
    pose proof (session_returns _ _ _ _ _ _ _ _ _ _ _ Hs)
      as (Hh & Hssh & _ & dbs & w3 & Hres & Hcases).
    pose proof (resolve_databases_effects _ _ _ _ _ _ _ _ Hres)
      as (_ & _ & Hex3 & Hexcl & Hsub).
    split; [exact Hh|]. rewrite Hpeer in *.
    destruct Hcases as [(Hnone & Hsucc & Hpg & Hp & Hfl & Hex2 & msg & row & He & Hrows & Hrow)
                       |(l & rows & sql & port & Hne & Hl & Hmap & Hok & Hsucc & He & Hpg
                         & Hp & Hfl & Hrows & Hlog & Hex2 & Htpl)].
    + left. conjs; try assumption.
      * unfold close. cbn. rewrite Hex2, Hex3, Hex.
        destruct tdbs as [[|t ts]|]; [now right | left; apply app_nil_r | now right].
      * exists msg, row. rewrite Hssh. change (String.eqb "ssh_0" "ssh_0") with true.
        unfold close. cbn. rewrite Hrows, Hrows1. tauto.
    + right. exists l, rows, sql, port, pgv.
      conjs; try assumption.
      * intros ->. now apply Hne.
      * unfold close. cbn. rewrite Hrows, Hrows1. reflexivity.
      * unfold close. cbn. rewrite Hex2, Hex3, Hex, <- Hmap, map_map, <- app_assoc.
        reflexivity.
      * intros excl u Hed Hin. apply (Hexcl excl _ Hed). rewrite <- Hmap.
        now apply in_map.
      * intros t ts u Ht Hin. apply (Hsub t ts _ Ht). rewrite <- Hmap.
        now apply in_map.
  - destruct Hcase as [Hr _]. discriminate Hr.
Qed.

Lemma filter_negb_length {A} (f : A -> bool) (l : list A) :
  length (List.filter (fun x => negb (f x)) l) =
  (length l - length (List.filter f l))%nat.
Proof.
  induction l as [|x l IH]; [reflexivity|]. simpl.
  pose proof (filter_length_bound f l). destruct (f x); simpl; lia.
Qed.

(** X14: an outcome of the SQL pipeline without unit results is a
    failure that was logged exactly once (when the log store opens):
    the row carries the host, no database, the exit code -1, the error
    message of the outcome, and the transport code of the outcome or
    [pg_99] when the transport code is [ssh_0].  At most the discovery
    query was run on the host. *)
Theorem pg_failure_logged_once env host_name cmd tv tdbs edbs allow w r w' :
  pg_main.process_host env host_name cmd tv tdbs edbs allow w = (Return r, w') ->
  pg_main.results r = None ->
  pg_main.success r = false /\
  (execs w' = execs w \/
   execs w' = execs w ++ [(host_name, pg_getter.discovery_command)]) /\
  exists msg row,
    pg_main.error r = Some msg /\
    logger_rows w' = logger_rows w ++ logger.rows_logged env row /\
    log_code row = (if String.eqb (pg_main.ssh_code r) "ssh_0" then "pg_99"
                    else pg_main.ssh_code r) /\
    log_exit_code row = -1 /\ log_database_name row = None /\
    log_stderr_text row = msg /\ log_target_host row = host_name.
Proof.
  intros H Hnone. apply process_host_returns in H as [_ [H|H]].
  - tauto.
  - destruct H as (l & rows & sql & port & pgv & _ & Hl & _). congruence.
Qed.

Lemma pg_failure_logged_once_witness :
  pg_main.success Cases.outcome_idle = false /\
  (execs (snd Cases.run_idle) = execs Fleet.world0 \/
   execs (snd Cases.run_idle) =
   execs Fleet.world0 ++ [("idle", pg_getter.discovery_command)]) /\
  exists msg row,
    pg_main.error Cases.outcome_idle = Some msg /\
    logger_rows (snd Cases.run_idle) =
      logger_rows Fleet.world0 ++ logger.rows_logged Fleet.env row /\
    log_code row = (if String.eqb (pg_main.ssh_code Cases.outcome_idle) "ssh_0"
                    then "pg_99" else pg_main.ssh_code Cases.outcome_idle) /\
    log_exit_code row = -1 /\ log_database_name row = None /\
    log_stderr_text row = msg /\ log_target_host row = "idle".
Proof.
  apply (pg_failure_logged_once Fleet.env "idle" "one" Fleet.no_vars None None false
           Fleet.world0 Cases.outcome_idle (snd Cases.run_idle)).
  - vm_compute. reflexivity.
  - reflexivity.
Defined.

(** X15: when the SQL pipeline returns unit results, the rows it added
    to the log are exactly one per unit, in the order of the units, each
    with the unit's database, code and exit code, the host name, an
    empty stdout, and as its query text the statement of the command:
    the template [get_sql_template] returns for the command name,
    rendered by [render_sql] with the template variables.  When the log
    store cannot be opened, no row was added. *)
Theorem pg_units_logged_in_order env host_name cmd tv tdbs edbs allow w r w' l :
  pg_main.process_host env host_name cmd tv tdbs edbs allow w = (Return r, w') ->
  pg_main.results r = Some l ->
  exists template sql rows,
    (forall w0, pg_getter.get_sql_template env cmd w0 = (Return template, w0)) /\
    render_sql env template tv = Return sql /\
    logger_rows w' = logger_rows w ++ rows /\
    match logger_db env with
    | Return _ => map Audit.row_summary rows = map Audit.unit_summary l /\
                  Forall (Audit.unit_row_ok host_name sql) rows
    | Raise _ => rows = []
    end.
Proof.
  intros H Hl. apply process_host_returns in H as [_ [H|H]].
  - destruct H as (Hnone & _). congruence.
  - destruct H as (l' & rows & sql & port & pgv & _ & Hl' & _ & _ & _ & _ & _ & _
                   & Hrows & Hlog & _ & _ & _ & (template & Htpl & Hrender)).
    assert (l' = l) as -> by congruence. now exists template, sql, rows.
Qed.

Lemma pg_units_logged_in_order_witness :
  exists template sql rows,
    (forall w0, pg_getter.get_sql_template Fleet.env "one" w0 = (Return template, w0)) /\
    render_sql Fleet.env template Fleet.no_vars = Return sql /\
    logger_rows (snd Cases.run_broken) = logger_rows Fleet.world0 ++ rows /\
    match logger_db Fleet.env with
    | Return _ =>
        map Audit.row_summary rows =
        map Audit.unit_summary (pg_main.unit_results Fleet.outcome_broken) /\
        Forall (Audit.unit_row_ok "a" sql) rows
    | Raise _ => rows = []
    end.
Proof.
  apply (pg_units_logged_in_order Fleet.env "a" "one" Fleet.no_vars (Some ["broken"]) None
           false Fleet.world0 Fleet.outcome_broken (snd Cases.run_broken)).
  - vm_compute. reflexivity.
  - reflexivity.
Defined.

(** X16: in every outcome the SQL pipeline returns, the host is the one
    asked for; each unit result is marked successful exactly when its
    code is [pg_0], which is exactly when its exit code is 0, carries no
    data when it failed, and never has the code [pg_99]; and the two
    counters are the number of units and the number of failed units, or
    are absent together with the unit list, in which case an error
    message is present. *)
Theorem pg_outcome_is_consistent env host_name cmd tv tdbs edbs allow w r w' :
  pg_main.process_host env host_name cmd tv tdbs edbs allow w = (Return r, w') ->
  pg_main.host r = host_name /\
  Forall Audit.unit_ok (pg_main.unit_results r) /\
  match pg_main.results r with
  | Some l =>
      l <> [] /\ pg_main.error r = None /\
      pg_main.databases_processed r = Some (length l) /\
      pg_main.databases_failed r = Some (length l - pg_main.successful_units r)%nat
  | None =>
      pg_main.databases_processed r = None /\ pg_main.databases_failed r = None /\
      exists msg, pg_main.error r = Some msg
  end.
Proof.
  intros H. apply process_host_returns in H as [Hh [H|H]]; (split; [exact Hh|]).
  - destruct H as (Hnone & _ & Hp & Hf & _ & msg & row & He & _).
    unfold pg_main.unit_results. rewrite Hnone. split; [constructor|].
    conjs; try assumption. now exists msg.
  - destruct H as (l & rows & sql & port & pgv & Hne & Hl & Hok & _ & _ & He & Hp & Hf & _).
    unfold pg_main.successful_units, pg_main.unit_results. rewrite Hl. cbn [default].
    split; [exact Hok|]. conjs; try assumption.
    rewrite Hf. f_equal. apply filter_negb_length.
Qed.

Lemma pg_outcome_is_consistent_witness :
  pg_main.host Fleet.outcome_broken = "a" /\
  Forall Audit.unit_ok (pg_main.unit_results Fleet.outcome_broken) /\
  match pg_main.results Fleet.outcome_broken with
  | Some l =>
      l <> [] /\ pg_main.error Fleet.outcome_broken = None /\
      pg_main.databases_processed Fleet.outcome_broken = Some (length l) /\
      pg_main.databases_failed Fleet.outcome_broken =
        Some (length l - pg_main.successful_units Fleet.outcome_broken)%nat
  | None =>
      pg_main.databases_processed Fleet.outcome_broken = None /\
      pg_main.databases_failed Fleet.outcome_broken = None /\
      exists msg, pg_main.error Fleet.outcome_broken = Some msg
  end.
Proof.
  apply (pg_outcome_is_consistent Fleet.env "a" "one" Fleet.no_vars (Some ["broken"]) None
           false Fleet.world0 Fleet.outcome_broken (snd Cases.run_broken)).
  vm_compute. reflexivity.
Defined.

(** X17: the SQL pipeline never runs a unit on an excluded database,
    and when databases were named it runs units on named databases
    only. *)
Theorem pg_excluded_never_run env host_name cmd tv tdbs edbs allow w r w' :
  pg_main.process_host env host_name cmd tv tdbs edbs allow w = (Return r, w') ->
  forall u,
    In u (pg_main.unit_results r) ->
    (forall excl, edbs = Some excl -> ~ In (pg_main.database u) excl) /\
    (forall t ts, tdbs = Some (t :: ts) -> In (pg_main.database u) (t :: ts)).
Proof.
  intros H u Hu. apply process_host_returns in H as [_ [H|H]].
  - destruct H as (Hnone & _). unfold pg_main.unit_results in Hu.
    rewrite Hnone in Hu. destruct Hu.
  - destruct H as (l & rows & sql & port & pgv & _ & Hl & _ & _ & _ & _ & _ & _ & _ & _
                   & _ & Hexcl & Hsub & _).
    unfold pg_main.unit_results in Hu. rewrite Hl in Hu. cbn [default] in Hu.
    split; eauto.
Qed.

(** The run of host [a] with database [db1] excluded. *)
Lemma pg_excluded_never_run_witness :
  (forall excl, Some ["db1"] = Some excl ->
                ~ In (pg_main.database Cases.unit_broken) excl) /\
  (forall t ts, @None (list string) = Some (t :: ts) ->
                In (pg_main.database Cases.unit_broken) (t :: ts)).
Proof.
  apply (pg_excluded_never_run Fleet.env "a" "one" Fleet.no_vars None (Some ["db1"])
           false Fleet.world0 Fleet.outcome_broken
           (snd (pg_main.process_host Fleet.env "a" "one" Fleet.no_vars None
                   (Some ["db1"]) false Fleet.world0))).
  - vm_compute. reflexivity.
  - simpl. left. reflexivity.
Defined.

(** X18: when the SQL pipeline returns unit results, what it ran on the
    host is the discovery query (only when no database was named)
    followed by exactly one psql invocation per unit, in the order of
    the units, all with the same statement, user, port, psql path and
    password. *)
Theorem pg_one_invocation_per_unit env host_name cmd tv tdbs edbs allow w r w' l :
  pg_main.process_host env host_name cmd tv tdbs edbs allow w = (Return r, w') ->
  pg_main.results r = Some l ->
  exists sql user port path pw,
    execs w' =
    execs w ++
    match tdbs with
    | Some (_ :: _) => []
    | _ => [(host_name, pg_getter.discovery_command)]
    end ++
    map (fun u => (host_name,
                   postgres_runner.psql_command sql user (pg_main.database u) port
                     path pw)) l.
Proof.
  intros H Hl. apply process_host_returns in H as [_ [H|H]].
  - destruct H as (Hnone & _). congruence.
  - destruct H as (l' & rows & sql & port & pgv & _ & Hl' & _ & _ & _ & _ & _ & _ & _ & _
                   & Hex & _).
    assert (l' = l) as -> by congruence. do 5 eexists. exact Hex.
Qed.

Lemma pg_one_invocation_per_unit_witness :
  exists sql user port path pw,
    execs (snd Cases.run_broken) =
    execs Fleet.world0 ++
    [] ++
    map (fun u => ("a",
                   postgres_runner.psql_command sql user (pg_main.database u) port
                     path pw)) (pg_main.unit_results Fleet.outcome_broken).
Proof.
  apply (pg_one_invocation_per_unit Fleet.env "a" "one" Fleet.no_vars (Some ["broken"])
           None false Fleet.world0 Fleet.outcome_broken (snd Cases.run_broken)).
  - vm_compute. reflexivity.
  - reflexivity.
Defined.

(* ===================================================================== *)
(** ** The shell pipeline *)
(* ===================================================================== *)

(** One shell invocation: what the runner returns and what it does to
    the world. *)
Lemma run_ssh_unit env c command sudo sudo_user timeout w :
  exists res code w',
    ssh_runner.run_ssh_command env c command sudo sudo_user timeout w =
    (Return (res, code), w') /\
    execs w' = execs w ++ [(peer c, ssh_runner.full_cmd command sudo sudo_user)] /\
    logger_rows w' = logger_rows w /\ Audit.same_sessions w w' /\
    (code = "cmd_0" <-> rd_exit_code res = 0) /\
    In code ["cmd_0"; "cmd_10"; "cmd_12"; "cmd_16"; "cmd_18"; "ssh_99"].
Proof.
  unfold ssh_runner.run_ssh_command.
  destruct (exec_command_effects env c (ssh_runner.full_cmd command sudo sudo_user)
              (Some timeout) w) as (run & w' & -> & Hex & Hrows & Hsess).
  destruct run as [e|out err ec].
  - do 3 eexists. conjs; try reflexivity; try assumption.
    + split; discriminate.
    + simpl. tauto.
  - destruct (ec =? 0) eqn:E.
    + apply Z.eqb_eq in E. do 3 eexists.
      conjs; try reflexivity; try assumption; simpl; tauto.
    + apply Z.eqb_neq in E. do 3 eexists.
      conjs; try reflexivity; try assumption.
      * split; [intros H; now apply classify_ssh_error_not_success in H|].
        simpl. intros H. contradiction.
      * unfold ssh_runner._classify_ssh_error. cbv zeta.
        rewrite (proj2 (Z.eqb_neq ec 0) E). cbn [negb].
        generalize (lower (strip err)) as t; intros t.
        split_tests; simpl; tauto.
Qed.

(** The code of a session that did not open is [ssh_99] followed by the
    message of the connection error. *)
Lemma get_ssh_connection_failure_code env u h k t allow w code w' :
  getter.get_ssh_connection env u h k t allow w = (Return (None, code), w') ->
  exists msg, code = "ssh_99: " +:+ msg.
Proof.
  unfold getter.get_ssh_connection, try_except. rewrite bind_run.
  match goal with |- context [?m w] => destruct (m w) as [[cl|e0] w0] end.
  - destruct (bind (connect env cl h u k t) _ w0) as [[[c code']|e] w1] eqn:Hc.
    + rewrite bind_run in Hc.
      destruct (connect env cl h u k t w0) as [[c1|e1] w2]; [|discriminate].
      inversion Hc; subst. inversion 1.
    + inversion 1; subst. now eexists.
  - destruct allow; discriminate.
Qed.

(** Every way [process_host] of the shell variant can end. *)
Lemma ssh_process_host_run env host_name tmpl tv sudo sudo_user timeout allow dry w o w' :
  ssh_main.process_host env host_name tmpl tv sudo sudo_user timeout allow dry w = (o, w') ->
  (w' = w /\
   ((exists e,
       o = Raise e /\
       forall dry',
         ssh_main.process_host env host_name tmpl tv sudo sudo_user timeout allow dry' w
         = (Raise e, w)) \/
    (dry = true /\
     exists rendered,
       render_sql env tmpl tv = Return rendered /\
       o = Return {| ssh_main.host := host_name; ssh_main.success := true;
                     ssh_main.error := None; ssh_main.cmd_code := Some "cmd_0";
                     ssh_main.exit_code := None;
                     ssh_main.stdout := "[DRY-RUN] " +:+ rendered;
                     ssh_main.stderr := EmptyString |}))) \/
  (dry = false /\
   exists rendered msg,
     render_sql env tmpl tv = Return rendered /\
     o = Return {| ssh_main.host := host_name; ssh_main.success := false;
                   ssh_main.error := Some ("SSH error: " +:+ "ssh_99: " +:+ msg);
                   ssh_main.cmd_code := Some ("ssh_99: " +:+ msg);
                   ssh_main.exit_code := Some (-1);
                   ssh_main.stdout := EmptyString; ssh_main.stderr := EmptyString |} /\
     host_key_files w' = host_key_files w /\
     connects w' = connects w ++ [host_name] /\
     execs w' = execs w /\ closes w' = closes w /\
     exists row,
       logger_rows w' = logger_rows w ++ logger.rows_logged env row /\
       log_code row = "ssh_99: " +:+ msg /\ log_exit_code row = -1 /\
       log_target_host row = host_name /\ log_query_text row = rendered /\
       log_database_name row = None) \/
  (dry = false /\
   exists rendered res code,
     render_sql env tmpl tv = Return rendered /\
     o = Return {| ssh_main.host := host_name;
                   ssh_main.success := String.eqb code "cmd_0";
                   ssh_main.error := None; ssh_main.cmd_code := Some code;
                   ssh_main.exit_code := Some (rd_exit_code res);
                   ssh_main.stdout := default EmptyString (rd_stdout res);
                   ssh_main.stderr := rd_stderr res |} /\
     (code = "cmd_0" <-> rd_exit_code res = 0) /\
     In code ["cmd_0"; "cmd_10"; "cmd_12"; "cmd_16"; "cmd_18"; "ssh_99"] /\
     host_key_files w' = host_key_files w /\
     connects w' = connects w ++ [host_name] /\
     execs w' = execs w ++ [(host_name, ssh_runner.full_cmd rendered sudo sudo_user)] /\
     closes w' = closes w ++ [host_name] /\
     exists row,
       logger_rows w' = logger_rows w ++ logger.rows_logged env row /\
       log_code row = code /\ log_exit_code row = rd_exit_code res /\
       log_target_host row = host_name /\ log_query_text row = rendered /\
       log_database_name row = None) \/
  (dry = false /\
   exists e,
     o = Raise e /\
     host_key_files w' = host_key_files w /\
     connects w' = connects w ++ [host_name] /\
     execs w' = execs w /\ closes w' = closes w /\
     logger_rows w' = logger_rows w) \/
  (dry = false /\
   exists e rendered,
     o = Raise e /\
     host_key_files w' = host_key_files w /\
     connects w' = connects w ++ [host_name] /\
     execs w' = execs w ++ [(host_name, ssh_runner.full_cmd rendered sudo sudo_user)] /\
     closes w' = closes w ++ [host_name] /\
     logger_rows w' = logger_rows w).
Proof.
  unfold ssh_main.process_host. rewrite bind_run.
  destruct (getter.get_config_for_host env host_name w) as [[cfg|e] w0] eqn:Hcfg;
    pose proof (get_config_for_host_pure _ _ _ _ _ Hcfg) as ->;
    [|inversion 1; subst; left; split; [reflexivity|]; left; exists e;
      split; [reflexivity|]; intros dry'; now rewrite bind_run, Hcfg].
  pose proof (get_config_for_host_name _ _ _ _ _ Hcfg) as Hname.
  rewrite bind_run.
  destruct (int_get env (snd (fst cfg)) "SSH_TIMEOUT" 10 w) as [[t|e] w2] eqn:Hint;
    pose proof (int_get_pure _ _ _ _ _ _ _ Hint) as ->;
    [|inversion 1; subst; left; split; [reflexivity|]; left; exists e;
      split; [reflexivity|]; intros dry'; now rewrite bind_run, Hcfg, bind_run, Hint].
  rewrite bind_run. unfold of_outcome.
  destruct (render_sql env tmpl tv) as [rendered|e] eqn:Hrender;
    [|inversion 1; subst; left; split; [reflexivity|]; left; exists e;
      split; [reflexivity|]; intros dry';
      now rewrite bind_run, Hcfg, bind_run, Hint, bind_run].
  destruct dry.
  - inversion 1; subst. left. split; [reflexivity|]. right. split; [reflexivity|].
    now exists rendered.
  - rewrite bind_run. rewrite Hname.
    match goal with
    | |- context [getter.get_ssh_connection env ?u host_name ?k t allow w] =>
        destruct (get_ssh_connection_frame env u host_name k t allow w)
          as (client & code & w3 & Hconn & Hrows & Hfiles & Hcs & Hex & Hcl & Hres);
        rewrite Hconn
    end.
    cbn [fst snd].
    destruct Hres as [(cl & -> & -> & Hpeer)|[-> Htf]].
    + change (String.eqb "ssh_0" "ssh_0") with true. cbn [negb].
      unfold finally_close. rewrite bind_run.
      destruct (run_ssh_unit env cl rendered sudo sudo_user timeout w3)
        as (res & code & w4 & -> & Hex4 & Hrows4 & (Hf4 & Hc4 & Hl4) & Hzero & Hcodes).
      rewrite bind_run. cbn [fst snd].
      destruct (log_execution_effects env host_name rendered res code None w4)
        as (o5 & w5 & -> & Hrows5 & Hex5 & (Hf5 & Hc5 & Hl5)).
      destruct o5 as [[]|e5].
      * inversion 1; subst. right. right. left. split; [reflexivity|].
        exists rendered, res, code. unfold close. cbn.
        conjs; try reflexivity; try assumption; try congruence.
        eexists. split; [rewrite Hrows5, Hrows4, Hrows; reflexivity|].
        conjs; reflexivity.
      * inversion 1; subst. right. right. right. right. split; [reflexivity|].
        exists e5, rendered. unfold close. cbn. rewrite app_nil_r in Hrows5.
        conjs; try reflexivity; try congruence.
    + destruct (get_ssh_connection_failure_code _ _ _ _ _ _ _ _ _ Hconn) as [msg ->].
      assert (String.eqb ("ssh_99: " +:+ msg) "ssh_0" = false) as ->.
      { apply String.eqb_neq. intros E. rewrite E in Htf. discriminate Htf. }
      cbn [negb]. rewrite bind_run.
      match goal with
      | |- context [logger.log_execution env ?a ?b ?x ?y ?z w3] =>
          destruct (log_execution_effects env a b x y z w3)
            as (o4 & w4 & -> & Hrows4 & Hex4 & (Hf4 & Hc4 & Hl4))
      end.
      destruct o4 as [[]|e4].
      * inversion 1; subst. right. left. split; [reflexivity|].
        exists rendered, msg.
        conjs; try reflexivity; try congruence.
        eexists. split; [rewrite Hrows4, Hrows; reflexivity|]. conjs; reflexivity.
      * inversion 1; subst. right. right. right. left. split; [reflexivity|].
        exists e4. rewrite app_nil_r in Hrows4.
        conjs; try reflexivity; try congruence.
Qed.

(** X19: in every outcome the shell pipeline returns, the host is the
    one asked for and the success flag is set exactly when the code is
    [cmd_0]; a successful outcome of a real run has the exit code 0; an
    outcome with an error message is a failed one with the exit code
    -1. *)
Theorem ssh_success_iff_cmd_0 env host_name tmpl tv sudo sudo_user timeout allow dry
  w r w' :
  ssh_main.process_host env host_name tmpl tv sudo sudo_user timeout allow dry w =
    (Return r, w') ->
  ssh_main.host r = host_name /\
  (ssh_main.success r = true <-> ssh_main.cmd_code r = Some "cmd_0") /\
  (ssh_main.success r = true -> dry = false -> ssh_main.exit_code r = Some 0) /\
  (forall msg, ssh_main.error r = Some msg ->
               ssh_main.success r = false /\ ssh_main.exit_code r = Some (-1)).
Proof.
  intros H. apply ssh_process_host_run in H
    as [(_ & [(e & He & _)|(Hd & rendered & _ & Ho)])
       |[(Hd & rendered & msg & _ & Ho & _)
        |[(Hd & rendered & res & code & _ & Ho & Hzero & _)
         |[(_ & e & He & _)|(_ & e & rendered & He & _)]]]];
    try discriminate; inversion Ho; subst; cbn.
  all: conjs; try reflexivity; try discriminate.
  - tauto.
  - split; [discriminate|]. intros E. inversion E.
  - intros m _. split; reflexivity.
  - rewrite String.eqb_eq. split; [intros ->; reflexivity | intros E; now inversion E].
  - intros Hs _. apply String.eqb_eq in Hs. f_equal. now apply Hzero.
Qed.

Lemma ssh_success_iff_cmd_0_witness :
  ssh_main.host Cases.shell_outcome_a = "a" /\
  (ssh_main.success Cases.shell_outcome_a = true <->
   ssh_main.cmd_code Cases.shell_outcome_a = Some "cmd_0") /\
  (ssh_main.success Cases.shell_outcome_a = true -> false = false ->
   ssh_main.exit_code Cases.shell_outcome_a = Some 0) /\
  (forall msg, ssh_main.error Cases.shell_outcome_a = Some msg ->
               ssh_main.success Cases.shell_outcome_a = false /\
               ssh_main.exit_code Cases.shell_outcome_a = Some (-1)).
Proof.
  apply (ssh_success_iff_cmd_0 Fleet.env "a" "uptime" Fleet.no_vars false "root" 60 false
           false Fleet.world0 Cases.shell_outcome_a (snd Cases.shell_run_a)).
  vm_compute. reflexivity.
Defined.

(** X20: a dry run of the shell pipeline leaves the world as it was: no
    connection, no invocation, no log row.  It still looks the host up
    and renders the command: when that fails it raises, exactly as the
    real run does; when it returns, the outcome is a success with the
    code [cmd_0], no exit code, and the rendered command after the tag
    [DRY-RUN] as its stdout. *)
Theorem ssh_dry_run_touches_nothing env host_name tmpl tv sudo sudo_user timeout allow w :
  snd (ssh_main.process_host env host_name tmpl tv sudo sudo_user timeout allow true w)
    = w /\
  match fst (ssh_main.process_host env host_name tmpl tv sudo sudo_user timeout allow
               true w) with
  | Return r =>
      ssh_main.success r = true /\ ssh_main.cmd_code r = Some "cmd_0" /\
      ssh_main.exit_code r = None /\
      exists rendered,
        render_sql env tmpl tv = Return rendered /\
        ssh_main.stdout r = "[DRY-RUN] " +:+ rendered
  | Raise e =>
      ssh_main.process_host env host_name tmpl tv sudo sudo_user timeout allow false w
      = (Raise e, w)
  end.
Proof.
  destruct (ssh_main.process_host env host_name tmpl tv sudo sudo_user timeout allow
              true w) as [o w'] eqn:H.
  cbn [fst snd].
  apply ssh_process_host_run in H
    as [(-> & [(e & -> & Hany)|(_ & rendered & Hr & ->)])
       |[(Hd & _)|[(Hd & _)|[(Hd & _)|(Hd & _)]]]]; try discriminate.
  - split; [reflexivity | apply Hany].
  - split; [reflexivity|]. cbn. conjs; try reflexivity. now exists rendered.
Qed.

(** X21: every outcome a real run of the shell pipeline returns was
    logged exactly once (when the log store opens), with the code and
    the exit code of the outcome, after exactly one connection attempt
    to the host. *)
Theorem ssh_outcome_logged_once env host_name tmpl tv sudo sudo_user timeout allow
  w r w' :
  ssh_main.process_host env host_name tmpl tv sudo sudo_user timeout allow false w =
    (Return r, w') ->
  connects w' = connects w ++ [host_name] /\
  exists row,
    logger_rows w' = logger_rows w ++ logger.rows_logged env row /\
    Some (log_code row) = ssh_main.cmd_code r /\
    Some (log_exit_code row) = ssh_main.exit_code r /\
    log_target_host row = host_name /\ log_database_name row = None.
Proof.
  intros H. apply ssh_process_host_run in H
    as [(_ & [(e & He & _)|(Hd & _)])
       |[(_ & rendered & msg & _ & Ho & _ & Hc & _ & _ & row & Hrows & Hcode & Hexit & Ht & _ & Hdb)
        |[(_ & rendered & res & code & _ & Ho & _ & _ & _ & Hc & _ & _ & row & Hrows & Hcode
           & Hexit & Ht & _ & Hdb)
         |[(_ & e & He & _)|(_ & e & rendered & He & _)]]]];
    try discriminate; inversion Ho; subst; cbn; (split; [exact Hc|]);
      exists row; conjs; try reflexivity; try assumption; congruence.
Qed.

Lemma ssh_outcome_logged_once_witness :
  connects (snd Cases.shell_run_b) = connects Fleet.world0 ++ ["b"] /\
  exists row,
    logger_rows (snd Cases.shell_run_b) =
      logger_rows Fleet.world0 ++ logger.rows_logged Fleet.env row /\
    Some (log_code row) = ssh_main.cmd_code Cases.shell_outcome_b /\
    Some (log_exit_code row) = ssh_main.exit_code Cases.shell_outcome_b /\
    log_target_host row = "b" /\ log_database_name row = None.
Proof.
  apply (ssh_outcome_logged_once Fleet.env "b" "uptime" Fleet.no_vars false "root" 60
           false Fleet.world0 Cases.shell_outcome_b (snd Cases.shell_run_b)).
  vm_compute. reflexivity.
Defined.

(** X22: however the shell pipeline ends, it never writes a host-keys
    file, makes at most one connection attempt, and runs at most one
    command; when it runs a command, the session it ran it on is closed
    exactly once; otherwise it closes nothing. *)
Theorem ssh_session_discipline env host_name tmpl tv sudo sudo_user timeout allow dry w :
  let w' := snd (ssh_main.process_host env host_name tmpl tv sudo sudo_user timeout
                   allow dry w) in
  host_key_files w' = host_key_files w /\
  ((execs w' = execs w /\ closes w' = closes w /\
    (connects w' = connects w \/ connects w' = connects w ++ [host_name])) \/
   (exists cmd,
      execs w' = execs w ++ [(host_name, cmd)] /\
      closes w' = closes w ++ [host_name] /\
      connects w' = connects w ++ [host_name])).
Proof.
  destruct (ssh_main.process_host env host_name tmpl tv sudo sudo_user timeout allow
              dry w) as [o w'] eqn:H.
  cbn [snd]. cbv zeta.
  apply ssh_process_host_run in H
    as [(-> & _)
       |[(_ & rendered & msg & _ & _ & Hf & Hc & He & Hl & _)
        |[(_ & rendered & res & code & _ & _ & _ & _ & Hf & Hc & He & Hl & _)
         |[(_ & e & _ & Hf & Hc & He & Hl & _)
          |(_ & e & rendered & _ & Hf & Hc & He & Hl & _)]]]].
  - split; [reflexivity|]. left. tauto.
  - split; [exact Hf|]. left. tauto.
  - split; [exact Hf|]. right. eexists. split; [exact He|]. tauto.
  - split; [exact Hf|]. left. tauto.
  - split; [exact Hf|]. right. eexists. split; [exact He|]. tauto.
Qed.

Lemma status_of_session_failure (msg : string) :
  ssh_report.STATUS_MAP !! ("ssh_99: " +:+ msg) = None.
Proof.
  unfold ssh_report.STATUS_MAP. cbn [list_to_map foldr fst snd].
  repeat (rewrite lookup_insert_ne; [|intros E; inversion E]).
  apply lookup_empty.
Qed.

(** X23: the status word printed for an outcome the shell pipeline
    returned is OK exactly when the outcome is a success, and
    UNREACHABLE exactly when its code is [ssh_99], which only the runner
    assigns; an outcome with an error message, that is a host whose
    session could not be opened, is printed as UNKNOWN. *)
Theorem ssh_status_words env host_name tmpl tv sudo sudo_user timeout allow dry w r w' :
  ssh_main.process_host env host_name tmpl tv sudo sudo_user timeout allow dry w =
    (Return r, w') ->
  (ssh_report.print_result r = "OK" <-> ssh_main.success r = true) /\
  (ssh_report.print_result r = "UNREACHABLE" <-> ssh_main.cmd_code r = Some "ssh_99") /\
  (forall msg, ssh_main.error r = Some msg -> ssh_report.print_result r = "UNKNOWN") /\
  In (ssh_report.print_result r) ["OK"; "FAILED"; "UNREACHABLE"; "UNKNOWN"].
Proof.
  intros H. apply ssh_process_host_run in H
    as [(_ & [(e & He & _)|(Hd & rendered & _ & Ho)])
       |[(Hd & rendered & msg & _ & Ho & _)
        |[(Hd & rendered & res & code & _ & Ho & _ & Hcodes & _)
         |[(_ & e & He & _)|(_ & e & rendered & He & _)]]]];
    try discriminate; inversion Ho; subst; unfold ssh_report.print_result; cbn.
  - conjs; try (split; [reflexivity | discriminate]); try discriminate.
    + split; reflexivity.
    + split; discriminate.
    + tauto.
  - rewrite status_of_session_failure. cbn. conjs.
    + split; discriminate.
    + split; [discriminate|]. intros E. inversion E.
    + reflexivity.
    + tauto.
  - simpl in Hcodes.
    repeat (destruct Hcodes as [<-|Hcodes];
            [vm_compute; conjs;
             try (split; [reflexivity | reflexivity]);
             try (split; discriminate); try discriminate; tauto|]).
    destruct Hcodes.
Qed.

Lemma ssh_status_words_witness :
  (ssh_report.print_result Cases.shell_outcome_b = "OK" <->
   ssh_main.success Cases.shell_outcome_b = true) /\
  (ssh_report.print_result Cases.shell_outcome_b = "UNREACHABLE" <->
   ssh_main.cmd_code Cases.shell_outcome_b = Some "ssh_99") /\
  (forall msg, ssh_main.error Cases.shell_outcome_b = Some msg ->
               ssh_report.print_result Cases.shell_outcome_b = "UNKNOWN") /\
  In (ssh_report.print_result Cases.shell_outcome_b)
     ["OK"; "FAILED"; "UNREACHABLE"; "UNKNOWN"].
Proof.
  apply (ssh_status_words Fleet.env "b" "uptime" Fleet.no_vars false "root" 60 false
           false Fleet.world0 Cases.shell_outcome_b (snd Cases.shell_run_b)).
  vm_compute. reflexivity.
Defined.

(* ===================================================================== *)
(** ** The dispatch loops *)
(* ===================================================================== *)

Lemma run_pool_length {A} (task : string -> M A) (hosts : list string) :
  forall w, length (fst (run_pool task hosts w)) = length hosts.
Proof.
  induction hosts as [|h hosts IH]; intros w; simpl; [reflexivity|].
  destruct (task h w) as [o w1]. specialize (IH w1).
  destruct (run_pool task hosts w1) as [futs w2]. simpl in *. now rewrite IH.
Qed.

(** X24: the SQL dispatcher with no host to process returns at once;
    with hosts and no worker it raises before any host is processed;
    otherwise it returns its three counters, which add up to the number
    of hosts, whatever the hosts' pipelines return or raise. *)
Theorem pg_main_counts_every_host env args w hosts w1 :
  pg_main.hosts_of env args w = (Return hosts, w1) ->
  match hosts with
  | [] => pg_main.main env args w = (Return None, w1)
  | _ :: _ =>
      if pg_main.arg_workers args <=? 0
      then exists e, pg_main.main env args w = (Raise e, w1)
      else exists c w',
             pg_main.main env args w = (Return (Some c), w') /\
             pg_main.total c = length hosts
  end.
Proof.
  intros Hhosts. unfold pg_main.main. rewrite bind_run, Hhosts.
  destruct hosts as [|h hosts]; [reflexivity|].
  unfold ThreadPoolExecutor. destruct (pg_main.arg_workers args <=? 0).
  - eexists. reflexivity.
  - rewrite bind_run. cbn [ret].
    match goal with
    | |- context [run_pool ?t (h :: hosts) w1] =>
        pose proof (run_pool_length t (h :: hosts) w1) as Hlen;
        destruct (run_pool t (h :: hosts) w1) as [futs w2]
    end.
    do 2 eexists. split; [reflexivity|].
    rewrite fold_count_total, length_map. cbn [fst] in Hlen. rewrite Hlen.
    reflexivity.
Qed.

Lemma pg_main_counts_every_host_witness :
  if pg_main.arg_workers (Fleet.pg_args None "one" None) <=? 0
  then exists e, pg_main.main Fleet.env (Fleet.pg_args None "one" None) Fleet.world0
                 = (Raise e, Fleet.world0)
  else exists c w',
         pg_main.main Fleet.env (Fleet.pg_args None "one" None) Fleet.world0
         = (Return (Some c), w') /\
         pg_main.total c = length ["a"; "b"; "c"].
Proof.
  apply (pg_main_counts_every_host Fleet.env (Fleet.pg_args None "one" None) Fleet.world0
           ["a"; "b"; "c"] Fleet.world0).
  reflexivity.
Defined.

(** X25: the shell dispatcher run on a single host whose pipeline
    raises (an unknown or switched-off host, an unrenderable command)
    does not return the exit code 1 when the verbose flag is off: its
    closing look-up of the host's result raises [KeyError]; with the
    verbose flag on it returns 1. *)
Theorem ssh_main_single_failed_host env args w h w1 e w2 :
  ssh_main.hosts_of env args w = (Return [h], w1) ->
  1 <= ssh_main.arg_workers args ->
  ssh_main.process_host env h
    (default (ssh_main.arg_cmd args)
       (ssh_main.get_command_template env (ssh_main.arg_cmd args)))
    (template_vars_of (ssh_main.arg_var args)) (ssh_main.arg_sudo args)
    (ssh_main.arg_sudo_user args) (ssh_main.arg_timeout args)
    (ssh_main.arg_allow_new_hosts args) (ssh_main.arg_dry_run args) w1 = (Raise e, w2) ->
  exists e',
    exn_class e' = "KeyError" /\
    ssh_main.main env args w =
    (if ssh_main.arg_verbose args then Return 1 else Raise e', w2).
Proof.
  intros Hhosts Hw Hrun. exists (Exn "KeyError" h). split; [reflexivity|].
  unfold ssh_main.main. rewrite bind_run, Hhosts.
  unfold ThreadPoolExecutor.
  assert ((ssh_main.arg_workers args <=? 0) = false) as -> by (apply Z.leb_gt; lia).
  rewrite bind_run. cbn [ret]. rewrite bind_run. cbv beta.
  unfold ssh_main.dispatch. cbn [run_pool]. rewrite Hrun. cbn.
  destruct (ssh_main.arg_verbose args); reflexivity.
Qed.

Lemma ssh_main_single_failed_host_witness :
  exists e',
    exn_class e' = "KeyError" /\
    ssh_main.main Fleet.env (Fleet.ssh_args (Some "idle") "up") Fleet.world0 =
    (if ssh_main.arg_verbose (Fleet.ssh_args (Some "idle") "up") then Return 1
     else Raise e', Fleet.world0).
Proof.
  apply (ssh_main_single_failed_host Fleet.env (Fleet.ssh_args (Some "idle") "up")
           Fleet.world0 "idle" Fleet.world0
           (Exn "ValueError" "Host 'idle' not found or disabled") Fleet.world0).
  - reflexivity.
  - simpl. lia.
  - vm_compute. reflexivity.
Defined.

(* ===================================================================== *)
(** ** Opening a session: the two host-key modes *)
(* ===================================================================== *)

(** X26: for a reachable host that accepts the login, the strict mode
    opens a session exactly when the system known-hosts file holds the
    key the host presents, and answers a missing or a different key with
    a code [ssh_99: ...]; the permissive mode reads no known-hosts file
    and opens the session in all three cases, a different recorded key
    included. *)
Theorem host_key_modes env u h k t w srv :
  network env h = Return srv ->
  server_accepts srv u k = true ->
  (exists c w',
      getter.get_ssh_connection env u h k t true w = (Return (Some c, "ssh_0"), w')) /\
  match lookup_key (default [] (host_key_files w !! system_known_hosts)) h
          (key_type (server_key srv)) with
  | Some key =>
      if HostKey_eqb key (server_key srv)
      then exists c w',
             getter.get_ssh_connection env u h k t false w =
             (Return (Some c, "ssh_0"), w')
      else exists msg w',
             getter.get_ssh_connection env u h k t false w =
             (Return (None, "ssh_99: " +:+ msg), w')
  | None =>
      exists msg w',
        getter.get_ssh_connection env u h k t false w =
        (Return (None, "ssh_99: " +:+ msg), w')
  end.
Proof.
  intros Hnet Hacc. split.
  - destruct (new_host_accepted_in_memory env u h k t w srv Hnet Hacc)
      as (c & w' & Hrun & _). now exists c, w'.
  - unfold getter.get_ssh_connection, try_except, connect, load_system_host_keys.
    rewrite !bind_run. cbn [ret of_outcome]. rewrite !bind_run. cbn [of_outcome].
    rewrite Hnet. rewrite !bind_run.
    unfold known_key.
    cbn [system_host_keys host_keys set_missing_host_key_policy new_client].
    rewrite app_nil_l.
    destruct (lookup_key (default [] (host_key_files w !! system_known_hosts)) h
                (key_type (server_key srv))) as [key|].
    + destruct (HostKey_eqb key (server_key srv)).
      * cbn [ret]. rewrite Hacc. do 2 eexists. reflexivity.
      * do 2 eexists. reflexivity.
    + cbn [lookup_key find]. unfold missing_host_key. cbn [policy].
      do 2 eexists. reflexivity.
Qed.

Lemma host_key_modes_witness :
  (exists c w',
      getter.get_ssh_connection Fleet.env "ops" "c" "/home/ops/.ssh/id_ed25519" 10 true
        Fleet.world0 = (Return (Some c, "ssh_0"), w')) /\
  match lookup_key (default [] (host_key_files Fleet.world0 !! system_known_hosts)) "c"
          (key_type (server_key Fleet.server_c)) with
  | Some key =>
      if HostKey_eqb key (server_key Fleet.server_c)
      then exists c w',
             getter.get_ssh_connection Fleet.env "ops" "c" "/home/ops/.ssh/id_ed25519"
               10 false Fleet.world0 = (Return (Some c, "ssh_0"), w')
      else exists msg w',
             getter.get_ssh_connection Fleet.env "ops" "c" "/home/ops/.ssh/id_ed25519"
               10 false Fleet.world0 = (Return (None, "ssh_99: " +:+ msg), w')
  | None =>
      exists msg w',
        getter.get_ssh_connection Fleet.env "ops" "c" "/home/ops/.ssh/id_ed25519" 10
          false Fleet.world0 = (Return (None, "ssh_99: " +:+ msg), w')
  end.
Proof.
  apply (host_key_modes Fleet.env "ops" "c" "/home/ops/.ssh/id_ed25519" 10 Fleet.world0
           Fleet.server_c); reflexivity.
Defined.
